(** * qtjsonschema: the widget tree of [widgets.py]

    A shallow embedding of the schema-directed widget tree of
    [qtjsonschema/widgets.py]: the factory [_create_widget], the widget
    classes and their [load_json_object] / [dump_json_object] methods.

    Python objects are mutated in place; here every method that mutates
    [self] returns the new state of the widget, and an exception is an
    explicit [Raise].  The Qt input widgets the classes wrap ([QLineEdit],
    [QSpinBox], [QDoubleSpinBox], [QComboBox], [QCheckBox]) are modelled by
    small records that keep the properties the code reads back. *)

From Stdlib Require Import List ZArith QArith Qround String Ascii Bool Lia.
From Stdlib Require Import DecimalString Permutation.
From Stdlib Require Import Qabs Qpower Lqa.
Import ListNotations.

Set Warnings "-register-all".
Local Open Scope string_scope.
Local Open Scope list_scope.

(** ** JSON values *)

(** A decoded JSON document, as [json.loads] returns it: [None], [bool],
    [int], [float], [str], [list] and [dict].  A [dict] keeps its insertion
    order, so it is an association list; a Python dict holds every key once.
    A [float] is a binary64 number: [JFloat q] stands for the float nearest
    to [q], which is what [json.loads] reads from the literal [q]; the exact
    value of that float is [binary64 q], defined below.  The model has no
    NaN. *)
Inductive json : Type :=
| JNull
| JBool (b : bool)
| JInt (n : Z)
| JFloat (q : Q)
| JStr (s : string)
| JArr (items : list json)
| JObj (members : list (string * json)).

Definition dict := list (string * json).

(** ** Exceptions and outcomes *)

Inductive exn : Type :=
| UnsupportedSchemaError
| KeyError
| ValueError
| TypeError
| AttributeError
| AssertionError
| IndexError
| OverflowError
| ResolutionError
| NotModelled.

(** [NotModelled] is no exception of Python: it marks the one place where
    the code goes on and the model does not follow it (an [enum] that is a
    [str] or a [dict], see [JSONEnumWidget__init__]).

    The result of running a piece of the program: a value, a raised
    exception, or no answer within the recursion budget. *)
Inductive outcome (A : Type) : Type :=
| Ok (a : A)
| Raise (e : exn)
| OutOfFuel.

Arguments Ok {A} a.
Arguments Raise {A} e.
Arguments OutOfFuel {A}.

Definition bind {A B} (m : outcome A) (k : A -> outcome B) : outcome B :=
  match m with
  | Ok a => k a
  | Raise e => Raise e
  | OutOfFuel => OutOfFuel
  end.

Notation "x <- m ;; k" := (bind m (fun x => k))
  (at level 61, m at next level, right associativity).

Definition is_ok {A} (m : outcome A) : bool :=
  match m with Ok _ => true | _ => false end.

(** [never_unsupported m]: [m] does not raise [UnsupportedSchemaError]. *)
Definition never_unsupported {A} (m : outcome A) : Prop :=
  m <> Raise UnsupportedSchemaError.

(** [refines m m']: [m'] is the answer of [m] once [m] has one. *)
Definition refines {A} (m m' : outcome A) : Prop :=
  m = OutOfFuel \/ m = m'.

(** ** Python dictionaries *)

Section Dict.
Context {A : Type}.

(** [d[k]] / [d.get(k)] / [k in d]. *)
Fixpoint dict_get (k : string) (d : list (string * A)) : option A :=
  match d with
  | [] => None
  | (k', v) :: rest => if String.eqb k k' then Some v else dict_get k rest
  end.

(** [d[k] = v]: an existing key keeps its position, a new key goes last. *)
Fixpoint dict_set (k : string) (v : A) (d : list (string * A))
  : list (string * A) :=
  match d with
  | [] => [(k, v)]
  | (k', v') :: rest =>
      if String.eqb k k' then (k', v) :: rest
      else (k', v') :: dict_set k v rest
  end.

Definition dict_has (k : string) (d : list (string * A)) : bool :=
  match dict_get k d with Some _ => true | None => false end.

Definition dict_keys (d : list (string * A)) : list string := map fst d.

(** [d.get(k, default)]. *)
Definition dict_get_default (k : string) (default : A) (d : list (string * A))
  : A :=
  match dict_get k d with Some v => v | None => default end.
End Dict.

(** ** Floating-point numbers

    Python's [float] and C's [double] are binary64: a sign, 53 significant
    bits and an exponent of two.  [binary64 q] is the binary64 number
    nearest to the rational [q], an exact tie going to the even significand;
    below [2^-1022] the numbers are [2^-1074] apart.  A magnitude that
    rounds to [2^1024] or more is infinite; the model writes infinity as
    [infinity], a rational above every finite float and equal to no [int]. *)

Definition pow2 (z : Z) : Q := Qpower 2 z.

(** The integer nearest to [q >= 0], a tie going to the even one. *)
Definition round_half_even (q : Q) : Z :=
  let f := Qfloor q in
  match Qcompare (q - inject_Z f) (1 # 2) with
  | Lt => f
  | Gt => (f + 1)%Z
  | Eq => if Z.even f then f else (f + 1)%Z
  end.

(** The exponent of [a > 0]: [2^e <= a < 2^(e+1)]. *)
Definition ilog2 (a : Q) : Z :=
  let e := (Z.log2 (Qnum a) - Z.log2 (Zpos (Qden a)))%Z in
  if Qle_bool (pow2 e) a then e else (e - 1)%Z.

Definition infinity : Q := pow2 1024 + (1 # 2).

Definition binary64_abs (a : Q) : Q :=
  let u := (Z.max (ilog2 a) (-1022) - 52)%Z in
  let r := inject_Z (round_half_even (a / pow2 u)) * pow2 u in
  if Qle_bool (pow2 1024) r then infinity else r.

Definition binary64 (q : Q) : Q :=
  let q := Qred q in
  match Qnum q with
  | Z0 => 0
  | Zpos _ => Qred (binary64_abs q)
  | Zneg _ => Qred (- binary64_abs (- q))
  end.

(** [float(n)] for an [int]: the nearest float, unless that is infinite. *)
Definition float_of_int (n : Z) : option Q :=
  let x := binary64 (inject_Z n) in
  if Qle_bool infinity (Qabs x) then None else Some x.

(** ** Python operations on JSON values *)

(** Truth value of an object, as [if x:] tests it. *)
Definition truthy (v : json) : bool :=
  match v with
  | JNull => false
  | JBool b => b
  | JInt n => negb (n =? 0)%Z
  | JFloat q => negb (Qeq_bool (binary64 q) 0)
  | JStr s => negb (String.eqb s "")
  | JArr l => match l with [] => false | _ => true end
  | JObj l => match l with [] => false | _ => true end
  end.

(** The numeric value of [bool], [int] and [float]; [bool] is a subclass of
    [int] in Python.  An [int] is exact, a [float] has its binary64 value. *)
Definition as_int (v : json) : option Z :=
  match v with
  | JInt n => Some n
  | JBool b => Some (if b then 1%Z else 0%Z)
  | _ => None
  end.

Definition as_number (v : json) : option Q :=
  match v with
  | JFloat q => Some (binary64 q)
  | _ => option_map inject_Z (as_int v)
  end.

Definition is_float (v : json) : bool :=
  match v with JFloat _ => true | _ => false end.

(** [a == b].  Numbers compare by value across [bool], [int] and [float];
    lists compare element-wise; dicts compare as mappings, whatever the
    order of their keys (the comparison of a plain [dict], as
    [dump_json_object] returns it). *)
Fixpoint py_eqb (a b : json) {struct a} : bool :=
  match a with
  | JNull => match b with JNull => true | _ => false end
  | JStr s => match b with JStr t => String.eqb s t | _ => false end
  | JBool _ | JInt _ | JFloat _ =>
      match as_number a, as_number b with
      | Some x, Some y => Qeq_bool x y
      | _, _ => false
      end
  | JArr la =>
      match b with
      | JArr lb =>
          (fix all2 (la lb : list json) {struct la} : bool :=
             match la, lb with
             | [], [] => true
             | x :: xs, y :: ys => py_eqb x y && all2 xs ys
             | _, _ => false
             end) la lb
      | _ => false
      end
  | JObj ma =>
      match b with
      | JObj mb =>
          (List.length ma =? List.length mb)%nat &&
          (fix all (ma : list (string * json)) {struct ma} : bool :=
             match ma with
             | [] => true
             | (k, x) :: rest =>
                 match dict_get k mb with
                 | Some y => py_eqb x y
                 | None => false
                 end && all rest
             end) ma
      | _ => false
      end
  end.

(** The two loops of [py_eqb], over the elements of two lists and over the
    members of a dict looked up in another. *)
Fixpoint items_eqb (la lb : list json) : bool :=
  match la, lb with
  | [], [] => true
  | x :: xs, y :: ys => py_eqb x y && items_eqb xs ys
  | _, _ => false
  end.

Section MembersEqb.
Variable mb : dict.

Fixpoint members_eqb (ma : dict) : bool :=
  match ma with
  | [] => true
  | (k, x) :: rest =>
      match dict_get k mb with
      | Some y => py_eqb x y
      | None => false
      end && members_eqb rest
  end.
End MembersEqb.

(** [l.index(x)]: the position of the first element equal to [x]. *)
Fixpoint list_index (l : list json) (x : json) : option nat :=
  match l with
  | [] => None
  | y :: rest =>
      if py_eqb y x then Some 0%nat
      else option_map S (list_index rest x)
  end.

(** [l[i]] with Python's negative indices. *)
Definition list_item {A} (l : list A) (i : Z) : outcome A :=
  let n := Z.of_nat (List.length l) in
  let j := if (i <? 0)%Z then (i + n)%Z else i in
  if ((j <? 0) || (n <=? j))%Z then Raise IndexError
  else match nth_error l (Z.to_nat j) with
       | Some x => Ok x
       | None => Raise IndexError
       end.

(** An operand of floating-point arithmetic: a [float], or an [int] turned
    into one ([OverflowError] when it is too large). *)
Definition as_float (v : json) : outcome Q :=
  match v with
  | JFloat q => Ok (binary64 q)
  | _ =>
      match as_int v with
      | Some n =>
          match float_of_int n with
          | Some x => Ok x
          | None => Raise OverflowError
          end
      | None => Raise TypeError
      end
  end.

(** [a + b] and [a - b] on numbers: exact on [int]; as soon as one operand
    is a [float] the other is turned into one and the result is the float
    nearest to the exact sum or difference; anything else is a
    [TypeError]. *)
Definition py_arith (fz : Z -> Z -> Z) (fq : Q -> Q -> Q) (a b : json)
  : outcome json :=
  if is_float a || is_float b then
    x <- as_float a ;;
    y <- as_float b ;;
    Ok (JFloat (binary64 (fq x y)))
  else
    match as_int a, as_int b with
    | Some x, Some y => Ok (JInt (fz x y))
    | _, _ => Raise TypeError
    end.

Definition py_add := py_arith Z.add Qplus.
Definition py_sub := py_arith Z.sub Qminus.

(** The elements [enumerate(data)] walks through: the items of a list, the
    characters of a string, the keys of a dict. *)
Fixpoint chars (s : string) : list json :=
  match s with
  | EmptyString => []
  | String c rest => JStr (String c EmptyString) :: chars rest
  end.

Definition py_iter (data : json) : outcome (list json) :=
  match data with
  | JArr l => Ok l
  | JStr s => Ok (chars s)
  | JObj m => Ok (map (fun kv => JStr (fst kv)) m)
  | _ => Raise TypeError
  end.

(** [data.items()]. *)
Definition py_items (data : json) : outcome dict :=
  match data with
  | JObj m => Ok m
  | _ => Raise AttributeError
  end.

(** ["{:d}".format(n)] for a non-negative index. *)
Definition format_d (n : nat) : string :=
  NilEmpty.string_of_uint (Nat.to_uint n).

(** ** The Qt input widgets

    The widget classes keep their value in a Qt input widget.  The records
    below hold the properties of those widgets that the code sets and reads
    back, with the behaviour Qt documents for the setters. *)

(** PyQt converts an argument declared [int] from a Python [int] (or
    [bool]) that fits a C [int]. *)
Definition as_cint (v : json) : outcome Z :=
  match as_int v with
  | Some n =>
      if ((-2147483648 <=? n) && (n <=? 2147483647))%Z then Ok n
      else Raise OverflowError
  | None => Raise TypeError
  end.

(** An argument declared [double]: a Python [float], or an [int] (or
    [bool]) turned into the nearest float; PyQt refuses an [int] too large
    for one with [TypeError]. *)
Definition as_cdouble (v : json) : outcome Q :=
  match v with
  | JFloat q => Ok (binary64 q)
  | _ =>
      match as_int v with
      | Some n =>
          match float_of_int n with
          | Some x => Ok x
          | None => Raise TypeError
          end
      | None => Raise TypeError
      end
  end.

(** An argument declared [QString]: a Python [str], or [None], which PyQt
    takes as the null string. *)
Definition as_qstring (v : json) : outcome string :=
  match v with
  | JStr s => Ok s
  | JNull => Ok ""
  | _ => Raise TypeError
  end.

(** *** QLineEdit: [text] is always cut to [maxLength] characters. *)
Record QLineEdit : Type := mkQLineEdit { text : string; maxLength : Z }.

Fixpoint str_left (s : string) (n : Z) : string :=
  match s with
  | EmptyString => EmptyString
  | String c rest =>
      if (n <=? 0)%Z then EmptyString else String c (str_left rest (n - 1))
  end.

(** [QString::left(n)]: the whole string when [n] is negative. *)
Definition truncate (n : Z) (s : string) : string :=
  if (n <? 0)%Z then s else str_left s n.

Definition QLineEdit_new : QLineEdit := {| text := ""; maxLength := 32767 |}.

Definition QLineEdit_setMaxLength (v : json) (w : QLineEdit)
  : outcome QLineEdit :=
  n <- as_cint v ;;
  Ok {| text := truncate n (text w); maxLength := n |}.

Definition QLineEdit_setText (v : json) (w : QLineEdit) : outcome QLineEdit :=
  s <- as_qstring v ;;
  Ok {| text := truncate (maxLength w) s; maxLength := maxLength w |}.

(** *** QSpinBox: an [int] kept inside the range [minimum .. maximum]. *)
Record QSpinBox : Type :=
  mkQSpinBox { sb_minimum : Z; sb_maximum : Z; sb_value : Z }.

Definition QSpinBox_new : QSpinBox :=
  {| sb_minimum := 0; sb_maximum := 99; sb_value := 0 |}.

Definition clampZ (lo hi v : Z) : Z :=
  if (v <? lo)%Z then lo else if (hi <? v)%Z then hi else v.

(** [QAbstractSpinBoxPrivate::setRange]: the upper bound is never left
    below the lower one, and the value is brought back into the range. *)
Definition QSpinBox_setRange (lo hi : Z) (w : QSpinBox) : QSpinBox :=
  let hi' := if (lo <? hi)%Z then hi else lo in
  {| sb_minimum := lo; sb_maximum := hi'; sb_value := clampZ lo hi' (sb_value w) |}.

Definition QSpinBox_setMinimum (v : json) (w : QSpinBox) : outcome QSpinBox :=
  m <- as_cint v ;;
  Ok (QSpinBox_setRange m (if (m <? sb_maximum w)%Z then sb_maximum w else m) w).

Definition QSpinBox_setMaximum (v : json) (w : QSpinBox) : outcome QSpinBox :=
  m <- as_cint v ;;
  Ok (QSpinBox_setRange (if (sb_minimum w <? m)%Z then sb_minimum w else m) m w).

Definition QSpinBox_setValue (v : json) (w : QSpinBox) : outcome QSpinBox :=
  n <- as_cint v ;;
  Ok {| sb_minimum := sb_minimum w; sb_maximum := sb_maximum w;
        sb_value := clampZ (sb_minimum w) (sb_maximum w) n |}.

(** *** QDoubleSpinBox: a [double] shown with two decimals, kept inside
    the range; bounds and value are rounded to the decimals shown. *)
Record QDoubleSpinBox : Type :=
  mkQDoubleSpinBox { dsb_minimum : Q; dsb_maximum : Q; dsb_value : Q }.

Definition QDoubleSpinBox_new : QDoubleSpinBox :=
  {| dsb_minimum := 0; dsb_maximum := 9999 # 100; dsb_value := 0 |}.

(** [QDoubleSpinBoxPrivate::round] with [decimals = 2]: the value is
    written with two decimals and read back, which gives the multiple of
    0.01 nearest to it, an exact tie going away from zero (and, read back,
    the float nearest to that multiple). *)
Definition round_decimals (q : Q) : Q :=
  let k := Qfloor (Qabs q * 100 + (1 # 2)) in
  if Qle_bool 0 q then k # 100 else (- k) # 100.

(** The numbers a [QDoubleSpinBox] takes without changing them, with their
    value: an [int] (or [bool]) that a float holds exactly, here one of at
    most [2^53] in size, and a float written with at most two decimals, here
    one of at most [2^40] in size, where the floats lie closer together
    than 0.01. *)
Definition kept_number (v : json) : option Q :=
  match v with
  | JFloat q =>
      if Qeq_bool (inject_Z (Qfloor (q * 100))) (q * 100)
         && Qle_bool (Qabs q) (inject_Z (2 ^ 40))
      then Some q else None
  | _ =>
      match as_int v with
      | Some n =>
          if (Z.abs n <=? 2 ^ 53)%Z then Some (inject_Z n) else None
      | None => None
      end
  end.

Definition Qltb (a b : Q) : bool := negb (Qle_bool b a).

Definition clampQ (lo hi v : Q) : Q :=
  if Qltb v lo then lo else if Qltb hi v then hi else v.

Definition QDoubleSpinBox_setRange (lo hi : Q) (w : QDoubleSpinBox)
  : QDoubleSpinBox :=
  let hi' := if Qltb lo hi then hi else lo in
  {| dsb_minimum := lo; dsb_maximum := hi';
     dsb_value := clampQ lo hi' (dsb_value w) |}.

Definition QDoubleSpinBox_setMinimum (v : json) (w : QDoubleSpinBox)
  : outcome QDoubleSpinBox :=
  x <- as_cdouble v ;;
  let m := round_decimals x in
  Ok (QDoubleSpinBox_setRange m
        (if Qltb m (dsb_maximum w) then dsb_maximum w else m) w).

Definition QDoubleSpinBox_setMaximum (v : json) (w : QDoubleSpinBox)
  : outcome QDoubleSpinBox :=
  x <- as_cdouble v ;;
  let m := round_decimals x in
  Ok (QDoubleSpinBox_setRange
        (if Qltb (dsb_minimum w) m then dsb_minimum w else m) m w).

Definition QDoubleSpinBox_setValue (v : json) (w : QDoubleSpinBox)
  : outcome QDoubleSpinBox :=
  x <- as_cdouble v ;;
  Ok {| dsb_minimum := dsb_minimum w; dsb_maximum := dsb_maximum w;
        dsb_value := clampQ (dsb_minimum w) (dsb_maximum w) (round_decimals x) |}.

(** *** QComboBox: the number of entries and the current one ([-1] when
    there is none).  The first entry added to an empty box becomes
    current.  The entry labels are not kept. *)
Record QComboBox : Type := mkQComboBox { count : nat; currentIndex : Z }.

Definition QComboBox_new : QComboBox := {| count := 0; currentIndex := -1 |}.

Definition QComboBox_addItems (n : nat) (w : QComboBox) : QComboBox :=
  {| count := count w + n;
     currentIndex :=
       if ((count w =? 0) && negb (n =? 0))%nat then 0%Z else currentIndex w |}.

Definition QComboBox_setCurrentIndex (i : nat) (w : QComboBox) : QComboBox :=
  {| count := count w;
     currentIndex := if (i <? count w)%nat then Z.of_nat i else (-1)%Z |}.

(** *** QCheckBox *)
Record QCheckBox : Type := mkQCheckBox { isChecked : bool }.

Definition QCheckBox_new : QCheckBox := {| isChecked := false |}.

Definition QCheckBox_setChecked (v : json) (w : QCheckBox) : outcome QCheckBox :=
  match as_int v with
  | Some n => Ok {| isChecked := negb (n =? 0)%Z |}
  | None => Raise TypeError
  end.

(** *** Spin boxes share one interface ([SpinBoxWidgetBase]): the Qt class
    to instantiate and the [step] of the widget class. *)
Class SpinBox (W : Type) : Type := {
  primitive_class : W;
  step : json;
  setMinimum : json -> W -> outcome W;
  setMaximum : json -> W -> outcome W;
  setValue : json -> W -> outcome W;
  value : W -> json
}.

(** [JSONIntegerWidget]: [QSpinBox], [step = 1]. *)
#[export] Instance IntegerSpinBox : SpinBox QSpinBox := {
  primitive_class := QSpinBox_new;
  step := JInt 1;
  setMinimum := QSpinBox_setMinimum;
  setMaximum := QSpinBox_setMaximum;
  setValue := QSpinBox_setValue;
  value := fun w => JInt (sb_value w)
}.

(** [JSONNumberWidget]: [QDoubleSpinBox], [step = 0.01]. *)
#[export] Instance NumberSpinBox : SpinBox QDoubleSpinBox := {
  primitive_class := QDoubleSpinBox_new;
  step := JFloat (1 # 100);
  setMinimum := QDoubleSpinBox_setMinimum;
  setMaximum := QDoubleSpinBox_setMaximum;
  setValue := QDoubleSpinBox_setValue;
  value := fun w => JFloat (dsb_value w)
}.

(** [SpinBoxWidgetBase._set_limits], in two halves: the bound the code
    computes from the schema, and the call that hands it to the widget. *)
Definition limit_minimum (step : json) (schema : dict) : outcome (option json) :=
  match dict_get "minimum" schema with
  | Some minimum =>
      if truthy (dict_get_default "exclusiveMinimum" (JBool false) schema)
      then m <- py_add minimum step ;; Ok (Some m)
      else Ok (Some minimum)
  | None => Ok None
  end.

Definition limit_maximum (step : json) (schema : dict) : outcome (option json) :=
  match dict_get "maximum" schema with
  | Some maximum =>
      if truthy (dict_get_default "exclusiveMaximum" (JBool false) schema)
      then m <- py_sub maximum step ;; Ok (Some m)
      else Ok (Some maximum)
  | None => Ok None
  end.







Definition _set_limits {W} `{SpinBox W} (schema : dict) (pw : W) : outcome W :=
  lo <- limit_minimum step schema ;;
  pw <- match lo with Some m => setMinimum m pw | None => Ok pw end ;;
  hi <- limit_maximum step schema ;;
  match hi with Some m => setMaximum m pw | None => Ok pw end.

(** ** Resolution context

    [Context] is the class of [tools.py] that resolves references.  The
    factory uses two of its methods, [follow_uri] and [dereference]; they
    are kept abstract, and either may raise. *)
Class ContextOps (C : Type) : Type := {
  follow_uri : C -> json -> outcome C;
  dereference : C -> json -> outcome json
}.

(** A context for schemas without references: [id] leaves it as it is and
    every [$ref] fails to resolve. *)
#[export] Instance NoDocuments : ContextOps unit := {
  follow_uri := fun c _ => Ok c;
  dereference := fun _ _ => Raise ResolutionError
}.

(** The validators a string widget accumulates (classes of [validators.py]);
    they colour the input field and do not touch its text. *)
Inductive validator : Type :=
| RegexValidator (pattern : json)
| FormatValidator (format : json)
| LengthValidator (minimum : json).

(** The classes [_create_widget] chooses from. *)
Inductive widget_class : Type :=
| ClsUnsupported
| ClsObject
| ClsString
| ClsInteger
| ClsArray
| ClsNumber
| ClsBoolean
| ClsEnum.

Definition schema_type_to_widget_class : list (string * widget_class) :=
  [ ("object", ClsObject); ("string", ClsString); ("integer", ClsInteger);
    ("array", ClsArray); ("number", ClsNumber); ("boolean", ClsBoolean) ].

(** [k in v] for a key [k]: membership in a dict or a list, a substring
    test on a [str]. *)
Definition py_contains (k : string) (v : json) : bool :=
  match v with
  | JObj m => dict_has k m
  | JArr l => existsb (fun x => py_eqb x (JStr k)) l
  | JStr s => match String.index 0 k s with Some _ => true | None => false end
  | _ => false
  end.

(** The schema of a node is a mapping ([schema: dict]).  On any other value
    the factory raises before it builds anything.  [k in schema] is a
    [TypeError] on a number, a [bool] or [None].  On a list or a [str] it
    is a test that succeeds, and what raises is [schema[k]] ([TypeError])
    for the first key found of [id], [$ref], [type] (not looked at when
    [enum] is found) and [definitions], or else [schema.get]
    ([AttributeError]) in the constructor.  [id] is looked at on entry only
    ([entry]), not in the target of a reference. *)
Definition non_dict_schema_error (entry : bool) (v : json) : exn :=
  match v with
  | JArr _ | JStr _ =>
      if (entry && py_contains "id" v) || py_contains "$ref" v
         || (py_contains "type" v && negb (py_contains "enum" v))
         || py_contains "definitions" v
      then TypeError else AttributeError
  | _ => TypeError
  end.

Definition as_schema (v : json) : outcome dict :=
  match v with
  | JObj m => Ok m
  | _ => Raise (non_dict_schema_error true v)
  end.

(** The schema a reference leads to. *)
Definition as_target_schema (v : json) : outcome dict :=
  match v with
  | JObj m => Ok m
  | _ => Raise (non_dict_schema_error false v)
  end.

(** [schema_type_to_widget_class.get(schema_type, UnsupportedSchemaWidget)]:
    the key is hashed first, and a list or a dict cannot be. *)
Definition lookup_widget_class (schema_type : json) : outcome widget_class :=
  match schema_type with
  | JArr _ | JObj _ => Raise TypeError
  | JStr s =>
      Ok match dict_get s schema_type_to_widget_class with
         | Some c => c
         | None => ClsUnsupported
         end
  | _ => Ok ClsUnsupported
  end.

(** The three-way choice in [_create_widget]. *)
Definition select_widget_class (schema : dict) : outcome widget_class :=
  if dict_has "enum" schema then Ok ClsEnum
  else match dict_get "type" schema with
       | Some schema_type => lookup_widget_class schema_type
       | None => Ok ClsUnsupported
       end.

(** [setToolTip(schema['description'])] when the schema has a description. *)
Definition set_tooltip (schema : dict) : outcome unit :=
  match dict_get "description" schema with
  | Some d => _ <- as_qstring d ;; Ok tt
  | None => Ok tt
  end.

(** [QLabel(schema.get('title', name))]: the text of the label.  A title
    that is [None] selects the constructor without text. *)
Definition make_label (name : string) (schema : dict) : outcome string :=
  match dict_get "title" schema with
  | Some JNull => Ok ""
  | Some t => as_qstring t
  | None => Ok name
  end.

(** [JSONArrayWidget._get_item_schema]; [additional] is [JNull] for [None]. *)
Definition _get_item_schema (items_schema additional : json) (index : nat)
  : outcome json :=
  match items_schema with
  | JArr l =>
      match nth_error l index with
      | Some s => Ok s
      | None =>
          match additional with
          | JNull => Raise AssertionError
          | s => Ok s
          end
      end
  | JObj _ => Ok items_schema
  | _ => Raise AssertionError
  end.

Section Widgets.
Context {C : Type} `{ContextOps C}.

(** The attributes [JSONBaseWidget.__init__] sets. *)
Inductive base : Type := mk_base {
  name : string;
  schema : dict;
  ctx : C;
  parent : option base;
  definitions : json
}.

(** A widget with the state of its class.  The children of an object are
    the dict [properties]; those of an array are the pages of
    [widget_stack]. *)
Inductive widget : Type :=
| UnsupportedSchemaWidget (b : base)
| JSONObjectWidget (b : base) (properties : list (string * widget))
| JSONEnumWidget (b : base) (enum_values : list json)
    (primitive_widget : QComboBox)
| JSONStringWidget (b : base) (_validator : list validator)
    (primitive_widget : QLineEdit)
| JSONIntegerWidget (b : base) (primitive_widget : QSpinBox)
| JSONNumberWidget (b : base) (primitive_widget : QDoubleSpinBox)
| JSONBooleanWidget (b : base) (primitive_widget : QCheckBox)
| JSONArrayWidget (b : base) (items_schema : json)
    (additional_item_schema : json) (widget_stack : list widget).

Definition widget_base (w : widget) : base :=
  match w with
  | UnsupportedSchemaWidget b | JSONObjectWidget b _ | JSONEnumWidget b _ _
  | JSONStringWidget b _ _ | JSONIntegerWidget b _ | JSONNumberWidget b _
  | JSONBooleanWidget b _ | JSONArrayWidget b _ _ _ => b
  end.

(** *** Constructors *)

Definition JSONBaseWidget__init__ (name : string) (schema : dict) (ctx : C)
    (parent : option base) : base :=
  {| name := name; schema := schema; ctx := ctx; parent := parent;
     definitions :=
       match dict_get "definitions" schema with
       | Some d => d
       | None =>
           match parent with
           | Some p => definitions p
           | None => JObj []
           end
       end |}.

Definition UnsupportedSchemaWidget__init__ (name : string) (schema : dict)
    (ctx : C) (parent : option base) : outcome widget :=
  Ok (UnsupportedSchemaWidget (JSONBaseWidget__init__ name schema ctx parent)).

Definition JSONPrimitiveBaseWidget__init__ (name : string) (schema : dict)
    (ctx : C) (parent : option base) : outcome base :=
  _ <- make_label name schema ;;
  _ <- set_tooltip schema ;;
  Ok (JSONBaseWidget__init__ name schema ctx parent).

(** [schema['enum']] is a JSON array, which the widget keeps as a list.
    [None], a [bool] and a number cannot be iterated over ([TypeError]).  A
    [str] and a [dict] can: the code builds a widget over the characters or
    the keys, whose load and dump then index the [str] or the [dict]; the
    model does not follow it there. *)
Definition JSONEnumWidget__init__ (name : string) (schema : dict) (ctx : C)
    (parent : option base) : outcome widget :=
  b <- JSONPrimitiveBaseWidget__init__ name schema ctx parent ;;
  match dict_get "enum" schema with
  | Some (JArr enum_values) =>
      Ok (JSONEnumWidget b enum_values
            (QComboBox_addItems (List.length enum_values) QComboBox_new))
  | Some (JStr _) | Some (JObj _) => Raise NotModelled
  | Some _ => Raise TypeError
  | None => Raise KeyError
  end.

Definition JSONStringWidget__init__ (name : string) (schema : dict) (ctx : C)
    (parent : option base) : outcome widget :=
  b <- JSONPrimitiveBaseWidget__init__ name schema ctx parent ;;
  let v1 := match dict_get "pattern" schema with
            | Some p => [RegexValidator p] | None => [] end in
  let v2 := match dict_get "format" schema with
            | Some f => [FormatValidator f] | None => [] end in
  let v3 := match dict_get "minLength" schema with
            | Some m => [LengthValidator m] | None => [] end in
  pw <- match dict_get "maxLength" schema with
        | None | Some JNull => Ok QLineEdit_new
        | Some max_length => QLineEdit_setMaxLength max_length QLineEdit_new
        end ;;
  Ok (JSONStringWidget b (v1 ++ v2 ++ v3) pw).

Definition SpinBoxWidgetBase__init__ {W} `{SpinBox W}
    (mk : base -> W -> widget) (name : string) (schema : dict) (ctx : C)
    (parent : option base) : outcome widget :=
  b <- JSONPrimitiveBaseWidget__init__ name schema ctx parent ;;
  pw <- _set_limits schema primitive_class ;;
  Ok (mk b pw).

Definition JSONBooleanWidget__init__ (name : string) (schema : dict)
    (ctx : C) (parent : option base) : outcome widget :=
  b <- JSONPrimitiveBaseWidget__init__ name schema ctx parent ;;
  Ok (JSONBooleanWidget b QCheckBox_new).

Definition JSONArrayWidget__init__ (name : string) (schema : dict) (ctx : C)
    (parent : option base) : outcome widget :=
  let b := JSONBaseWidget__init__ name schema ctx parent in
  _ <- set_tooltip schema ;;
  match dict_get "items" schema with
  | None => Raise UnsupportedSchemaError
  | Some items_schema =>
      Ok (JSONArrayWidget b items_schema
            match dict_get "additionalItems" schema with
            | Some a => a
            | None => JNull
            end [])
  end.

(** *** The methods that call back into the factory

    [create] stands for [_create_widget] and [load] for
    [load_json_object]; the two are tied together below. *)
Section Methods.
Variable create : string -> json -> C -> option base -> outcome widget.
Variable load : widget -> json -> outcome widget.

(** The loop of [JSONObjectWidget.__init__] over
    [schema['properties'].items()]. *)
Fixpoint create_properties (ctx : C) (self : base) (props : dict)
    (properties : list (string * widget))
  : outcome (list (string * widget)) :=
  match props with
  | [] => Ok properties
  | (k, v) :: rest =>
      w <- create k v ctx (Some self) ;;
      create_properties ctx self rest (dict_set k w properties)
  end.

Definition JSONObjectWidget__init__ (name : string) (schema : dict)
    (ctx : C) (parent : option base) : outcome widget :=
  let b := JSONBaseWidget__init__ name schema ctx parent in
  _ <- set_tooltip schema ;;
  match dict_get "properties" schema with
  | None => Ok (JSONObjectWidget b [])
  | Some p =>
      props <- py_items p ;;
      properties <- create_properties ctx b props [] ;;
      Ok (JSONObjectWidget b properties)
  end.

(** [widget_class(name, schema, ctx, parent)]. *)
Definition instantiate (cls : widget_class) (name : string)
    (schema : dict) (ctx : C) (parent : option base) : outcome widget :=
  match cls with
  | ClsUnsupported => UnsupportedSchemaWidget__init__ name schema ctx parent
  | ClsObject => JSONObjectWidget__init__ name schema ctx parent
  | ClsString => JSONStringWidget__init__ name schema ctx parent
  | ClsInteger =>
      SpinBoxWidgetBase__init__ JSONIntegerWidget name schema ctx parent
  | ClsArray => JSONArrayWidget__init__ name schema ctx parent
  | ClsNumber =>
      SpinBoxWidgetBase__init__ JSONNumberWidget name schema ctx parent
  | ClsBoolean => JSONBooleanWidget__init__ name schema ctx parent
  | ClsEnum => JSONEnumWidget__init__ name schema ctx parent
  end.

(** [JSONBaseWidget.initialise]. *)
Definition initialise (w : widget) : outcome widget :=
  match dict_get "default" (schema (widget_base w)) with
  | Some d => load w d
  | None => Ok w
  end.

(** The loop of [JSONObjectWidget.load_json_object] over [data.items()]. *)
Fixpoint load_properties (items : dict) (properties : list (string * widget))
  : outcome (list (string * widget)) :=
  match items with
  | [] => Ok properties
  | (k, v) :: rest =>
      match dict_get k properties with
      | None => Raise KeyError
      | Some child =>
          child' <- load child v ;;
          load_properties rest (dict_set k child' properties)
      end
  end.

(** [JSONArrayWidget.add_item(data)]; [data] is [JNull] for [None], the
    default of the parameter. *)
Definition add_item (b : base) (items_schema additional : json)
    (widget_stack : list widget) (data : json)
  : outcome (list widget) :=
  let index := List.length widget_stack in
  schema <- _get_item_schema items_schema additional index ;;
  obj <- create ("Item #" ++ format_d index) schema (ctx b) (Some b) ;;
  match data with
  | JNull => Ok (widget_stack ++ [obj])
  | _ => obj' <- load obj data ;; Ok (widget_stack ++ [obj'])
  end.

(** [list[i] = x] for an index inside the list. *)
Fixpoint list_set {A} (i : nat) (x : A) (l : list A) : list A :=
  match l, i with
  | [], _ => []
  | _ :: rest, O => x :: rest
  | y :: rest, S i' => y :: list_set i' x rest
  end.

(** The loop of [JSONArrayWidget.load_json_object] from position [i]. *)
Fixpoint load_items (b : base) (items_schema additional : json)
    (i : nat) (data : list json) (widget_stack : list widget)
  : outcome (list widget) :=
  match data with
  | [] => Ok widget_stack
  | datum :: rest =>
      stack' <-
        match nth_error widget_stack i with
        | Some child =>
            child' <- load child datum ;;
            Ok (list_set i child' widget_stack)
        | None => add_item b items_schema additional widget_stack datum
        end ;;
      load_items b items_schema additional (S i) rest stack'
  end.

(** [load_json_object], by class. *)
Definition load_json_object_body (w : widget) (data : json)
  : outcome widget :=
  match w with
  | UnsupportedSchemaWidget b => Ok w
  | JSONObjectWidget b properties =>
      items <- py_items data ;;
      properties' <- load_properties items properties ;;
      Ok (JSONObjectWidget b properties')
  | JSONEnumWidget b enum_values pw =>
      match list_index enum_values data with
      | Some index =>
          Ok (JSONEnumWidget b enum_values
                (QComboBox_setCurrentIndex index pw))
      | None => Raise ValueError
      end
  | JSONStringWidget b v pw =>
      pw' <- QLineEdit_setText data pw ;;
      Ok (JSONStringWidget b v pw')
  | JSONIntegerWidget b pw =>
      pw' <- setValue data pw ;; Ok (JSONIntegerWidget b pw')
  | JSONNumberWidget b pw =>
      pw' <- setValue data pw ;; Ok (JSONNumberWidget b pw')
  | JSONBooleanWidget b pw =>
      pw' <- QCheckBox_setChecked data pw ;;
      Ok (JSONBooleanWidget b pw')
  | JSONArrayWidget b items_schema additional widget_stack =>
      l <- py_iter data ;;
      stack' <- load_items b items_schema additional 0 l widget_stack ;;
      Ok (JSONArrayWidget b items_schema additional stack')
  end.
End Methods.

(** [while "$ref" in schema: schema = ctx.dereference(schema['$ref'])];
    the source does not bound the loop, [fuel] does. *)
Fixpoint deref_loop (fuel : nat) (ctx : C) (schema : dict) : outcome dict :=
  match dict_get "$ref" schema with
  | None => Ok schema
  | Some ref =>
      match fuel with
      | O => OutOfFuel
      | S fuel' =>
          target <- dereference ctx ref ;;
          schema' <- as_target_schema target ;;
          deref_loop fuel' ctx schema'
      end
  end.

(** The body of [_create_widget]. *)
Definition _create_widget_body
    (create : string -> json -> C -> option base -> outcome widget)
    (load : widget -> json -> outcome widget) (fuel : nat)
    (name : string) (schema : json) (ctx : C) (parent : option base)
  : outcome widget :=
  schema <- as_schema schema ;;
  ctx <- match dict_get "id" schema with
         | Some i => follow_uri ctx i
         | None => Ok ctx
         end ;;
  schema <- deref_loop fuel ctx schema ;;
  widget_class <- select_widget_class schema ;;
  widget <- match instantiate create widget_class name schema ctx parent with
            | Raise UnsupportedSchemaError =>
                UnsupportedSchemaWidget__init__ name schema ctx parent
            | r => r
            end ;;
  initialise load widget.

(** [_create_widget] and [load_json_object] call each other (a default is
    loaded at creation, an array creates widgets while loading); [fuel]
    bounds the depth of the calls. *)
Fixpoint _create_widget (fuel : nat) (name : string) (schema : json)
    (ctx : C) (parent : option base) {struct fuel} : outcome widget :=
  match fuel with
  | O => OutOfFuel
  | S fuel' =>
      _create_widget_body (_create_widget fuel') (load_json_object fuel')
        fuel' name schema ctx parent
  end
with load_json_object (fuel : nat) (w : widget) (data : json)
    {struct fuel} : outcome widget :=
  match fuel with
  | O => OutOfFuel
  | S fuel' =>
      load_json_object_body (_create_widget fuel') (load_json_object fuel')
        w data
  end.

(** [JSONArrayWidget.remove_item]. *)
Definition remove_item (w : widget) : widget :=
  match w with
  | JSONArrayWidget b items_schema additional widget_stack =>
      JSONArrayWidget b items_schema additional (removelast widget_stack)
  | _ => w
  end.

(** [dump_json_object], by class. *)
Fixpoint dump_json_object (w : widget) : outcome json :=
  match w with
  | UnsupportedSchemaWidget _ => Ok (JStr "(unsupported)")
  | JSONObjectWidget _ properties =>
      m <- (fix dump_properties (l : list (string * widget))
              : outcome dict :=
              match l with
              | [] => Ok []
              | (k, v) :: rest =>
                  d <- dump_json_object v ;;
                  m <- dump_properties rest ;;
                  Ok ((k, d) :: m)
              end) properties ;;
      Ok (JObj m)
  | JSONEnumWidget _ enum_values pw => list_item enum_values (currentIndex pw)
  | JSONStringWidget _ _ pw => Ok (JStr (text pw))
  | JSONIntegerWidget _ pw => Ok (value pw)
  | JSONNumberWidget _ pw => Ok (value pw)
  | JSONBooleanWidget _ pw => Ok (JBool (isChecked pw))
  | JSONArrayWidget _ _ _ widget_stack =>
      l <- (fix dump_stack (l : list widget) : outcome (list json) :=
              match l with
              | [] => Ok []
              | v :: rest =>
                  d <- dump_json_object v ;;
                  l' <- dump_stack rest ;;
                  Ok (d :: l')
              end) widget_stack ;;
      Ok (JArr l)
  end.

End Widgets.

(** [create_widget]: the factory started on the root schema, in the context
    built for the document. *)
Definition create_widget {C : Type} `{ContextOps C} (fuel : nat)
    (name : string) (schema : json) (ctx : C) : outcome widget :=
  _create_widget fuel name schema ctx None.

(** ** Invariants of a widget tree *)

Section Invariants.
Context {C : Type} `{ContextOps C}.

(** The widgets directly below a widget. *)
Definition children (w : widget (C := C)) : list widget :=
  match w with
  | JSONObjectWidget _ properties => map snd properties
  | JSONArrayWidget _ _ _ widget_stack => widget_stack
  | _ => []
  end.

(** The rule [JSONBaseWidget.__init__] follows for [definitions]: the
    schema's own entry, else the parent's, else the empty mapping. *)
Definition definitions_rule (b : base (C := C)) : Prop :=
  definitions b =
  match dict_get "definitions" (schema b) with
  | Some d => d
  | None =>
      match parent b with
      | Some p => definitions p
      | None => JObj []
      end
  end.

(** The property names a schema declares. *)
Definition declared_properties (schema : dict) : list string :=
  match dict_get "properties" schema with
  | Some (JObj m) => dict_keys m
  | _ => []
  end.

(** What holds of one node: its [definitions] follow the rule, an object has
    one child per declared property, a combo box has one entry per enum
    value and its current entry is one of them (none when there is none). *)
Definition node_ok (w : widget (C := C)) : Prop :=
  definitions_rule (widget_base w) /\
  match w with
  | JSONObjectWidget b properties =>
      NoDup (dict_keys properties) /\
      (forall k, In k (dict_keys properties)
                 <-> In k (declared_properties (schema b)))
  | JSONEnumWidget _ enum_values pw =>
      count pw = List.length enum_values /\
      (enum_values = [] -> currentIndex pw = (-1)%Z) /\
      (enum_values <> [] ->
       (0 <= currentIndex pw < Z.of_nat (List.length enum_values))%Z)
  | _ => True
  end.

(** The invariant of a tree: every node is [node_ok] and every child names
    the node above it as its [parent]. *)
Inductive tree_ok : widget (C := C) -> Prop :=
| tree_ok_node (w : widget) :
    node_ok w ->
    Forall (fun c => parent (widget_base c) = Some (widget_base w) /\ tree_ok c)
      (children w) ->
    tree_ok w.

(** The two loops of [dump_json_object], over the properties of an object
    and over the pages of an array, as functions of their own. *)
Fixpoint dump_properties (l : list (string * widget (C := C))) : outcome dict :=
  match l with
  | [] => Ok []
  | (k, v) :: rest =>
      d <- dump_json_object v ;;
      m <- dump_properties rest ;;
      Ok ((k, d) :: m)
  end.

Fixpoint dump_stack (l : list (widget (C := C))) : outcome (list json) :=
  match l with
  | [] => Ok []
  | v :: rest =>
      d <- dump_json_object v ;;
      l' <- dump_stack rest ;;
      Ok (d :: l')
  end.

(** No Enum node of the tree has an empty list of values. *)
Fixpoint no_empty_enum (w : widget (C := C)) : bool :=
  match w with
  | JSONEnumWidget _ enum_values _ =>
      match enum_values with [] => false | _ => true end
  | JSONObjectWidget _ properties =>
      forallb (fun kv => no_empty_enum (snd kv)) properties
  | JSONArrayWidget _ _ _ widget_stack => forallb no_empty_enum widget_stack
  | _ => true
  end.

(** [in_tree n w]: [n] is [w] or lies somewhere below it. *)
Inductive in_tree (n : widget (C := C)) : widget -> Prop :=
| in_tree_self : in_tree n n
| in_tree_child (c w : widget) :
    In c (children w) -> in_tree n c -> in_tree n w.

(** [evolves w w']: [w'] is [w] after any number of successful loads. *)
Inductive evolves (w : widget (C := C)) : widget -> Prop :=
| evolves_refl : evolves w w
| evolves_load (w1 w2 : widget) (fuel : nat) (data : json) :
    evolves w w1 -> load_json_object fuel w1 data = Ok w2 -> evolves w w2.

(** ** Values that a tree takes without loss

    [fits w v]: the value [v] has the shape of the tree [w] and every scalar
    in it is one the input widget keeps as it is.  A string is no longer
    than the line edit allows; an integer or a number lies in the range of
    the spin box, and the number is one a float with two decimals holds
    ([kept_number]); an object has exactly the keys of [properties]; an
    array is at least as long as the stack of pages, and each further
    element is not [null] and fits the page the factory creates for it. *)
Inductive fits : widget (C := C) -> json -> Prop :=
| fits_string b vs pw s :
    (maxLength pw < 0 \/ Z.of_nat (String.length s) <= maxLength pw)%Z ->
    fits (JSONStringWidget b vs pw) (JStr s)
| fits_integer b pw v n :
    as_int v = Some n ->
    (-2147483648 <= n <= 2147483647)%Z ->
    (sb_minimum pw <= n <= sb_maximum pw)%Z ->
    fits (JSONIntegerWidget b pw) v
| fits_number b pw v q :
    kept_number v = Some q ->
    dsb_minimum pw <= q -> q <= dsb_maximum pw ->
    fits (JSONNumberWidget b pw) v
| fits_boolean b pw x :
    fits (JSONBooleanWidget b pw) (JBool x)
| fits_enum b vals pw v :
    count pw = List.length vals ->
    fits (JSONEnumWidget b vals pw) v
| fits_object b properties items :
    NoDup (dict_keys items) ->
    NoDup (dict_keys properties) ->
    List.length items = List.length properties ->
    (forall k v, In (k, v) items ->
       exists c, dict_get k properties = Some c /\ fits c v) ->
    fits (JSONObjectWidget b properties) (JObj items)
| fits_array b items_schema additional widget_stack l :
    (List.length widget_stack <= List.length l)%nat ->
    (forall i c v, nth_error widget_stack i = Some c ->
       nth_error l i = Some v -> fits c v) ->
    (forall i v, (List.length widget_stack <= i)%nat ->
       nth_error l i = Some v ->
       v <> JNull /\
       forall fuel s c,
         _get_item_schema items_schema additional i = Ok s ->
         _create_widget fuel ("Item #" ++ format_d i) s (ctx b) (Some b) = Ok c ->
         fits c v) ->
    fits (JSONArrayWidget b items_schema additional widget_stack) (JArr l).

(** [round_trips w v]: the tree [w] dumps a value equal to [v]. *)
Definition round_trips (w : widget (C := C)) (v : json) : Prop :=
  exists d, dump_json_object w = Ok d /\ py_eqb d v = true.

(** [linked b c]: [c] is a child of the node with base [b], and its own
    tree satisfies the invariant. *)
Definition linked (b : base (C := C)) (c : widget) : Prop :=
  parent (widget_base c) = Some b /\ tree_ok c.

(** What the invariant asks of the factory and of the loader. *)
Definition create_spec
    (create : string -> json -> C -> option base -> outcome widget) : Prop :=
  forall name schema ctx p w,
    create name schema ctx p = Ok w ->
    parent (widget_base w) = p /\ tree_ok w.

Definition load_spec (load : widget -> json -> outcome widget) : Prop :=
  forall w data w',
    tree_ok w -> load w data = Ok w' ->
    widget_base w' = widget_base w /\ tree_ok w'.

End Invariants.

(** ** The buttons of an array, and node-wise invariants *)

Section Buttons.
Context {C : Type} `{ContextOps C}.

(** [JSONArrayWidget.click_add]: [add_item()] with no data.  Only an array
    has the method. *)
Definition click_add (fuel : nat) (w : widget (C := C)) : outcome widget :=
  match w with
  | JSONArrayWidget b items_schema additional widget_stack =>
      stack' <- add_item (_create_widget fuel) (load_json_object fuel)
                  b items_schema additional widget_stack JNull ;;
      Ok (JSONArrayWidget b items_schema additional stack')
  | _ => Raise AttributeError
  end.

(** The nodes that hold one value: every class but Object and Array. *)
Definition is_scalar (w : widget (C := C)) : bool :=
  match w with
  | JSONObjectWidget _ _ | JSONArrayWidget _ _ _ _ => false
  | _ => true
  end.

(** [every_node Q w]: [Q] holds of [w] and of every widget below it. *)
Definition every_node (Q : widget (C := C) -> Prop) (w : widget) : Prop :=
  forall n, in_tree n w -> Q n.

(** The schema a node keeps has no [$ref] left. *)
Definition schema_resolved (w : widget (C := C)) : Prop :=
  dict_get "$ref" (schema (widget_base w)) = None.

(** The spin box of an Integer node has the range [_set_limits] computes
    from the node's schema, and its value lies in that range. *)
Definition spin_in_range (w : widget (C := C)) : Prop :=
  match w with
  | JSONIntegerWidget b pw =>
      exists pw0,
        _set_limits (schema b) QSpinBox_new = Ok pw0 /\
        sb_minimum pw = sb_minimum pw0 /\
        sb_maximum pw = sb_maximum pw0 /\
        (sb_minimum pw <= sb_value pw <= sb_maximum pw)%Z
  | _ => True
  end.

(** The [maxLength] a String node gives its line edit: the schema's, or
    Qt's 32767 when the schema has none. *)
Definition schema_max_length (schema : dict) : outcome Z :=
  match dict_get "maxLength" schema with
  | None | Some JNull => Ok 32767%Z
  | Some v => as_cint v
  end.

(** The line edit of a String node has the [maxLength] of the node's
    schema, and its text is no longer than that (when it is not negative). *)
Definition text_within_limit (w : widget (C := C)) : Prop :=
  match w with
  | JSONStringWidget b _ pw =>
      schema_max_length (schema b) = Ok (maxLength pw) /\
      ((0 <= maxLength pw)%Z ->
       (Z.of_nat (String.length (text pw)) <= maxLength pw)%Z)
  | _ => True
  end.

End Buttons.

(** ** The validation report of the main window ([__main__.py]) *)

(** An error of the schema validator: the path of the schema rule that
    failed, whose steps are keys ([str]) and positions ([int]), and a
    message. *)
Record ValidationError : Type := mkValidationError {
  schema_path : list json;
  message : string
}.

(** [sep.join(parts)]: every part has to be a [str]. *)
Fixpoint str_join (sep : string) (parts : list json) : outcome string :=
  match parts with
  | [] => Ok ""
  | JStr s :: rest =>
      match rest with
      | [] => Ok s
      | _ => tail <- str_join sep rest ;; Ok (s ++ sep ++ tail)%string
      end
  | _ => Raise TypeError
  end.

Definition newline : string := String (ascii_of_nat 10) EmptyString.

(** What [_do_validation] shows. *)
Record Label : Type := mkLabel { label_text : string; label_style : string }.

(** [MainWindow._do_validation]; [iter_errors] stands for the validator of
    the schema ([Draft4Validator(...).iter_errors]). *)
Definition _do_validation {C : Type} `{ContextOps C}
    (iter_errors : json -> list ValidationError)
    (schema_widget : widget (C := C)) : outcome Label :=
  value <- dump_json_object schema_widget ;;
  match iter_errors value with
  | error :: rest =>
      let n := List.length (error :: rest) in
      let error_string :=
        (format_d n ++ (if (1 <? n)%nat then " errors" else " error"))%string in
      path <- str_join "/" (schema_path error) ;;
      Ok {| label_text :=
              (error_string ++ "." ++ newline ++ "First error in " ++ "#/"
               ++ path ++ ":" ++ newline ++ message error)%string;
            label_style := "QLabel { color: red; }" |}
  | [] =>
      Ok {| label_text := "Object validates";
            label_style := "QLabel { color: green; }" |}
  end.

(** ** Example schemas and documents *)

(** An object with a short string and a bounded integer. *)
Definition person_schema : json :=
  JObj [("type", JStr "object");
        ("properties",
         JObj [("name", JObj [("type", JStr "string"); ("maxLength", JInt 10)]);
               ("age", JObj [("type", JStr "integer"); ("minimum", JInt 0);
                             ("maximum", JInt 150)])])].

(** The same object with a default that names one of its two properties. *)
Definition person_with_default_schema : json :=
  JObj [("type", JStr "object");
        ("properties",
         JObj [("name", JObj [("type", JStr "string"); ("maxLength", JInt 10)]);
               ("age", JObj [("type", JStr "integer"); ("minimum", JInt 0);
                             ("maximum", JInt 150)])]);
        ("default", JObj [("name", JStr "Ann")])].

(** An array whose items are one of ["a"] and [null]. *)
Definition nullable_enum_array_schema : json :=
  JObj [("type", JStr "array");
        ("items", JObj [("enum", JArr [JStr "a"; JNull])])].

(** An integer with an exclusive lower bound. *)
Definition level_schema : dict :=
  [("type", JStr "integer"); ("minimum", JInt 1);
   ("exclusiveMinimum", JBool true); ("maximum", JInt 10)].

(** An object with an array that lacks [items] next to a boolean. *)
Definition tagged_schema : json :=
  JObj [("type", JStr "object");
        ("properties",
         JObj [("tags", JObj [("type", JStr "array")]);
               ("done", JObj [("type", JStr "boolean"); ("default", JBool true)])])].

(** The widget the factory builds for a schema without references (the
    placeholder stands in where it builds none). *)
Definition built (fuel : nat) (name : string) (schema : json) : widget :=
  match create_widget fuel name schema tt with
  | Ok w => w
  | _ => UnsupportedSchemaWidget (JSONBaseWidget__init__ name [] tt None)
  end.

Definition person_widget : widget := built 3 "person" person_schema.

Definition first_child (w : widget (C := unit)) : widget :=
  match children w with
  | c :: _ => c
  | [] => w
  end.

Definition colour_widget : widget :=
  built 2 "colour" (JObj [("enum", JArr [JStr "a"; JStr "b"; JStr "c"])]).

(** A document for the person object, its keys in another order. *)
Definition person_doc : json := JObj [("age", JInt 30); ("name", JStr "Ann")].

(** An array of integers that starts with two children. *)
Definition scores_schema : json :=
  JObj [("type", JStr "array");
        ("items", JObj [("type", JStr "integer")]);
        ("default", JArr [JInt 1; JInt 2])].

(** An array of an integer and a string, in this order, and nothing after
    them; it starts with both children. *)
Definition pair_schema : json :=
  JObj [("type", JStr "array");
        ("items", JArr [JObj [("type", JStr "integer")];
                        JObj [("type", JStr "string")]]);
        ("default", JArr [JInt 1; JStr "a"])].

Definition scores_widget : widget := built 4 "scores" scores_schema.

Definition pair_widget : widget := built 4 "pair" pair_schema.

Definition level_widget : widget := built 2 "level" (JObj level_schema).

Definition name_schema : dict := [("type", JStr "string"); ("maxLength", JInt 10)].

Definition name_widget : widget := built 2 "name" (JObj name_schema).

(** The spin box, the line edit and the stack of pages of a widget. *)
Definition spin_box {C : Type} `{ContextOps C} (w : widget (C := C))
  : QSpinBox :=
  match w with
  | JSONIntegerWidget _ pw => pw
  | _ => QSpinBox_new
  end.

Definition line_edit {C : Type} `{ContextOps C} (w : widget (C := C))
  : QLineEdit :=
  match w with
  | JSONStringWidget _ _ pw => pw
  | _ => QLineEdit_new
  end.

(** An object whose second property has a union type. *)
Definition nick_schema : json :=
  JObj [("type", JStr "object");
        ("properties",
         JObj [("name", JObj [("type", JStr "string")]);
               ("nick", JObj [("type", JArr [JStr "string"; JStr "null"])])])].

(** A context that resolves a reference by looking it up in a table of
    schemas, and that [id] leaves as it is. *)
Definition TableDocuments : ContextOps dict := {|
  follow_uri := fun c _ => Ok c;
  dereference := fun c ref =>
    match ref with
    | JStr r =>
        match dict_get r c with
        | Some s => Ok s
        | None => Raise ResolutionError
        end
    | _ => Raise TypeError
    end
|}.

(** Two schemas that refer to one another. *)
Definition cyclic_table : dict :=
  [("#/definitions/a", JObj [("$ref", JStr "#/definitions/b")]);
   ("#/definitions/b", JObj [("$ref", JStr "#/definitions/a")])].

(** A table with one boolean schema, and an object that refers to it. *)
Definition flag_table : dict :=
  [("#/definitions/flag", JObj [("type", JStr "boolean")])].

Definition flag_ref_schema : dict :=
  [("$ref", JStr "#/definitions/flag"); ("default", JBool true)].

Definition task_schema : json :=
  JObj [("type", JStr "object");
        ("properties", JObj [("done", JObj flag_ref_schema)])].

Definition task_widget : widget (C := dict) :=
  match create_widget (H := TableDocuments) 4 "task" task_schema flag_table with
  | Ok w => w
  | _ => UnsupportedSchemaWidget (JSONBaseWidget__init__ "task" [] flag_table None)
  end.

(** Two errors of a validator, the first on [properties/name/maxLength]. *)
Definition two_errors : list ValidationError :=
  [{| schema_path := [JStr "properties"; JStr "name"; JStr "maxLength"];
      message := "'Bartholomew' is too long" |};
   {| schema_path := [JStr "properties"; JStr "age"; JStr "maximum"];
      message := "200 is greater than the maximum of 150" |}].

(** An error on the second schema of a list of item schemas. *)
Definition tuple_error : ValidationError :=
  {| schema_path := [JStr "items"; JInt 1; JStr "type"];
     message := "1 is not of type 'string'" |}.




(** A number above 1 and up to 2.5. *)
Definition ratio_schema : dict :=
  [("type", JStr "number"); ("minimum", JInt 1);
   ("exclusiveMinimum", JBool true); ("maximum", JFloat (5 # 2))].

(** A number with room for large values. *)
Definition wide_schema : dict :=
  [("type", JStr "number"); ("minimum", JInt (-1));
   ("maximum", JInt (10 ^ 17))].

Definition ratio_widget : widget := built 2 "ratio" (JObj ratio_schema).

(** An object that declares [definitions]; one property takes them over,
    the other declares its own and hands them to the item it creates. *)
Definition shelf_schema : json :=
  JObj [("type", JStr "object");
        ("definitions", JObj [("isbn", JObj [("type", JStr "string")])]);
        ("properties",
         JObj [("title", JObj [("type", JStr "string")]);
               ("notes",
                JObj [("type", JStr "array");
                      ("definitions",
                       JObj [("note", JObj [("type", JStr "boolean")])]);
                      ("items", JObj [("type", JStr "string")]);
                      ("default", JArr [JStr "x"])])])].

Definition shelf_widget : widget := built 5 "shelf" shelf_schema.

Definition second_child (w : widget (C := unit)) : widget :=
  match children w with
  | _ :: c :: _ => c
  | _ => w
  end.




(** ** Basic facts about outcomes and dictionaries *)

Lemma bind_Ok {A B} (m : outcome A) (k : A -> outcome B) (b : B) :
  bind m k = Ok b -> exists a, m = Ok a /\ k a = Ok b.
Proof.
  destruct m as [a| |]; simpl; intros E; try discriminate.
  exists a; split; [reflexivity | exact E].
Qed.

(** Splits a successful sequence [x <- m ;; k] into its two steps. *)
Tactic Notation "bind_inv" hyp(H) "as" ident(a) ident(E) :=
  apply bind_Ok in H; destruct H as (a & E & H).

Section DictFacts.
Context {A : Type}.
Implicit Types (d : list (string * A)) (k : string).

Lemma dict_get_In k d (v : A) : dict_get k d = Some v -> In (k, v) d.
Proof.
  induction d as [|[k' v'] d IH]; simpl; [discriminate|].
  destruct (String.eqb_spec k k') as [->|N].
  - intros [= ->]; now left.
  - intros E; right; auto.
Qed.

Lemma dict_get_None k d : dict_get k d = None <-> ~ In k (dict_keys d).
Proof.
  induction d as [|[k' v'] d IH]; simpl.
  - split; [intros _ []|reflexivity].
  - destruct (String.eqb_spec k k') as [->|N].
    + split; [discriminate|intros F; exfalso; apply F; now left].
    + rewrite IH. split; intros F; [intros [E|I]; [congruence|tauto]|tauto].
Qed.

Lemma dict_get_Some_key k d (v : A) :
  dict_get k d = Some v -> In k (dict_keys d).
Proof.
  intros E. apply dict_get_In in E.
  apply (in_map fst) in E. exact E.
Qed.

Lemma dict_get_key_Some k d :
  In k (dict_keys d) -> exists v, dict_get k d = Some v.
Proof.
  intros I. destruct (dict_get k d) as [v|] eqn:E; [now exists v|].
  apply dict_get_None in E. contradiction.
Qed.

Lemma In_dict_get k d (v : A) :
  NoDup (dict_keys d) -> In (k, v) d -> dict_get k d = Some v.
Proof.
  induction d as [|[k' v'] d IH]; simpl; [intros _ []|].
  intros ND [E|I].
  - injection E as -> ->. now rewrite String.eqb_refl.
  - inversion ND as [|? ? NI ND']; subst.
    destruct (String.eqb_spec k k') as [->|N].
    + exfalso. apply NI. apply (in_map fst) in I. exact I.
    + auto.
Qed.

Lemma dict_set_keys_present k (v : A) d :
  In k (dict_keys d) -> dict_keys (dict_set k v d) = dict_keys d.
Proof.
  induction d as [|[k' v'] d IH]; simpl; [intros []|].
  destruct (String.eqb_spec k k') as [->|N]; simpl; [reflexivity|].
  intros [E|I]; [congruence|]. f_equal. apply IH, I.
Qed.

Lemma dict_set_keys_absent k (v : A) d :
  ~ In k (dict_keys d) -> dict_keys (dict_set k v d) = dict_keys d ++ [k].
Proof.
  induction d as [|[k' v'] d IH]; simpl; [reflexivity|].
  destruct (String.eqb_spec k k') as [->|N]; simpl.
  - intros F; exfalso; apply F; now left.
  - intros F. f_equal. apply IH. tauto.
Qed.

Lemma dict_get_set_same k (v : A) d : dict_get k (dict_set k v d) = Some v.
Proof.
  induction d as [|[k' v'] d IH]; simpl.
  - now rewrite String.eqb_refl.
  - destruct (String.eqb_spec k k') as [->|N]; simpl.
    + now rewrite String.eqb_refl.
    + destruct (String.eqb_spec k k'); [contradiction|exact IH].
Qed.

Lemma dict_get_set_other k k' (v : A) d :
  k <> k' -> dict_get k' (dict_set k v d) = dict_get k' d.
Proof.
  intros N. induction d as [|[k0 v0] d IH]; simpl.
  - destruct (String.eqb_spec k' k); [congruence|reflexivity].
  - destruct (String.eqb_spec k k0) as [->|N0]; simpl.
    + destruct (String.eqb_spec k' k0); [congruence|reflexivity].
    + destruct (String.eqb_spec k' k0); [reflexivity|exact IH].
Qed.

Lemma dict_set_In k (v : A) d k' (v' : A) :
  In (k', v') (dict_set k v d) -> (k' = k /\ v' = v) \/ In (k', v') d.
Proof.
  induction d as [|[k0 v0] d IH]; simpl.
  - intros [[= <- <-]|[]]; now left.
  - destruct (String.eqb_spec k k0) as [->|N0]; simpl.
    + intros [[= <- <-]|I]; [now left|right; now right].
    + intros [E|I]; [right; now left|].
      destruct (IH I) as [L|R]; [now left|right; now right].
Qed.

Lemma dict_set_NoDup k (v : A) d :
  NoDup (dict_keys d) -> NoDup (dict_keys (dict_set k v d)).
Proof.
  intros ND. destruct (in_dec string_dec k (dict_keys d)) as [I|NI].
  - now rewrite dict_set_keys_present.
  - rewrite dict_set_keys_absent by exact NI.
    apply NoDup_app; [exact ND|constructor; [intros []|constructor]|].
    intros x Ix [<-|[]]. contradiction.
Qed.
End DictFacts.


(** ** Facts about [list.index] *)

Lemma list_index_Some (l : list json) (x : json) (i : nat) :
  list_index l x = Some i ->
  (exists e, nth_error l i = Some e /\ py_eqb e x = true) /\
  (forall j e, (j < i)%nat -> nth_error l j = Some e -> py_eqb e x = false) /\
  (i < List.length l)%nat.
Proof.
  revert i. induction l as [|y l IH]; simpl; intros i; [discriminate|].
  destruct (py_eqb y x) eqn:E.
  - intros [= <-]. repeat split.
    + exists y. now split.
    + intros j e Hj. lia.
    + lia.
  - destruct (list_index l x) as [i'|]; simpl; [|discriminate].
    intros [= <-]. destruct (IH i' eq_refl) as (He & Hfirst & Hlen).
    repeat split.
    + exact He.
    + intros [|j] e Hj; simpl.
      * intros [= <-]. exact E.
      * apply Hfirst. lia.
    + lia.
Qed.


(** ** Facts about binary64 numbers *)

Lemma pow2_pos (z : Z) : 0 < pow2 z.
Proof. apply Qpower_0_lt. reflexivity. Qed.

Lemma pow2_add (a b : Z) : pow2 (a + b) == pow2 a * pow2 b.
Proof. apply Qpower_plus. discriminate. Qed.

Lemma pow2_sub (a b : Z) : pow2 (a - b) == pow2 a / pow2 b.
Proof. apply Qpower_minus. discriminate. Qed.

Lemma pow2_Z (z : Z) : (0 <= z)%Z -> pow2 z == inject_Z (2 ^ z).
Proof. intros Hz. symmetry. apply (Zpower_Qpower 2 z Hz). Qed.

Lemma pow2_le (a b : Z) : (a <= b)%Z -> pow2 a <= pow2 b.
Proof. intros L. apply Qpower_le_compat_l; [exact L|]. discriminate. Qed.

Lemma pow2_le_inv (a b : Z) : pow2 a <= pow2 b -> (a <= b)%Z.
Proof. intros L. apply (Qpower_le_compat_l_inv 2); [exact L|reflexivity]. Qed.

Lemma inject_Z_pos_lt (n : Z) (d : positive) (x : Z) :
  (x * Zpos d < n)%Z -> inject_Z x < n # d.
Proof. intros L. unfold Qlt. simpl. lia. Qed.

(** [2^(ilog2 a) <= a] for a positive [a]. *)
Lemma ilog2_le (a : Q) : 0 < a -> pow2 (ilog2 a) <= a.
Proof.
  intros Ha. unfold ilog2.
  destruct (Qle_bool _ a) eqn:B; [now apply Qle_bool_iff|]. clear B.
  destruct a as [n d]. cbn [Qnum Qden].
  assert (Hn : (0 < n)%Z) by (unfold Qlt in Ha; simpl in Ha; lia).
  set (l1 := Z.log2 n). set (l2 := Z.log2 (Zpos d)).
  assert (H1 : (2 ^ l1 <= n)%Z) by (apply Z.log2_spec; exact Hn).
  assert (H2 : (Zpos d < 2 ^ (l2 + 1))%Z).
  { replace (l2 + 1)%Z with (Z.succ l2) by lia. apply Z.log2_spec. lia. }
  assert (L1 : (0 <= l1)%Z) by apply Z.log2_nonneg.
  assert (L2 : (0 <= l2)%Z) by apply Z.log2_nonneg.
  replace (l1 - l2 - 1)%Z with (l1 - (l2 + 1))%Z by lia.
  rewrite pow2_sub, (pow2_Z l1 L1), (pow2_Z (l2 + 1)) by lia.
  apply Qle_shift_div_r.
  - change 0 with (inject_Z 0). rewrite <- Zlt_Qlt. lia.
  - unfold Qle. simpl. 
    assert (0 < 2 ^ (l2 + 1))%Z by lia. nia.
Qed.

Lemma round_half_even_near (q : Q) :
  Qabs (inject_Z (round_half_even q) - q) <= 1 # 2.
Proof.
  unfold round_half_even.
  pose proof (Qfloor_le q) as L. pose proof (Qlt_floor q) as U.
  rewrite inject_Z_plus in U. change (inject_Z 1) with 1 in U.
  apply Qabs_Qle_condition.
  destruct (Qcompare_spec (q - inject_Z (Qfloor q)) (1 # 2)) as [E|E|E].
  - destruct (Z.even _); [|rewrite inject_Z_plus; change (inject_Z 1) with 1];
      lra.
  - lra.
  - rewrite inject_Z_plus. change (inject_Z 1) with 1. lra.
Qed.

Lemma round_half_even_int (q : Q) (z : Z) :
  q == inject_Z z -> round_half_even q = z.
Proof.
  intros E. unfold round_half_even.
  rewrite (Qfloor_comp _ _ E), Qfloor_Z.
  destruct (Qcompare_spec (q - inject_Z z) (1 # 2)) as [E'|E'|E'];
    [lra|reflexivity|lra].
Qed.

(** The rounding of a positive number: the unit in the last place [2^u]
    and the multiple of it taken. *)
Lemma binary64_abs_spec (a : Q) :
  0 < a ->
  exists u,
    (pow2 (u + 52) <= a \/ u = (-1074)%Z) /\
    (inject_Z (round_half_even (a / pow2 u)) * pow2 u < pow2 1024 ->
     binary64_abs a = inject_Z (round_half_even (a / pow2 u)) * pow2 u).
Proof.
  intros Ha. unfold binary64_abs.
  set (u := (Z.max (ilog2 a) (-1022) - 52)%Z).
  exists u. split.
  - destruct (Z.max_spec (ilog2 a) (-1022)) as [[L E]|[L E]].
    + right. unfold u. rewrite E. reflexivity.
    + left. unfold u. rewrite E.
      replace (ilog2 a - 52 + 52)%Z with (ilog2 a) by lia.
      now apply ilog2_le.
  - intros L. destruct (Qle_bool _ _) eqn:B; [|reflexivity].
    apply Qle_bool_iff in B. lra.
Qed.

Lemma Qabs_scale (x y p : Q) :
  0 < p -> Qabs (x * p - y) == Qabs (x - y / p) * p.
Proof.
  intros Hp.
  assert (E : x * p - y == (x - y / p) * p) by (field; lra).
  rewrite E, Qabs_Qmult, (Qabs_pos p) by lra. reflexivity.
Qed.

Lemma pow2_41_1024 : inject_Z (2 ^ 41) + 1 < pow2 1024.
Proof.
  apply Qlt_le_trans with (pow2 42).
  - rewrite (pow2_Z 42) by lia.
    change 1 with (inject_Z 1). rewrite <- inject_Z_plus, <- Zlt_Qlt. lia.
  - apply pow2_le. lia.
Qed.

Lemma binary64_abs_near (a : Q) :
  0 < a -> a <= inject_Z (2 ^ 41) ->
  Qabs (binary64_abs a - a) <= 1 # 4096.
Proof.
  intros Ha Hb. destruct (binary64_abs_spec a Ha) as (u & Hu & Hr).
  assert (U : (u <= -11)%Z).
  { destruct Hu as [Hu| ->]; [|lia].
    assert (pow2 (u + 52) <= pow2 41).
    { rewrite (pow2_Z 41) by lia. lra. }
    apply pow2_le_inv in H. lia. }
  assert (P : pow2 u <= 1 # 2048).
  { apply Qle_trans with (pow2 (-11)); [now apply pow2_le|].
    unfold pow2. simpl. unfold Qle. simpl. lia. }
  pose proof (pow2_pos u) as P0.
  pose proof (round_half_even_near (a / pow2 u)) as N.
  set (m := round_half_even (a / pow2 u)) in *.
  assert (A : Qabs (inject_Z m * pow2 u - a) <= 1 # 4096).
  { rewrite Qabs_scale by exact P0.
    pose proof (Qabs_nonneg (inject_Z m - a / pow2 u)). nra. }
  rewrite Hr; [exact A|].
  apply Qabs_Qle_condition in A. pose proof pow2_41_1024. lra.
Qed.

Lemma binary64_abs_int (n : Z) :
  (0 < n <= 2 ^ 53)%Z -> binary64_abs (inject_Z n) == inject_Z n.
Proof.
  intros [Hn Hb].
  assert (Ha : 0 < inject_Z n).
  { change 0 with (inject_Z 0). now rewrite <- Zlt_Qlt. }
  destruct (binary64_abs_spec _ Ha) as (u & Hu & Hr).
  assert (U : (u <= 1)%Z).
  { destruct Hu as [Hu| ->]; [|lia].
    assert (pow2 (u + 52) <= pow2 53).
    { rewrite (pow2_Z 53) by lia. rewrite Zle_Qle in Hb. lra. }
    apply pow2_le_inv in H. lia. }
  pose proof (pow2_pos u) as P0.
  assert (E : exists z, inject_Z n / pow2 u == inject_Z z).
  { destruct (Z.le_gt_cases u 0) as [L|L].
    - exists (n * 2 ^ (- u))%Z.
      rewrite inject_Z_mult, <- (pow2_Z (- u)) by lia.
      replace u with (- - u)%Z at 1 by lia.
      unfold pow2 at 1. rewrite Qpower_opp. fold (pow2 (- u)).
      field. pose proof (pow2_pos (- u)). lra.
    - assert (u = 1%Z) by lia. subst u.
      destruct Hu as [Hu|Hu]; [|discriminate].
      assert (n = (2 ^ 53)%Z).
      { change (1 + 52)%Z with 53%Z in Hu. rewrite (pow2_Z 53) in Hu by lia.
        rewrite <- Zle_Qle in Hu. lia. }
      subst n. exists (2 ^ 52)%Z. reflexivity. }
  destruct E as [z Ez].
  rewrite (round_half_even_int _ _ Ez) in Hr.
  assert (V : inject_Z z * pow2 u == inject_Z n).
  { rewrite <- Ez. field. lra. }
  rewrite Hr; [exact V|].
  rewrite V. apply Qle_lt_trans with (inject_Z (2 ^ 53)).
  - now rewrite <- Zle_Qle.
  - rewrite <- (pow2_Z 53) by lia. apply Qpower_lt_compat_l; [lia|reflexivity].
Qed.

(** ** [binary64] *)

Lemma binary64_compat (q q' : Q) : q == q' -> binary64 q = binary64 q'.
Proof. intros E. unfold binary64. now rewrite (Qred_complete _ _ E). Qed.

Lemma Qnum_sign (q : Q) :
  match Qnum q with
  | Z0 => q == 0
  | Zpos _ => 0 < q
  | Zneg _ => q < 0
  end.
Proof. destruct q as [[|p|p] d]; unfold Qeq, Qlt; simpl; lia. Qed.

(** Within [2^41] a float is within [2^-12] of the number it is nearest
    to. *)
Lemma binary64_near (q : Q) :
  Qabs q <= inject_Z (2 ^ 41) -> Qabs (binary64 q - q) <= 1 # 4096.
Proof.
  intros Hb. unfold binary64.
  pose proof (Qnum_sign (Qred q)) as S. pose proof (Qred_correct q) as R.
  apply Qabs_Qle_condition in Hb.
  destruct (Qnum (Qred q)).
  - apply Qabs_Qle_condition. lra.
  - rewrite Qred_correct.
    assert (Qabs (binary64_abs (Qred q) - Qred q) <= 1 # 4096)
      by (apply binary64_abs_near; lra).
    apply Qabs_Qle_condition in H. apply Qabs_Qle_condition. lra.
  - rewrite Qred_correct.
    assert (Qabs (binary64_abs (- Qred q) - - Qred q) <= 1 # 4096)
      by (apply binary64_abs_near; lra).
    apply Qabs_Qle_condition in H. apply Qabs_Qle_condition. lra.
Qed.

(** An [int] of at most [2^53] in size is a float. *)
Lemma binary64_int (n : Z) :
  (Z.abs n <= 2 ^ 53)%Z -> binary64 (inject_Z n) == inject_Z n.
Proof.
  intros Hb. unfold binary64.
  assert (R : Qred (inject_Z n) = inject_Z n).
  { unfold Qred, inject_Z.
    pose proof (Z.ggcd_gcd n 1) as G.
    pose proof (Z.ggcd_correct_divisors n 1) as D.
    destruct (Z.ggcd n 1) as [g [aa bb]]. cbn [fst snd] in *.
    rewrite Z.gcd_1_r in G. subst g. destruct D as [D1 D2].
    rewrite Z.mul_1_l in D1, D2. now subst. }
  rewrite R. cbn [Qnum inject_Z]. destruct n as [|p|p].
  - reflexivity.
  - rewrite Qred_correct. apply (binary64_abs_int (Z.pos p)). lia.
  - rewrite Qred_correct.
    change (- (Z.neg p # 1)) with (inject_Z (Z.pos p)).
    rewrite (binary64_abs_int (Z.pos p)) by lia. reflexivity.
Qed.

(** ** Rounding to two decimals *)

Lemma round_decimals_compat (x y : Q) :
  x == y -> round_decimals x = round_decimals y.
Proof.
  intros E. unfold round_decimals.
  assert (E1 : Qabs x * 100 + (1 # 2) == Qabs y * 100 + (1 # 2))
    by now rewrite E.
  rewrite (Qfloor_comp _ _ E1), (Qleb_comp 0 0 (Qeq_refl 0) x y E).
  reflexivity.
Qed.

Lemma Qfloor_unique (x : Q) (k : Z) :
  inject_Z k <= x -> x < inject_Z k + 1 -> Qfloor x = k.
Proof.
  intros L U. pose proof (Qfloor_le x) as L'. pose proof (Qlt_floor x) as U'.
  rewrite inject_Z_plus in U'. change (inject_Z 1) with 1 in U'.
  assert (inject_Z (Qfloor x) < inject_Z k + 1) by lra.
  assert (inject_Z k < inject_Z (Qfloor x) + 1) by lra.
  change 1 with (inject_Z 1) in H, H0.
  rewrite <- inject_Z_plus, <- Zlt_Qlt in H, H0. lia.
Qed.

Lemma Qmake_100 (k : Z) : k # 100 == inject_Z k * (1 # 100).
Proof. unfold Qeq, Qmult, inject_Z. simpl. lia. Qed.

(** A number within half a hundredth of [k/100] is shown as [k/100]. *)
Lemma round_decimals_near (x : Q) (k : Z) :
  Qabs (x - (k # 100)) < 1 # 200 -> round_decimals x == k # 100.
Proof.
  intros N. apply Qabs_Qlt_condition in N. rewrite Qmake_100 in N.
  unfold round_decimals.
  destruct (Qle_bool 0 x) eqn:B.
  - apply Qle_bool_iff in B.
    assert (F : Qfloor (Qabs x * 100 + (1 # 2)) = k).
    { apply Qfloor_unique; rewrite (Qabs_pos x B); lra. }
    rewrite F. reflexivity.
  - assert (B' : x <= 0).
    { destruct (Qlt_le_dec 0 x) as [L|L]; [|exact L].
      apply Qlt_le_weak, Qle_bool_iff in L. congruence. }
    assert (F : Qfloor (Qabs x * 100 + (1 # 2)) = (- k)%Z).
    { apply Qfloor_unique; rewrite (Qabs_neg x B'), ?inject_Z_opp; lra. }
    rewrite F, Z.opp_involutive. reflexivity.
Qed.

Lemma round_decimals_cent (k : Z) : round_decimals (k # 100) == k # 100.
Proof.
  apply round_decimals_near.
  assert (E : (k # 100) - (k # 100) == 0) by ring.
  rewrite E. reflexivity.
Qed.

(** ** The numbers a double spin box keeps *)

Lemma infinity_large (x : Q) :
  Qabs x <= inject_Z (2 ^ 53) + 1 -> Qle_bool infinity (Qabs x) = false.
Proof.
  intros B. destruct (Qle_bool infinity (Qabs x)) eqn:E; [|reflexivity].
  apply Qle_bool_iff in E. unfold infinity in E.
  assert (L : pow2 54 <= pow2 1024) by (apply pow2_le; lia).
  rewrite (pow2_Z 54) in L by lia.
  assert (inject_Z (2 ^ 53) + 1 < inject_Z (2 ^ 54)).
  { change 1 with (inject_Z 1). rewrite <- inject_Z_plus, <- Zlt_Qlt. lia. }
  lra.
Qed.

Lemma float_of_int_exact (n : Z) :
  (Z.abs n <= 2 ^ 53)%Z ->
  exists x, float_of_int n = Some x /\ x == inject_Z n.
Proof.
  intros B. unfold float_of_int. pose proof (binary64_int n B) as E.
  rewrite infinity_large.
  - exists (binary64 (inject_Z n)). now split.
  - rewrite E. apply Qabs_Qle_condition.
    assert (- inject_Z (2 ^ 53) <= inject_Z n <= inject_Z (2 ^ 53)).
    { rewrite <- inject_Z_opp, <- !Zle_Qle. lia. }
    lra.
Qed.

Lemma Qabs_zero_le (x y e : Q) : x == y -> 0 <= e -> Qabs (x - y) <= e.
Proof. intros E He. apply Qabs_Qle_condition. lra. Qed.

(** What [kept_number] selects: the argument reaches the spin box as a
    float within [2^-12] of the number, the number is a multiple of 0.01,
    and a float that is the number compares equal to the argument. *)
Lemma kept_number_spec (v : json) (q : Q) :
  kept_number v = Some q ->
  (exists x, as_cdouble v = Ok x /\ as_float v = Ok x /\
             Qabs (x - q) <= 1 # 4096) /\
  (exists k, q == k # 100) /\
  Qabs q <= inject_Z (2 ^ 53) /\
  (forall s, s == q -> py_eqb (JFloat s) v = true).
Proof.
  assert (I : forall n : Z,
            (Z.abs n <= 2 ^ 53)%Z ->
            (exists x, match float_of_int n with
                       | Some x => Ok x
                       | None => Raise TypeError
                       end = Ok x /\
                       match float_of_int n with
                       | Some x => Ok x
                       | None => Raise OverflowError
                       end = Ok x /\
                       Qabs (x - inject_Z n) <= 1 # 4096) /\
            (exists k, inject_Z n == k # 100) /\
            Qabs (inject_Z n) <= inject_Z (2 ^ 53) /\
            (forall s, s == inject_Z n ->
               Qeq_bool (binary64 s) (inject_Z n) = true)).
  { intros n B. destruct (float_of_int_exact n B) as (x & -> & E).
    split; [|split; [|split]].
    - exists x. split; [reflexivity|]. split; [reflexivity|].
      apply Qabs_zero_le; [exact E|discriminate].
    - exists (n * 100)%Z. unfold Qeq, inject_Z. simpl. lia.
    - apply Qabs_Qle_condition. rewrite <- inject_Z_opp, <- !Zle_Qle. lia.
    - intros s Es. rewrite (binary64_compat _ _ Es).
      apply Qeq_bool_iff. now apply binary64_int. }
  unfold kept_number.
  destruct v as [|b|n|q0|s|l|m]; cbn [as_int]; try discriminate.
  - destruct (Z.abs _ <=? _)%Z eqn:B; [|discriminate]. intros [= <-].
    apply Z.leb_le in B. exact (I _ B).
  - destruct (Z.abs _ <=? _)%Z eqn:B; [|discriminate]. intros [= <-].
    apply Z.leb_le in B. exact (I _ B).
  - destruct (_ && _)%bool eqn:B; [|discriminate]. intros [= <-].
    apply andb_true_iff in B. destruct B as [B1 B2].
    apply Qeq_bool_iff in B1. apply Qle_bool_iff in B2.
    split; [|split; [|split]].
    + exists (binary64 q0). split; [reflexivity|]. split; [reflexivity|].
      apply binary64_near. apply Qle_trans with (inject_Z (2 ^ 40)); [exact B2|].
      rewrite <- Zle_Qle. lia.
    + exists (Qfloor (q0 * 100)). rewrite Qmake_100, B1. field.
    + apply Qle_trans with (inject_Z (2 ^ 40)); [exact B2|].
      rewrite <- Zle_Qle. lia.
    + intros s Es. cbn [py_eqb as_number].
      rewrite (binary64_compat _ _ Es). apply Qeq_bool_refl.
Qed.

Lemma py_eqb_kept (v : json) (q s : Q) :
  kept_number v = Some q -> s == q -> py_eqb (JFloat s) v = true.
Proof.
  intros K E.
  destruct v as [|b|n|q0|s0|l|m]; try discriminate;
    try exact (proj2 (proj2 (proj2 (kept_number_spec _ _ K))) s E).
Qed.

(** The spin box shows a kept number as it is. *)
Lemma round_decimals_kept (v : json) (q : Q) :
  kept_number v = Some q ->
  exists x, as_cdouble v = Ok x /\ round_decimals x == q.
Proof.
  intros K. destruct (kept_number_spec _ _ K) as ((x & Hx & _ & N) & (k & Hk) & _).
  exists x. split; [exact Hx|].
  rewrite Hk. apply round_decimals_near. rewrite <- Hk.
  apply Qle_lt_trans with (1 # 4096); [exact N|reflexivity].
Qed.


Section Properties.
Context {C : Type} `{ContextOps C}.

Lemma _create_widget_S fuel name (schema : json) (ctx : C) parent :
  _create_widget (S fuel) name schema ctx parent
  = _create_widget_body (_create_widget fuel) (load_json_object fuel) fuel
      name schema ctx parent.
Proof. reflexivity. Qed.

Lemma load_json_object_S fuel (w : widget (C:=C)) data :
  load_json_object (S fuel) w data
  = load_json_object_body (_create_widget fuel) (load_json_object fuel) w data.
Proof. reflexivity. Qed.

(** *** Enum nodes *)


(** *** Spin boxes *)

Lemma as_cint_Ok (v : json) (a : Z) :
  as_cint v = Ok a ->
  as_int v = Some a /\ (-2147483648 <= a <= 2147483647)%Z.
Proof.
  unfold as_cint. destruct (as_int v) as [n|]; [|discriminate].
  destruct (_ && _)%bool eqn:B; [|discriminate].
  intros [= <-]. apply andb_true_iff in B. destruct B as [B1 B2].
  apply Z.leb_le in B1, B2. split; [reflexivity|lia].
Qed.

(** What [_set_limits] leaves in a fresh [QSpinBox]: the upper bound asked
    for is always in force, the lower one as long as it does not exceed the
    upper one (Qt keeps the range non-empty by lowering the minimum). *)
Lemma QSpinBox_set_limits_range (schema : dict) (pw' : QSpinBox) :
  _set_limits schema QSpinBox_new = Ok pw' ->
  (forall hi, limit_maximum (JInt 1) schema = Ok (Some (JInt hi)) ->
              sb_maximum pw' = hi) /\
  (forall lo, limit_minimum (JInt 1) schema = Ok (Some (JInt lo)) ->
     (limit_maximum (JInt 1) schema = Ok None \/
      exists hi, limit_maximum (JInt 1) schema = Ok (Some (JInt hi)) /\
                 (lo <= hi)%Z) ->
     sb_minimum pw' = lo).
Proof.
  unfold _set_limits. cbn [step IntegerSpinBox setMinimum setMaximum].
  intros E. bind_inv E as lo0 Elo. bind_inv E as pw1 Emin.
  bind_inv E as hi0 Ehi.
  split.
  - intros hi Hhi. rewrite Hhi in Ehi. injection Ehi as <-.
    unfold QSpinBox_setMaximum in E. bind_inv E as a Ea.
    apply as_cint_Ok in Ea. destruct Ea as [[= <-] _].
    injection E as <-. simpl.
    destruct (sb_minimum pw1 <? hi)%Z eqn:L1; simpl.
    + now rewrite L1.
    + now rewrite Z.ltb_irrefl.
  - intros lo Hlo Hcases. rewrite Hlo in Elo. injection Elo as <-.
    unfold QSpinBox_setMinimum in Emin. bind_inv Emin as a Ea.
    apply as_cint_Ok in Ea. destruct Ea as [[= <-] _].
    injection Emin as <-.
    destruct Hcases as [Hn|(hi & Hhi & Hle)].
    + rewrite Hn in Ehi. injection Ehi as <-. injection E as <-. reflexivity.
    + rewrite Hhi in Ehi. injection Ehi as <-.
      unfold QSpinBox_setMaximum in E. bind_inv E as a Ea.
      apply as_cint_Ok in Ea. destruct Ea as [[= <-] _].
      injection E as <-. simpl.
      destruct (lo <? hi)%Z eqn:L1; [reflexivity|].
      apply Z.ltb_ge in L1. lia.
Qed.

Lemma limit_minimum_int (s : dict) (m : Z) :
  dict_get "minimum" s = Some (JInt m) ->
  limit_minimum (JInt 1) s
  = Ok (Some (JInt
      (if truthy (dict_get_default "exclusiveMinimum" (JBool false) s)
       then m + 1 else m))).
Proof.
  intros Hm. unfold limit_minimum. rewrite Hm.
  destruct (truthy _); reflexivity.
Qed.

Lemma limit_maximum_int (s : dict) (M : Z) :
  dict_get "maximum" s = Some (JInt M) ->
  limit_maximum (JInt 1) s
  = Ok (Some (JInt
      (if truthy (dict_get_default "exclusiveMaximum" (JBool false) s)
       then M - 1 else M))).
Proof.
  intros HM. unfold limit_maximum. rewrite HM.
  destruct (truthy _); reflexivity.
Qed.




Lemma Qltb_true (a b : Q) : Qltb a b = true -> a < b.
Proof.
  unfold Qltb. intros E. apply negb_true_iff in E.
  destruct (Qlt_le_dec a b) as [L|L]; [exact L|].
  apply Qle_bool_iff in L. congruence.
Qed.




(** *** The factory: choice of the widget class *)

(** The choice made by [_create_widget] wherever it makes one: [enum] wins
    over [type]; a [type] that is a string is looked up in the table and
    falls back to the placeholder, as does any other hashable value and a
    schema with neither key. *)
Lemma select_widget_class_priority (schema : dict) :
  (dict_has "enum" schema = true -> select_widget_class schema = Ok ClsEnum) /\
  (dict_has "enum" schema = false ->
     forall s, dict_get "type" schema = Some (JStr s) ->
       select_widget_class schema
       = Ok (dict_get_default s ClsUnsupported schema_type_to_widget_class)) /\
  (dict_has "enum" schema = false ->
     forall t, dict_get "type" schema = Some t ->
       match t with JArr _ | JObj _ | JStr _ => False | _ => True end ->
       select_widget_class schema = Ok ClsUnsupported) /\
  (dict_has "enum" schema = false -> dict_get "type" schema = None ->
     select_widget_class schema = Ok ClsUnsupported).
Proof.
  unfold select_widget_class. repeat split.
  - intros ->. reflexivity.
  - intros -> s ->. reflexivity.
  - intros -> t -> Ht. destruct t; simpl in *; try reflexivity; contradiction.
  - intros -> ->. reflexivity.
Qed.

(** The placeholder: it is built from any schema, ignores what is loaded
    into it and dumps a fixed string. *)
Lemma unsupported_widget_inert (fuel : nat) (name : string) (schema : dict)
    (ctx : C) (parent : option base) (data : json) :
  exists b,
    UnsupportedSchemaWidget__init__ name schema ctx parent
    = Ok (UnsupportedSchemaWidget b) /\
    load_json_object (S fuel) (UnsupportedSchemaWidget b) data
    = Ok (UnsupportedSchemaWidget b) /\
    dump_json_object (UnsupportedSchemaWidget b) = Ok (JStr "(unsupported)").
Proof.
  eexists. repeat split.
Qed.

(** C8.  Where the claim fails: a schema whose [type] is a list of type
    names (a union type) reaches the class table, whose lookup hashes the
    key; the list is not hashable, so the factory raises [TypeError] and
    builds no widget, not even the placeholder. *)
Theorem union_type_raises_TypeError (fuel : nat) (name : string) (ctx : C)
    (parent : option base) :
  select_widget_class [("type", JArr [JStr "string"; JStr "null"])]
  = Raise TypeError /\
  _create_widget (S fuel) name
    (JObj [("type", JArr [JStr "string"; JStr "null"])]) ctx parent
  = Raise TypeError.
Proof.
  split; [reflexivity|].
  rewrite _create_widget_S. unfold _create_widget_body.
  cbn [as_schema bind dict_get String.eqb Ascii.eqb Bool.eqb].
  destruct fuel; reflexivity.
Qed.

(** *** The factory: fallback to the placeholder *)

(** C9.  When the constructor of the chosen class fails with
    [UnsupportedSchemaError], the factory answers with the placeholder built
    from the same arguments; an array schema without [items] fails that way;
    and inside an object the loop over the properties goes on with the
    remaining ones after such a child. *)
Theorem factory_degrades_to_unsupported
    (fuel : nat) (name : string) (schema : json) (ctx ctx' : C)
    (s0 s : dict) (cls : widget_class) :
  as_schema schema = Ok s0 ->
  match dict_get "id" s0 with
  | Some i => follow_uri ctx i
  | None => Ok ctx
  end = Ok ctx' ->
  deref_loop (S fuel) ctx' s0 = Ok s ->
  select_widget_class s = Ok cls ->
  (forall parent,
     instantiate (_create_widget (S fuel)) cls name s ctx' parent
     = Raise UnsupportedSchemaError ->
     _create_widget (S (S fuel)) name schema ctx parent
     = Ok (UnsupportedSchemaWidget
             (JSONBaseWidget__init__ name s ctx' parent))) /\
  (forall (self : base) (rest : dict) (properties : list (string * widget)),
     instantiate (_create_widget (S fuel)) cls name s ctx' (Some self)
     = Raise UnsupportedSchemaError ->
     create_properties (_create_widget (S (S fuel))) ctx self
       ((name, schema) :: rest) properties
     = create_properties (_create_widget (S (S fuel))) ctx self rest
         (dict_set name
            (UnsupportedSchemaWidget
               (JSONBaseWidget__init__ name s ctx' (Some self)))
            properties)) /\
  (forall parent,
     cls = ClsArray -> dict_get "items" s = None -> set_tooltip s = Ok tt ->
     instantiate (_create_widget (S fuel)) cls name s ctx' parent
     = Raise UnsupportedSchemaError).
Proof.
  intros Hs Hid Hderef Hsel.
  assert (F : forall parent,
     instantiate (_create_widget (S fuel)) cls name s ctx' parent
     = Raise UnsupportedSchemaError ->
     _create_widget (S (S fuel)) name schema ctx parent
     = Ok (UnsupportedSchemaWidget
             (JSONBaseWidget__init__ name s ctx' parent))).
  { intros parent Hraise.
    rewrite _create_widget_S. unfold _create_widget_body.
    rewrite Hs. cbn [bind]. rewrite Hid. cbn [bind].
    rewrite Hderef. cbn [bind]. rewrite Hsel. cbn [bind].
    rewrite Hraise. unfold UnsupportedSchemaWidget__init__. cbn [bind].
    unfold initialise, JSONBaseWidget__init__. cbn [widget_base].
    simpl. destruct (dict_get "default" s); reflexivity. }
  split; [exact F|split].
  - intros self rest properties Hraise.
    cbn [create_properties]. rewrite (F _ Hraise). reflexivity.
  - intros parent -> Hitems Htip. cbn [instantiate].
    unfold JSONArrayWidget__init__. rewrite Htip. cbn [bind].
    now rewrite Hitems.
Qed.

(** *** The tree invariant *)

Lemma tree_ok_inv (w : widget (C := C)) :
  tree_ok w ->
  node_ok w /\
  Forall (fun c => parent (widget_base c) = Some (widget_base w) /\ tree_ok c)
    (children w).
Proof. intros T. inversion T; subst. now split. Qed.

Lemma JSONBaseWidget__init__rule name (s : dict) (ctx : C) p :
  definitions_rule (JSONBaseWidget__init__ name s ctx p).
Proof. reflexivity. Qed.

Lemma JSONPrimitiveBaseWidget__init__Ok name (s : dict) (ctx : C) p b :
  JSONPrimitiveBaseWidget__init__ name s ctx p = Ok b ->
  b = JSONBaseWidget__init__ name s ctx p.
Proof.
  unfold JSONPrimitiveBaseWidget__init__. intros E.
  bind_inv E as l El. bind_inv E as u Eu. now injection E as <-.
Qed.

(** A widget without children is [tree_ok] as soon as its node is. *)
Lemma tree_ok_leaf (w : widget (C := C)) :
  node_ok w -> children w = [] -> tree_ok w.
Proof.
  intros N Ch. constructor; [exact N|]. rewrite Ch. constructor.
Qed.

Lemma dict_set_Forall {A} (P : string * A -> Prop) k (v : A) d :
  Forall P d -> P (k, v) -> Forall P (dict_set k v d).
Proof.
  intros F Pk. induction F as [|[k' v'] d Px F IH]; simpl.
  - repeat constructor. exact Pk.
  - destruct (String.eqb_spec k k') as [->|N].
    + constructor; assumption.
    + constructor; assumption.
Qed.

Lemma create_properties_ok create (ctx : C) (self : base) props acc res :
  create_spec create ->
  create_properties create ctx self props acc = Ok res ->
  Forall (fun kv => linked self (snd kv)) acc ->
  NoDup (dict_keys acc) ->
  Forall (fun kv => linked self (snd kv)) res /\
  NoDup (dict_keys res) /\
  (forall k, In k (dict_keys res)
             <-> In k (dict_keys acc) \/ In k (dict_keys props)).
Proof.
  intros Hc. revert acc. induction props as [|[k v] props IH]; simpl;
    intros acc E F ND.
  - injection E as <-. repeat split; try assumption; tauto.
  - bind_inv E as w Ew. apply Hc in Ew. destruct Ew as [Hp Hw].
    assert (F1 : Forall (fun kv => linked self (snd kv)) (dict_set k w acc))
      by (apply dict_set_Forall; [exact F|split; assumption]).
    assert (ND1 : NoDup (dict_keys (dict_set k w acc)))
      by now apply dict_set_NoDup.
    destruct (IH _ E F1 ND1) as (F' & ND' & K).
    split; [exact F'|split; [exact ND'|]].
    intros k0. rewrite K. clear K.
    destruct (in_dec string_dec k (dict_keys acc)) as [Ik|Nk].
    + rewrite dict_set_keys_present by exact Ik.
      split; [tauto|]. intros [I|[<-|I]]; tauto.
    + rewrite dict_set_keys_absent by exact Nk.
      rewrite in_app_iff. simpl. tauto.
Qed.

Lemma instantiate_ok create cls name (s : dict) (ctx : C) p w :
  create_spec create ->
  instantiate create cls name s ctx p = Ok w ->
  widget_base w = JSONBaseWidget__init__ name s ctx p /\ tree_ok w.
Proof.
  intros Hc E. destruct cls; cbn [instantiate] in E.
  - injection E as <-. split; [reflexivity|].
    apply tree_ok_leaf; [split; [reflexivity|exact I]|reflexivity].
  - unfold JSONObjectWidget__init__ in E. bind_inv E as u Eu.
    destruct (dict_get "properties" s) as [props|] eqn:Ep.
    + bind_inv E as items Ei. bind_inv E as res Er. injection E as <-.
      destruct props; try discriminate. injection Ei as ->.
      destruct (create_properties_ok _ _ _ _ _ _ Hc Er) as (F & ND & K);
        [constructor|constructor|].
      split; [reflexivity|]. constructor.
      * split; [reflexivity|]. split; [exact ND|].
        intros k. rewrite K. unfold declared_properties.
        cbn [widget_base]. unfold JSONBaseWidget__init__. simpl.
        rewrite Ep. simpl. tauto.
      * cbn [children widget_base]. apply Forall_map. exact F.
    + injection E as <-. split; [reflexivity|]. constructor.
      * split; [reflexivity|]. split; [constructor|].
        intros k. unfold declared_properties.
        cbn [widget_base]. unfold JSONBaseWidget__init__. simpl.
        rewrite Ep. simpl. tauto.
      * constructor.
  - unfold JSONStringWidget__init__ in E. bind_inv E as b Eb.
    bind_inv E as pw Epw. injection E as <-.
    apply JSONPrimitiveBaseWidget__init__Ok in Eb. subst b.
    split; [reflexivity|].
    apply tree_ok_leaf; [split; [reflexivity|exact I]|reflexivity].
  - unfold SpinBoxWidgetBase__init__ in E. bind_inv E as b Eb.
    bind_inv E as pw Epw. injection E as <-.
    apply JSONPrimitiveBaseWidget__init__Ok in Eb. subst b.
    split; [reflexivity|].
    apply tree_ok_leaf; [split; [reflexivity|exact I]|reflexivity].
  - unfold JSONArrayWidget__init__ in E. bind_inv E as u Eu.
    destruct (dict_get "items" s); [|discriminate]. injection E as <-.
    split; [reflexivity|].
    apply tree_ok_leaf; [split; [reflexivity|exact I]|reflexivity].
  - unfold SpinBoxWidgetBase__init__ in E. bind_inv E as b Eb.
    bind_inv E as pw Epw. injection E as <-.
    apply JSONPrimitiveBaseWidget__init__Ok in Eb. subst b.
    split; [reflexivity|].
    apply tree_ok_leaf; [split; [reflexivity|exact I]|reflexivity].
  - unfold JSONBooleanWidget__init__ in E. bind_inv E as b Eb.
    injection E as <-.
    apply JSONPrimitiveBaseWidget__init__Ok in Eb. subst b.
    split; [reflexivity|].
    apply tree_ok_leaf; [split; [reflexivity|exact I]|reflexivity].
  - unfold JSONEnumWidget__init__ in E. bind_inv E as b Eb.
    destruct (dict_get "enum" s) as [[| | | | |l|]|]; try discriminate.
    injection E as <-.
    apply JSONPrimitiveBaseWidget__init__Ok in Eb. subst b.
    split; [reflexivity|].
    apply tree_ok_leaf; [|reflexivity]. split; [reflexivity|].
    cbn. split; [reflexivity|]. split.
    + intros ->. reflexivity.
    + intros NE. destruct l; [contradiction|]. cbn. lia.
Qed.

Lemma _create_widget_body_ok create load fuel :
  create_spec create -> load_spec load ->
  create_spec (_create_widget_body create load fuel).
Proof.
  intros Hc Hl name sch ctx p w E. unfold _create_widget_body in E.
  bind_inv E as s0 Es0. bind_inv E as ctx' Ectx. bind_inv E as s Es.
  bind_inv E as cls Ecls. bind_inv E as w0 Ew0.
  assert (B : widget_base w0 = JSONBaseWidget__init__ name s ctx' p /\
              tree_ok w0).
  { destruct (instantiate create cls name s ctx' p) as [w1|e|] eqn:Ei.
    - injection Ew0 as <-. eapply instantiate_ok; eassumption.
    - destruct e; try discriminate. injection Ew0 as <-.
      split; [reflexivity|].
      apply tree_ok_leaf; [split; [reflexivity|exact I]|reflexivity].
    - discriminate. }
  destruct B as [B T]. unfold initialise in E.
  destruct (dict_get "default" _) as [d|].
  - destruct (Hl _ _ _ T E) as [B' T']. split; [|exact T'].
    rewrite B', B. reflexivity.
  - injection E as <-. split; [|exact T]. rewrite B. reflexivity.
Qed.

Lemma load_properties_ok load (b : base (C := C)) items props props' :
  load_spec load ->
  load_properties load items props = Ok props' ->
  Forall (fun kv => linked b (snd kv)) props ->
  Forall (fun kv => linked b (snd kv)) props' /\
  dict_keys props' = dict_keys props.
Proof.
  intros Hl. revert props. induction items as [|[k v] items IH]; simpl;
    intros props E F.
  - injection E as <-. now split.
  - destruct (dict_get k props) as [child|] eqn:Ek; [|discriminate].
    bind_inv E as child' Ec.
    assert (L : linked b child).
    { apply dict_get_In in Ek. rewrite Forall_forall in F.
      exact (F _ Ek). }
    destruct L as [Lp Lt]. destruct (Hl _ _ _ Lt Ec) as [B' T'].
    assert (F1 : Forall (fun kv => linked b (snd kv)) (dict_set k child' props)).
    { apply dict_set_Forall; [exact F|]. split; [|exact T'].
      simpl. rewrite B'. exact Lp. }
    destruct (IH _ E F1) as [F' K]. split; [exact F'|].
    rewrite K. apply dict_set_keys_present.
    eapply dict_get_Some_key; eassumption.
Qed.

Lemma list_set_Forall {A} (P : A -> Prop) i (x : A) l :
  Forall P l -> P x -> Forall P (list_set i x l).
Proof.
  intros F Px. revert i. induction F as [|y l Py F IH]; intros [|i]; simpl;
    constructor; auto.
Qed.

Lemma list_set_length {A} i (x : A) l :
  List.length (list_set i x l) = List.length l.
Proof.
  revert i. induction l as [|y l IH]; intros [|i]; simpl; auto.
Qed.

Lemma add_item_ok create load (b : base (C := C)) its add stack data stack' :
  create_spec create -> load_spec load ->
  add_item create load b its add stack data = Ok stack' ->
  Forall (linked b) stack -> Forall (linked b) stack'.
Proof.
  intros Hc Hl E F. unfold add_item in E.
  bind_inv E as s Es. bind_inv E as obj Eo.
  destruct (Hc _ _ _ _ _ Eo) as [Po To].
  assert (G : forall obj', widget_base obj' = widget_base obj ->
                tree_ok obj' -> Forall (linked b) (stack ++ [obj'])).
  { intros obj' B' T'. apply Forall_app. split; [exact F|].
    constructor; [|constructor]. split; [|exact T']. rewrite B'. exact Po. }
  destruct data; try (bind_inv E as obj' El; injection E as <-;
                      destruct (Hl _ _ _ To El); now apply G).
  injection E as <-. now apply G.
Qed.

Lemma load_items_ok create load (b : base (C := C)) its add i data stack stack' :
  create_spec create -> load_spec load ->
  load_items create load b its add i data stack = Ok stack' ->
  Forall (linked b) stack -> Forall (linked b) stack'.
Proof.
  intros Hc Hl. revert i stack. induction data as [|datum data IH]; simpl;
    intros i stack E F.
  - now injection E as <-.
  - bind_inv E as stack1 E1. apply (IH _ _ E). clear E IH.
    destruct (nth_error stack i) as [child|] eqn:En.
    + bind_inv E1 as child' Ec. injection E1 as <-.
      assert (L : linked b child).
      { rewrite Forall_forall in F. apply F. eapply nth_error_In; eassumption. }
      destruct L as [Lp Lt]. destruct (Hl _ _ _ Lt Ec) as [B' T'].
      apply list_set_Forall; [exact F|]. split; [|exact T'].
      rewrite B'. exact Lp.
    + eapply add_item_ok; eassumption.
Qed.

Lemma load_json_object_body_ok create load :
  create_spec (C := C) create -> load_spec load ->
  load_spec (load_json_object_body create load).
Proof.
  intros Hc Hl w data w' T E. apply tree_ok_inv in T. destruct T as [N Ch].
  destruct w; cbn [load_json_object_body] in E.
  - injection E as <-. split; [reflexivity|]. now constructor.
  - bind_inv E as items Ei. bind_inv E as props' Ep. injection E as <-.
    cbn [children] in Ch. rewrite Forall_map in Ch.
    destruct (load_properties_ok _ _ _ _ _ Hl Ep Ch) as [F' K].
    split; [reflexivity|]. constructor.
    + destruct N as [R [ND Kd]]. split; [exact R|].
      rewrite K. split; assumption.
    + cbn [children]. apply Forall_map. exact F'.
  - destruct (list_index enum_values data) as [i|] eqn:Ei; [|discriminate].
    injection E as <-. split; [reflexivity|].
    apply tree_ok_leaf; [|reflexivity]. destruct N as [R (Cn & _ & _)].
    apply list_index_Some in Ei. destruct Ei as (_ & _ & Li).
    split; [exact R|].
    cbn [QComboBox_setCurrentIndex count currentIndex].
    rewrite Cn, (proj2 (Nat.ltb_lt _ _) Li).
    split; [reflexivity|]. split.
    + intros ->. simpl in Li. lia.
    + intros _. lia.
  - bind_inv E as pw' Ep. injection E as <-. split; [reflexivity|].
    apply tree_ok_leaf; [exact N|reflexivity].
  - bind_inv E as pw' Ep. injection E as <-. split; [reflexivity|].
    apply tree_ok_leaf; [exact N|reflexivity].
  - bind_inv E as pw' Ep. injection E as <-. split; [reflexivity|].
    apply tree_ok_leaf; [exact N|reflexivity].
  - bind_inv E as pw' Ep. injection E as <-. split; [reflexivity|].
    apply tree_ok_leaf; [exact N|reflexivity].
  - bind_inv E as l El. bind_inv E as stack' Es. injection E as <-.
    split; [reflexivity|]. constructor; [exact N|].
    cbn [children] in *.
    eapply load_items_ok; eassumption.
Qed.

(** The factory builds trees that satisfy the invariant, and loading keeps
    it. *)
Lemma factory_and_load_ok (fuel : nat) :
  create_spec (_create_widget (C := C) fuel) /\
  load_spec (load_json_object (C := C) fuel).
Proof.
  induction fuel as [|fuel [IHc IHl]].
  - split; [intros ? ? ? ? ? E|intros ? ? ? ? E]; discriminate.
  - split.
    + intros name sch ctx p w E. rewrite _create_widget_S in E.
      eapply _create_widget_body_ok; eassumption.
    + intros w data w' T E. rewrite load_json_object_S in E.
      eapply load_json_object_body_ok; eassumption.
Qed.

(** *** Structure of trees *)

(** Induction on a widget with the induction hypothesis for every child. *)
Lemma widget_children_ind (P : widget (C := C) -> Prop) :
  (forall w, Forall P (children w) -> P w) -> forall w, P w.
Proof.
  intros Step.
  refine (fix IH (w : widget) : P w := _).
  apply Step. destruct w; cbn [children]; try constructor.
  - induction properties as [|[k c] props IHp]; constructor.
    + apply IH.
    + exact IHp.
  - induction widget_stack as [|c stack IHs]; constructor.
    + apply IH.
    + exact IHs.
Qed.

Lemma in_tree_trans (a b c : widget (C := C)) :
  in_tree a b -> in_tree b c -> in_tree a c.
Proof.
  intros Hab Hbc. induction Hbc as [|c' w I Hbc IH].
  - exact Hab.
  - eapply in_tree_child; eassumption.
Qed.

Lemma tree_ok_in_tree (n w : widget (C := C)) :
  tree_ok w -> in_tree n w -> tree_ok n.
Proof.
  intros T I. induction I as [|c w Ic I IH]; [exact T|].
  apply IH. apply tree_ok_inv in T. destruct T as [_ F].
  rewrite Forall_forall in F. exact (proj2 (F _ Ic)).
Qed.

Lemma evolves_ok (w w' : widget (C := C)) :
  evolves w w' -> tree_ok w -> widget_base w' = widget_base w /\ tree_ok w'.
Proof.
  intros E T. induction E as [|w1 w2 fuel data E IH L].
  - now split.
  - destruct IH as [B1 T1].
    destruct (proj2 (factory_and_load_ok fuel) _ _ _ T1 L) as [B2 T2].
    split; [congruence|exact T2].
Qed.

(** *** Dumping *)

Lemma list_item_nat {A} (l : list A) (i : nat) (x : A) :
  nth_error l i = Some x -> list_item l (Z.of_nat i) = Ok x.
Proof.
  intros E. assert (L : (i < List.length l)%nat)
    by (apply nth_error_Some; congruence).
  unfold list_item. cbv zeta.
  destruct (Z.ltb_spec (Z.of_nat i) 0) as [A0|A0]; [lia|].
  destruct (Z.ltb_spec (Z.of_nat i) 0) as [A1|A1]; [lia|].
  destruct (Z.leb_spec (Z.of_nat (List.length l)) (Z.of_nat i)) as [A2|A2];
    [lia|].
  cbn [orb]. now rewrite Nat2Z.id, E.
Qed.

Lemma dump_object_eq (b : base (C := C)) properties :
  dump_json_object (JSONObjectWidget b properties)
  = (m <- dump_properties properties ;; Ok (JObj m)).
Proof.
  reflexivity.
Qed.

Lemma dump_array_eq (b : base (C := C)) its add stack :
  dump_json_object (JSONArrayWidget b its add stack)
  = (l <- dump_stack stack ;; Ok (JArr l)).
Proof.
  reflexivity.
Qed.

Lemma dump_properties_keys (props : list (string * widget (C := C))) m :
  dump_properties props = Ok m -> dict_keys m = dict_keys props.
Proof.
  revert m. induction props as [|[k v] rest IH]; simpl; intros m E.
  - now injection E as <-.
  - bind_inv E as d Ed. bind_inv E as m' Em. injection E as <-.
    simpl. f_equal. now apply IH.
Qed.

Lemma dump_properties_total (props : list (string * widget (C := C))) :
  Forall (fun kv => exists d, dump_json_object (snd kv) = Ok d) props ->
  exists m, dump_properties props = Ok m.
Proof.
  induction 1 as [|[k v] rest [d Hd] F [m IH]]; simpl.
  - now eexists.
  - simpl in Hd. rewrite Hd, IH. simpl. now eexists.
Qed.

Lemma dump_stack_total (stack : list (widget (C := C))) :
  Forall (fun c => exists d, dump_json_object c = Ok d) stack ->
  exists l, dump_stack stack = Ok l.
Proof.
  induction 1 as [|v rest [d Hd] F [l IH]]; simpl.
  - now eexists.
  - rewrite Hd, IH. simpl. now eexists.
Qed.

Lemma no_empty_enum_children (w c : widget (C := C)) :
  no_empty_enum w = true -> In c (children w) -> no_empty_enum c = true.
Proof.
  destruct w; cbn [children no_empty_enum]; try (intros _ []).
  - intros F I. apply in_map_iff in I. destruct I as ([k c'] & <- & I).
    rewrite forallb_forall in F. exact (F _ I).
  - intros F I. rewrite forallb_forall in F. exact (F _ I).
Qed.

(** A tree that satisfies the invariant and has no Enum node with an empty
    list of values can always be dumped. *)
Lemma dump_total (w : widget (C := C)) :
  tree_ok w -> no_empty_enum w = true -> exists d, dump_json_object w = Ok d.
Proof.
  induction w as [w IH] using widget_children_ind. intros T NE.
  assert (Hch : Forall (fun c => exists d, dump_json_object c = Ok d)
                  (children w)).
  { apply tree_ok_inv in T. destruct T as [_ F].
    rewrite Forall_forall in *. intros c Ic. apply (IH c Ic).
    - exact (proj2 (F c Ic)).
    - eapply no_empty_enum_children; eassumption. }
  destruct w.
  - now eexists.
  - rewrite dump_object_eq. cbn [children] in Hch.
    rewrite Forall_map in Hch.
    destruct (dump_properties_total _ Hch) as [m ->]. now eexists.
  - apply tree_ok_inv in T. destruct T as [[_ (Cn & _ & V)] _].
    cbn [no_empty_enum] in NE.
    assert (V' : (0 <= currentIndex primitive_widget
                  < Z.of_nat (List.length enum_values))%Z).
    { apply V. intros ->. discriminate. }
    cbn [dump_json_object].
    destruct (nth_error enum_values (Z.to_nat (currentIndex primitive_widget)))
      as [e|] eqn:N; [|apply nth_error_None in N; lia].
    exists e. rewrite <- (Z2Nat.id (currentIndex primitive_widget)) by lia.
    now apply list_item_nat.
  - now eexists.
  - now eexists.
  - now eexists.
  - now eexists.
  - rewrite dump_array_eq. cbn [children] in Hch.
    destruct (dump_stack_total _ Hch) as [l ->]. now eexists.
Qed.

(** *** Definitions *)

(** C10.  In a tree built by the factory, also after later loads, every
    node's [definitions] is its own schema's [definitions] entry when the
    schema has one, else its parent's [definitions] when it has a parent,
    else the empty mapping; every child names the node above it as parent,
    so a child whose schema does not declare [definitions] carries the
    [definitions] of the node above it unchanged. *)
Theorem definitions_inherited_down_the_tree
    (fuel : nat) (name : string) (root : json) (ctx : C)
    (p : option base) (w w' n : widget) :
  _create_widget fuel name root ctx p = Ok w ->
  evolves w w' ->
  in_tree n w' ->
  parent (widget_base w') = p /\
  definitions_rule (widget_base n) /\
  (forall c, In c (children n) ->
     parent (widget_base c) = Some (widget_base n) /\
     (dict_get "definitions" (schema (widget_base c)) = None ->
      definitions (widget_base c) = definitions (widget_base n))).
Proof.
  intros Hc He Hn.
  destruct (proj1 (factory_and_load_ok fuel) _ _ _ _ _ Hc) as [Pw Tw].
  destruct (evolves_ok _ _ He Tw) as [B' T'].
  split; [rewrite B'; exact Pw|].
  pose proof (tree_ok_in_tree _ _ T' Hn) as Tn.
  apply tree_ok_inv in Tn. destruct Tn as [[R _] F].
  split; [exact R|].
  intros c Ic. rewrite Forall_forall in F. destruct (F c Ic) as [Pc Tc].
  split; [exact Pc|].
  intros Hno. apply tree_ok_inv in Tc. destruct Tc as [[Rc _] _].
  unfold definitions_rule in Rc. rewrite Hno, Pc in Rc. exact Rc.
Qed.

(** *** Objects *)

(** The loop of an object load, key by key: the keys stay as they are, each
    key of the data has its child replaced by that child loaded with the
    key's value, and the other children are not touched. *)
Lemma load_properties_spec (load : widget (C := C) -> json -> outcome widget)
    items props props' :
  NoDup (dict_keys items) ->
  load_properties load items props = Ok props' ->
  dict_keys props' = dict_keys props /\
  (forall k v, In (k, v) items ->
     exists child child',
       dict_get k props = Some child /\ load child v = Ok child' /\
       dict_get k props' = Some child') /\
  (forall k, ~ In k (dict_keys items) -> dict_get k props' = dict_get k props).
Proof.
  revert props. induction items as [|[k v] items IH]; simpl; intros props ND E.
  - injection E as <-. split; [reflexivity|split]; [intros ? ? []|reflexivity].
  - inversion ND as [|? ? NI ND']; subst.
    destruct (dict_get k props) as [child|] eqn:Ek; [|discriminate].
    bind_inv E as child' Ec.
    destruct (IH _ ND' E) as (K & Hin & Hout).
    split; [|split].
    + rewrite K. apply dict_set_keys_present.
      eapply dict_get_Some_key; eassumption.
    + intros k0 v0 [[= <- <-]|I].
      * exists child, child'. repeat split; try assumption.
        rewrite (Hout k NI). apply dict_get_set_same.
      * destruct (Hin _ _ I) as (c & c' & G & L & G').
        exists c, c'. repeat split; try assumption.
        rewrite dict_get_set_other in G; [exact G|].
        intros ->. apply NI. apply (in_map fst) in I. exact I.
    + intros k0 N0. rewrite (Hout k0) by tauto.
      apply dict_get_set_other. intros ->. apply N0. now left.
Qed.

(** A successful object load found a child for every key of the data. *)
Lemma load_properties_keys (load : widget (C := C) -> json -> outcome widget)
    items props props' :
  load_properties load items props = Ok props' ->
  forall k, In k (dict_keys items) -> In k (dict_keys props).
Proof.
  revert props. induction items as [|[k v] items IH]; simpl; intros props E k0.
  - intros [].
  - destruct (dict_get k props) as [child|] eqn:Ek; [|discriminate].
    bind_inv E as child' Ec. intros [<-|I].
    + eapply dict_get_Some_key; eassumption.
    + specialize (IH _ E k0 I).
      rewrite dict_set_keys_present in IH; [exact IH|].
      eapply dict_get_Some_key; eassumption.
Qed.

(** C2, as amended.  An Object load takes the keys of the data in order:
    a key that names a declared property delegates to that child's
    [load_json_object] and the load goes on with the rest; a key that names
    none raises [KeyError].  So a load that succeeds had only declared keys,
    each child named in the data (once) is the old child loaded with the
    key's value, and every other child is unchanged. *)
Theorem object_load_delegates_or_raises_KeyError
    (fuel : nat) (b : base (C := C)) (properties : list (string * widget)) :
  (forall k v rest child,
     dict_get k properties = Some child ->
     load_json_object (S fuel) (JSONObjectWidget b properties)
       (JObj ((k, v) :: rest))
     = (child' <- load_json_object fuel child v ;;
        load_json_object (S fuel)
          (JSONObjectWidget b (dict_set k child' properties)) (JObj rest))) /\
  (forall k v rest,
     dict_get k properties = None ->
     load_json_object (S fuel) (JSONObjectWidget b properties)
       (JObj ((k, v) :: rest))
     = Raise KeyError) /\
  (forall items w',
     load_json_object (S fuel) (JSONObjectWidget b properties) (JObj items)
     = Ok w' ->
     (forall k, In k (dict_keys items) -> In k (dict_keys properties)) /\
     exists properties',
       w' = JSONObjectWidget b properties' /\
       dict_keys properties' = dict_keys properties /\
       (NoDup (dict_keys items) ->
        (forall k v, In (k, v) items ->
           exists child child',
             dict_get k properties = Some child /\
             load_json_object fuel child v = Ok child' /\
             dict_get k properties' = Some child') /\
        (forall k, ~ In k (dict_keys items) ->
           dict_get k properties' = dict_get k properties))).
Proof.
  split; [|split].
  - intros k v rest child Hk. rewrite !load_json_object_S.
    cbn -[load_json_object]. rewrite Hk.
    destruct (load_json_object fuel child v); reflexivity.
  - intros k v rest Hk. rewrite load_json_object_S.
    cbn -[load_json_object]. now rewrite Hk.
  - intros items w' E. rewrite load_json_object_S in E.
    cbn -[load_json_object] in E. bind_inv E as props' Ep.
    injection E as <-. split.
    + eapply load_properties_keys; eassumption.
    + exists props'. split; [reflexivity|].
      assert (K : dict_keys props' = dict_keys properties).
      { clear -Ep. revert properties Ep.
        induction items as [|[k v] items IH]; simpl; intros props E.
        - now injection E as <-.
        - destruct (dict_get k props) as [child|] eqn:Ek; [|discriminate].
          bind_inv E as child' Ec. rewrite (IH _ E).
          apply dict_set_keys_present.
          eapply dict_get_Some_key; eassumption. }
      split; [exact K|]. intros ND.
      destruct (load_properties_spec _ _ _ _ ND Ep) as (_ & Hin & Hout).
      split; assumption.
Qed.

Lemma dump_properties_values (props : list (string * widget (C := C))) m :
  dump_properties props = Ok m ->
  forall k c, dict_get k props = Some c ->
    exists dc, dump_json_object c = Ok dc /\ dict_get k m = Some dc.
Proof.
  revert m. induction props as [|[k0 v] rest IH]; simpl; intros m E k c G;
    [discriminate|].
  bind_inv E as d Ed. bind_inv E as m' Em. injection E as <-. simpl.
  destruct (String.eqb k k0).
  - injection G as <-. now exists d.
  - now apply (IH m').
Qed.

(** C5.  For an Object node of a tree built by the factory, also after later
    loads, the children are exactly the property names declared in the
    node's schema, loaded or not, and whatever [dump_json_object] returns is
    a mapping with exactly those keys, in which every key carries what the
    child of that name dumps.  It does return one unless an Enum node below
    has an empty list of values (whose dump raises).  A load leaves the
    children it does not name as they were, so they go on dumping what they
    dumped before. *)
Theorem object_dump_has_every_declared_property
    (fuel : nat) (name : string) (root : json) (ctx : C)
    (p : option base) (w w' : widget) (b : base)
    (properties : list (string * widget)) :
  _create_widget fuel name root ctx p = Ok w ->
  evolves w w' ->
  in_tree (JSONObjectWidget b properties) w' ->
  NoDup (dict_keys properties) /\
  (forall k, In k (dict_keys properties)
             <-> In k (declared_properties (schema b))) /\
  (forall d, dump_json_object (JSONObjectWidget b properties) = Ok d ->
     exists members,
       d = JObj members /\
       dict_keys members = dict_keys properties /\
       forall k c, dict_get k properties = Some c ->
         exists dc, dump_json_object c = Ok dc /\
                    dict_get k members = Some dc) /\
  (no_empty_enum (JSONObjectWidget b properties) = true ->
   exists members,
     dump_json_object (JSONObjectWidget b properties) = Ok (JObj members) /\
     dict_keys members = dict_keys properties /\
     forall k c, dict_get k properties = Some c ->
       exists dc, dump_json_object c = Ok dc /\
                  dict_get k members = Some dc) /\
  (forall fuel' items w1,
     NoDup (dict_keys items) ->
     load_json_object fuel' (JSONObjectWidget b properties) (JObj items)
     = Ok w1 ->
     exists properties1,
       w1 = JSONObjectWidget b properties1 /\
       forall k c, dict_get k properties = Some c ->
         ~ In k (dict_keys items) ->
         dict_get k properties1 = Some c).
Proof.
  intros Hc He Hn.
  destruct (proj1 (factory_and_load_ok fuel) _ _ _ _ _ Hc) as [_ Tw].
  destruct (evolves_ok _ _ He Tw) as [_ T'].
  pose proof (tree_ok_in_tree _ _ T' Hn) as Tn.
  assert (Hdump : forall d,
            dump_json_object (JSONObjectWidget b properties) = Ok d ->
            exists members,
              d = JObj members /\
              dict_keys members = dict_keys properties /\
              forall k c, dict_get k properties = Some c ->
                exists dc, dump_json_object c = Ok dc /\
                           dict_get k members = Some dc).
  { intros d Hd. rewrite dump_object_eq in Hd. bind_inv Hd as m Em.
    injection Hd as <-. exists m. split; [reflexivity|].
    split; [exact (dump_properties_keys _ _ Em)|].
    exact (dump_properties_values _ _ Em). }
  pose proof (tree_ok_inv _ Tn) as [[_ [ND Kd]] _].
  split; [exact ND|]. split; [exact Kd|]. split; [exact Hdump|].
  split.
  - intros NE. destruct (dump_total _ Tn NE) as [d Hd].
    destruct (Hdump d Hd) as (members & -> & K & V).
    exists members. split; [exact Hd|]. split; [exact K|exact V].
  - intros [|fuel'] items w1 NDi E; [discriminate|].
    rewrite load_json_object_S in E. cbn -[load_json_object] in E.
    bind_inv E as props1 Ep. injection E as <-.
    destruct (load_properties_spec _ _ _ _ NDi Ep) as (_ & _ & Hout).
    exists props1. split; [reflexivity|].
    intros k c G N. now rewrite (Hout k N).
Qed.

(** *** Arrays *)

Lemma nth_error_list_set_same {A} i (x : A) l :
  (i < List.length l)%nat -> nth_error (list_set i x l) i = Some x.
Proof.
  revert i. induction l as [|y l IH]; intros [|i]; simpl; intros L;
    try lia; [reflexivity|]. apply IH. lia.
Qed.

Lemma nth_error_list_set_other {A} i j (x : A) l :
  i <> j -> nth_error (list_set i x l) j = nth_error l j.
Proof.
  revert i j. induction l as [|y l IH]; intros [|i] [|j] N; simpl;
    try reflexivity; try congruence. apply IH. congruence.
Qed.

(** The loop of an array load from position [i] on.  The stack never
    shrinks; the pages before [i] and the pages past the end of the data are
    not touched; the page at the position of a datum is the old page loaded
    with it, or, where there was none, the page the factory creates for that
    position, loaded with the datum unless the datum is [null]. *)
Lemma load_items_shape
    (create : string -> json -> C -> option base -> outcome widget)
    (load : widget -> json -> outcome widget)
    (b : base) (its add : json) (i : nat) (data : list json)
    (stack stack' : list widget) :
  load_items create load b its add i data stack = Ok stack' ->
  (i <= List.length stack)%nat ->
  List.length stack' = Nat.max (List.length stack) (i + List.length data) /\
  (forall j, (j < i)%nat -> nth_error stack' j = nth_error stack j) /\
  (forall j, (i + List.length data <= j)%nat ->
             nth_error stack' j = nth_error stack j) /\
  (forall k datum, nth_error data k = Some datum ->
     (forall child, nth_error stack (i + k) = Some child ->
        exists child', load child datum = Ok child' /\
                       nth_error stack' (i + k) = Some child') /\
     (nth_error stack (i + k) = None ->
        exists s obj,
          _get_item_schema its add (i + k) = Ok s /\
          create ("Item #" ++ format_d (i + k))%string s (ctx b) (Some b) = Ok obj /\
          match datum with
          | JNull => nth_error stack' (i + k) = Some obj
          | _ => exists obj', load obj datum = Ok obj' /\
                              nth_error stack' (i + k) = Some obj'
          end)).
Proof.
  revert i stack. induction data as [|datum data IH]; simpl; intros i stack E Li.
  - injection E as <-. repeat split; try reflexivity; try lia.
    + intros child Hc. destruct k; discriminate.
    + destruct k; discriminate.
  - bind_inv E as stack1 E1.
    destruct (nth_error stack i) as [child|] eqn:En.
    + bind_inv E1 as child' Ec. injection E1 as <-.
      assert (Lt : (i < List.length stack)%nat)
        by (apply nth_error_Some; congruence).
      destruct (IH (S i) _ E) as (Hlen & Hpre & Hpost & Hat);
        [rewrite list_set_length; lia|].
      rewrite list_set_length in Hlen.
      split; [lia|]. split; [|split].
      * intros j Hj. rewrite Hpre by lia.
        apply nth_error_list_set_other. lia.
      * intros j Hj. rewrite Hpost by lia.
        apply nth_error_list_set_other. lia.
      * intros [|k] d Hd; simpl in Hd.
        -- injection Hd as <-. rewrite Nat.add_0_r, En. split.
           ++ intros c [= <-]. exists child'. split; [exact Ec|].
              rewrite Hpre by lia. now apply nth_error_list_set_same.
           ++ discriminate.
        -- destruct (Hat k d Hd) as [Hex Hnew].
           replace (i + S k)%nat with (S i + k)%nat by lia.
           rewrite nth_error_list_set_other in Hex, Hnew by lia.
           split; assumption.
    + assert (Le : List.length stack = i).
      { apply nth_error_None in En. lia. }
      unfold add_item in E1. rewrite Le in E1.
      bind_inv E1 as s Es. bind_inv E1 as obj Eo.
      assert (G : exists obj1,
                 stack1 = stack ++ [obj1] /\
                 match datum with
                 | JNull => obj1 = obj
                 | _ => load obj datum = Ok obj1
                 end).
      { destruct datum; try (bind_inv E1 as obj' El; injection E1 as <-;
                             now exists obj').
        injection E1 as <-. now exists obj. }
      destruct G as (obj1 & -> & Hobj1). clear E1.
      destruct (IH (S i) _ E) as (Hlen & Hpre & Hpost & Hat);
        [rewrite length_app; simpl; lia|].
      rewrite length_app in Hlen. simpl in Hlen.
      split; [lia|]. split; [|split].
      * intros j Hj. rewrite Hpre by lia.
        apply nth_error_app1. lia.
      * intros j Hj. rewrite Hpost by lia.
        rewrite nth_error_app2 by lia.
        destruct (j - List.length stack)%nat as [|[|m]] eqn:D; simpl;
          try lia; symmetry; apply nth_error_None; lia.
      * intros [|k] d Hd; simpl in Hd.
        -- injection Hd as <-. rewrite Nat.add_0_r, En. split; [discriminate|].
           intros _. exists s, obj. split; [exact Es|]. split; [exact Eo|].
           assert (N : nth_error stack' i = Some obj1).
           { rewrite Hpre by lia. rewrite nth_error_app2 by lia.
             rewrite Le, Nat.sub_diag. reflexivity. }
           destruct datum; try (exists obj1; split; [exact Hobj1|exact N]).
           subst obj1. exact N.
        -- destruct (Hat k d Hd) as [Hex Hnew].
           replace (i + S k)%nat with (S i + k)%nat by lia.
           assert (N1 : nth_error (stack ++ [obj1]) (S i + k) = None)
             by (apply nth_error_None; rewrite length_app; simpl; lia).
           assert (N0 : nth_error stack (S i + k) = None)
             by (apply nth_error_None; lia).
           rewrite N0. split; [discriminate|]. intros _. exact (Hnew N1).
Qed.

(** What an Array load leaves behind: the children never get fewer; those
    past the end of the data are not touched; the child at the position of a
    datum is the old child loaded with it, or, past the old children, the
    widget the factory creates for that position -- loaded with the datum
    unless the datum is [null], which [add_item] takes for "no data". *)
Lemma array_load_shape (fuel : nat) (b : base (C := C)) (its add : json)
    (stack : list widget) (l : list json) (w' : widget) :
  load_json_object (S fuel) (JSONArrayWidget b its add stack) (JArr l) = Ok w' ->
  exists stack',
    w' = JSONArrayWidget b its add stack' /\
    List.length stack' = Nat.max (List.length stack) (List.length l) /\
    (forall j, (List.length l <= j)%nat ->
               nth_error stack' j = nth_error stack j) /\
    (forall k datum child,
       nth_error l k = Some datum -> nth_error stack k = Some child ->
       exists child', load_json_object fuel child datum = Ok child' /\
                      nth_error stack' k = Some child') /\
    (forall k datum,
       nth_error l k = Some datum -> nth_error stack k = None ->
       exists s obj,
         _get_item_schema its add k = Ok s /\
         _create_widget fuel ("Item #" ++ format_d k)%string s (ctx b) (Some b)
         = Ok obj /\
         match datum with
         | JNull => nth_error stack' k = Some obj
         | _ => exists obj', load_json_object fuel obj datum = Ok obj' /\
                             nth_error stack' k = Some obj'
         end).
Proof.
  intros E. rewrite load_json_object_S in E. cbn -[load_json_object] in E.
  bind_inv E as stack' Es. injection E as <-.
  destruct (load_items_shape _ _ _ _ _ _ _ _ _ Es (Nat.le_0_l _))
    as (Hlen & _ & Hpost & Hat).
  exists stack'. split; [reflexivity|]. split; [exact Hlen|].
  split; [exact Hpost|]. split.
  - intros k datum child Hd Hc. exact (proj1 (Hat k datum Hd) child Hc).
  - intros k datum Hd Hn. exact (proj2 (Hat k datum Hd) Hn).
Qed.

(** *** Round trips *)

Lemma py_eqb_arr (la lb : list json) :
  py_eqb (JArr la) (JArr lb) = items_eqb la lb.
Proof. reflexivity. Qed.

Lemma py_eqb_obj (ma mb : dict) :
  py_eqb (JObj ma) (JObj mb)
  = ((List.length ma =? List.length mb)%nat && members_eqb mb ma)%bool.
Proof. reflexivity. Qed.

Lemma dump_stack_round_trip (stack : list (widget (C := C))) (l : list json) :
  List.length stack = List.length l ->
  (forall k c v, nth_error stack k = Some c -> nth_error l k = Some v ->
                 round_trips c v) ->
  exists dl, dump_stack stack = Ok dl /\ items_eqb dl l = true.
Proof.
  revert l. induction stack as [|c stack IH]; intros [|v l] L R;
    simpl in L; try discriminate.
  - exists []. now split.
  - destruct (R 0%nat c v eq_refl eq_refl) as (d & Hd & Hv).
    destruct (IH l) as (dl & Hdl & Hl); [lia| |].
    + intros k c' v' Hc Hv'. exact (R (S k) c' v' Hc Hv').
    + exists (d :: dl). simpl. rewrite Hd, Hdl. simpl. rewrite Hv, Hl.
      now split.
Qed.

Lemma dump_properties_round_trip (props : list (string * widget (C := C)))
    (items : dict) :
  (forall k c, In (k, c) props ->
     exists v, dict_get k items = Some v /\ round_trips c v) ->
  exists m, dump_properties props = Ok m /\ members_eqb items m = true /\
            List.length m = List.length props.
Proof.
  induction props as [|[k c] props IH]; intros R.
  - exists []. now repeat split.
  - destruct (R k c (or_introl eq_refl)) as (v & Hv & d & Hd & He).
    destruct IH as (m & Hm & Hme & Hl).
    + intros k' c' I. apply R. now right.
    + exists ((k, d) :: m). simpl. rewrite Hd, Hm. simpl.
      rewrite Hv, He, Hme, Hl. now repeat split.
Qed.

Lemma str_left_short (s : string) (n : Z) :
  (Z.of_nat (String.length s) <= n)%Z -> str_left s n = s.
Proof.
  revert n. induction s as [|c s IH]; simpl; intros n L; [reflexivity|].
  destruct (Z.leb_spec n 0) as [A|A]; [lia|].
  f_equal. apply IH. lia.
Qed.

Lemma truncate_short (s : string) (n : Z) :
  (n < 0 \/ Z.of_nat (String.length s) <= n)%Z -> truncate n s = s.
Proof.
  intros L. unfold truncate.
  destruct (Z.ltb_spec n 0) as [A|A]; [reflexivity|].
  apply str_left_short. lia.
Qed.

Lemma clampZ_inside lo hi n : (lo <= n <= hi)%Z -> clampZ lo hi n = n.
Proof.
  intros L. unfold clampZ.
  destruct (n <? lo)%Z eqn:A; [apply Z.ltb_lt in A; lia|].
  destruct (hi <? n)%Z eqn:B; [apply Z.ltb_lt in B; lia|]. reflexivity.
Qed.

Lemma clampQ_inside lo hi x : lo <= x -> x <= hi -> clampQ lo hi x = x.
Proof.
  intros L U. unfold clampQ, Qltb.
  rewrite (proj2 (Qle_bool_iff lo x) L), (proj2 (Qle_bool_iff x hi) U).
  reflexivity.
Qed.

Lemma py_eqb_int (n : Z) (v : json) :
  as_int v = Some n -> py_eqb (JInt n) v = true.
Proof.
  intros E. destruct v; simpl in E; try discriminate; injection E as <-;
    simpl; apply Qeq_bool_iff; reflexivity.
Qed.

(** A value that fits a tree is dumped back after it has been loaded. *)
Lemma round_trip_fits (fuel : nat) :
  forall (w : widget (C := C)) v w',
    fits w v -> load_json_object fuel w v = Ok w' -> round_trips w' v.
Proof.
  induction fuel as [|fuel IH]; [discriminate|].
  intros w v w' F E. rewrite load_json_object_S in E.
  destruct F as [b vs pw s Ht|b pw v n Hn H32 Hr|b pw v q Hq Hlo Hhi
                |b pw x|b vals pw v Hc|b props items NDi NDp Hl Hch
                |b its add stack l Hl Hold Hnew];
    cbn -[load_json_object] in E.
  - injection E as <-. exists (JStr s). split; [|apply String.eqb_refl].
    cbn. now rewrite truncate_short.
  - unfold QSpinBox_setValue, as_cint in E. rewrite Hn in E.
    replace ((-2147483648 <=? n)%Z && (n <=? 2147483647)%Z) with true in E
      by (symmetry; apply andb_true_iff; split; apply Z.leb_le; lia).
    injection E as <-. exists (JInt n). split.
    + cbn. now rewrite clampZ_inside.
    + now apply py_eqb_int.
  - destruct (round_decimals_kept v q Hq) as (x & Hx & R).
    unfold QDoubleSpinBox_setValue in E. rewrite Hx in E. cbn [bind] in E.
    injection E as <-. eexists. split; [reflexivity|].
    cbn [dsb_value]. apply (py_eqb_kept v q); [exact Hq|].
    rewrite clampQ_inside; [exact R|now rewrite R|now rewrite R].
  - injection E as <-. exists (JBool x). split.
    + cbn. now destruct x.
    + destruct x; reflexivity.
  - destruct (list_index vals v) as [i|] eqn:Ei; [|discriminate].
    injection E as <-.
    destruct (list_index_Some _ _ _ Ei) as ((e & Hn & He) & _ & Li).
    exists e. split; [|exact He].
    cbn [dump_json_object QComboBox_setCurrentIndex currentIndex].
    rewrite Hc, (proj2 (Nat.ltb_lt _ _) Li). now apply list_item_nat.
  - bind_inv E as props' Ep. injection E as <-.
    destruct (load_properties_spec _ _ _ _ NDi Ep) as (K & Hin & Hout).
    assert (Hsub : incl (dict_keys props) (dict_keys items)).
    { apply NoDup_length_incl; [exact NDi| |].
      - unfold dict_keys. rewrite !length_map. lia.
      - intros k Ik. eapply load_properties_keys; eassumption. }
    destruct (dump_properties_round_trip props' items) as (m & Hm & Hme & Hlm).
    { intros k c' I.
      assert (Ik : In k (dict_keys items)).
      { apply Hsub. rewrite <- K. apply (in_map fst) in I. exact I. }
      destruct (dict_get_key_Some _ _ Ik) as [v Hv].
      exists v. split; [exact Hv|].
      apply dict_get_In in Hv.
      destruct (Hin _ _ Hv) as (child & child' & G & L & G').
      assert (c' = child').
      { apply In_dict_get in I; [congruence|]. rewrite K. exact NDp. }
      subst c'. destruct (Hch _ _ Hv) as (c0 & G0 & F0).
      assert (c0 = child) by congruence. subst c0.
      exact (IH _ _ _ F0 L). }
    exists (JObj m). rewrite dump_object_eq, Hm. split; [reflexivity|].
    rewrite py_eqb_obj, Hme, Hlm, andb_true_r.
    apply Nat.eqb_eq.
    assert (List.length props' = List.length props).
    { apply (f_equal (@List.length _)) in K. unfold dict_keys in K.
      now rewrite !length_map in K. }
    lia.
  - bind_inv E as stack' Es. injection E as <-.
    destruct (load_items_shape _ _ _ _ _ _ _ _ _ Es (Nat.le_0_l _))
      as (Hlen & _ & _ & Hat).
    simpl in Hlen. rewrite Nat.max_r in Hlen by lia.
    destruct (dump_stack_round_trip stack' l Hlen) as (dl & Hdl & Heq).
    { intros k c' v Hc' Hv. destruct (Hat k v Hv) as [Hex Hnw].
      simpl in Hex, Hnw.
      destruct (nth_error stack k) as [child|] eqn:En.
      - destruct (Hex child eq_refl) as (child' & L & N).
        assert (c' = child') by congruence. subst c'.
        exact (IH _ _ _ (Hold _ _ _ En Hv) L).
      - destruct (Hnw eq_refl) as (s & obj & Gs & Co & M).
        assert (Lk : (List.length stack <= k)%nat)
          by (apply nth_error_None; exact En).
        destruct (Hnew k v Lk Hv) as [NN Hf].
        specialize (Hf fuel s obj Gs Co).
        destruct v; try (destruct M as (obj' & L & N);
                         assert (c' = obj') by congruence; subst c';
                         exact (IH _ _ _ Hf L)).
        contradiction. }
    exists (JArr dl). rewrite dump_array_eq, Hdl. split; [reflexivity|].
    rewrite py_eqb_arr. exact Heq.
Qed.

(** C1, as amended.  When a value that fits the tree is loaded, dumping the
    tree afterwards returns a value equal to it.  The value fits when a
    string is no longer than its field allows, an integer or number lies in
    the range of its spin box (a number with at most two decimals), an
    object has exactly the keys of the declared properties, and an array is
    at least as long as the current list of children, with no [null] among
    the elements past it; an Enum value comes back as the enum entry equal
    to it. *)
Theorem load_then_dump_returns_fitting_value
    (fuel : nat) (w w' : widget (C := C)) (v : json) :
  fits w v ->
  load_json_object fuel w v = Ok w' ->
  exists d, dump_json_object w' = Ok d /\ py_eqb d v = true.
Proof.
  intros F E. exact (round_trip_fits fuel w v w' F E).
Qed.

(** *** Defaults *)

(** C6, as amended.  The factory ends by calling [initialise] on the widget
    it built: when the schema (after dereferencing) has a [default], the
    factory's answer is that of the widget's own [load_json_object] on the
    default, an exception included; without one it is the widget as built.
    The first dump is equal to the default whenever the default fits the
    widget built, as for any load. *)
Theorem default_loaded_through_own_load
    (fuel : nat) (name : string) (root : json) (ctx ctx' : C)
    (p : option base) (s0 s : dict) (cls : widget_class) (w0 : widget) :
  as_schema root = Ok s0 ->
  match dict_get "id" s0 with
  | Some i => follow_uri ctx i
  | None => Ok ctx
  end = Ok ctx' ->
  deref_loop fuel ctx' s0 = Ok s ->
  select_widget_class s = Ok cls ->
  match instantiate (_create_widget fuel) cls name s ctx' p with
  | Raise UnsupportedSchemaError =>
      UnsupportedSchemaWidget__init__ name s ctx' p
  | r => r
  end = Ok w0 ->
  _create_widget (S fuel) name root ctx p
  = match dict_get "default" s with
    | Some d => load_json_object fuel w0 d
    | None => Ok w0
    end /\
  (forall d w,
     dict_get "default" s = Some d ->
     load_json_object fuel w0 d = Ok w ->
     fits w0 d ->
     exists v, dump_json_object w = Ok v /\ py_eqb v d = true).
Proof.
  intros Hs Hid Hderef Hsel Hw0.
  assert (B : widget_base w0 = JSONBaseWidget__init__ name s ctx' p).
  { destruct (instantiate (_create_widget fuel) cls name s ctx' p)
      as [w1|e|] eqn:Ei.
    - injection Hw0 as <-.
      exact (proj1 (instantiate_ok _ _ _ _ _ _ _
                      (proj1 (factory_and_load_ok fuel)) Ei)).
    - destruct e; try discriminate. now injection Hw0 as <-.
    - discriminate. }
  split.
  - rewrite _create_widget_S. unfold _create_widget_body.
    rewrite Hs. cbn [bind]. rewrite Hid. cbn [bind].
    rewrite Hderef. cbn [bind]. rewrite Hsel. cbn [bind].
    rewrite Hw0. cbn [bind]. unfold initialise. rewrite B. reflexivity.
  - intros d w _ L F. exact (round_trip_fits fuel w0 d w F L).
Qed.

(** *** The recursion budget

    [fuel] only bounds the depth of the calls: an answer found within some
    budget is the answer within any larger one. *)

Lemma refines_refl {A} (m : outcome A) : refines m m.
Proof. now right. Qed.

Lemma refines_bind {A B} (m m' : outcome A) (k k' : A -> outcome B) :
  refines m m' -> (forall a, refines (k a) (k' a)) ->
  refines (bind m k) (bind m' k').
Proof.
  intros [-> | ->] Hk; [now left|].
  destruct m' as [a| |]; simpl; [apply Hk|now right|now right].
Qed.

Section Budget.
Variables create create' :
  string -> json -> C -> option (base (C := C)) -> outcome (widget (C := C)).
Variables load load' : widget (C := C) -> json -> outcome (widget (C := C)).
Hypothesis Hcreate : forall n s c p, refines (create n s c p) (create' n s c p).
Hypothesis Hload : forall w d, refines (load w d) (load' w d).

Lemma create_properties_refines (ctx : C) self props acc :
  refines (create_properties create ctx self props acc)
          (create_properties create' ctx self props acc).
Proof.
  revert acc. induction props as [|[k v] props IH]; intros acc; simpl.
  - apply refines_refl.
  - apply refines_bind; [apply Hcreate|]. intros w. apply IH.
Qed.

Lemma instantiate_refines cls name (s : dict) (ctx : C) p :
  refines (instantiate create cls name s ctx p)
          (instantiate create' cls name s ctx p).
Proof.
  destruct cls; cbn [instantiate]; try apply refines_refl.
  unfold JSONObjectWidget__init__.
  apply refines_bind; [apply refines_refl|]. intros _.
  destruct (dict_get "properties" s); [|apply refines_refl].
  apply refines_bind; [apply refines_refl|]. intros props.
  apply refines_bind; [apply create_properties_refines|]. intros r.
  apply refines_refl.
Qed.

Lemma initialise_refines (w : widget (C := C)) :
  refines (initialise load w) (initialise load' w).
Proof.
  unfold initialise. destruct (dict_get "default" _);
    [apply Hload|apply refines_refl].
Qed.

Lemma load_properties_refines items props :
  refines (load_properties load items props)
          (load_properties load' items props).
Proof.
  revert props. induction items as [|[k v] items IH]; intros props; simpl.
  - apply refines_refl.
  - destruct (dict_get k props); [|apply refines_refl].
    apply refines_bind; [apply Hload|]. intros c. apply IH.
Qed.

Lemma add_item_refines (b : base (C := C)) its add stack data :
  refines (add_item create load b its add stack data)
          (add_item create' load' b its add stack data).
Proof.
  unfold add_item. apply refines_bind; [apply refines_refl|]. intros s.
  apply refines_bind; [apply Hcreate|]. intros obj.
  destruct data; try apply refines_refl;
    (apply refines_bind; [apply Hload|]; intros ?; apply refines_refl).
Qed.

Lemma load_items_refines (b : base (C := C)) its add i data stack :
  refines (load_items create load b its add i data stack)
          (load_items create' load' b its add i data stack).
Proof.
  revert i stack. induction data as [|datum data IH]; intros i stack; simpl.
  - apply refines_refl.
  - apply refines_bind; [|intros ?; apply IH].
    destruct (nth_error stack i); [|apply add_item_refines].
    apply refines_bind; [apply Hload|]. intros ?. apply refines_refl.
Qed.

Lemma load_json_object_body_refines (w : widget (C := C)) data :
  refines (load_json_object_body create load w data)
          (load_json_object_body create' load' w data).
Proof.
  destruct w; cbn [load_json_object_body]; try apply refines_refl.
  - apply refines_bind; [apply refines_refl|]. intros items.
    apply refines_bind; [apply load_properties_refines|]. intros ?.
    apply refines_refl.
  - apply refines_bind; [apply refines_refl|]. intros l.
    apply refines_bind; [apply load_items_refines|]. intros ?.
    apply refines_refl.
Qed.
End Budget.

Lemma deref_loop_refines fuel (ctx : C) (s : dict) :
  refines (deref_loop fuel ctx s) (deref_loop (S fuel) ctx s).
Proof.
  revert s. induction fuel as [|fuel IH]; intros s.
  - cbn [deref_loop]. destruct (dict_get "$ref" s); [now left|now right].
  - change (deref_loop (S fuel) ctx s) with
      (match dict_get "$ref" s with
       | None => Ok s
       | Some ref =>
           target <- dereference ctx ref ;;
           schema' <- as_target_schema target ;;
           deref_loop fuel ctx schema'
       end).
    change (deref_loop (S (S fuel)) ctx s) with
      (match dict_get "$ref" s with
       | None => Ok s
       | Some ref =>
           target <- dereference ctx ref ;;
           schema' <- as_target_schema target ;;
           deref_loop (S fuel) ctx schema'
       end).
    destruct (dict_get "$ref" s); [|apply refines_refl].
    apply refines_bind; [apply refines_refl|]. intros target.
    apply refines_bind; [apply refines_refl|]. intros s'. apply IH.
Qed.

Lemma fuel_step (fuel : nat) :
  (forall n s (c : C) p,
     refines (_create_widget fuel n s c p) (_create_widget (S fuel) n s c p)) /\
  (forall (w : widget (C := C)) d,
     refines (load_json_object fuel w d) (load_json_object (S fuel) w d)).
Proof.
  induction fuel as [|fuel [IHc IHl]].
  - split; intros; now left.
  - split.
    + intros n s c p. rewrite !_create_widget_S. unfold _create_widget_body.
      apply refines_bind; [apply refines_refl|]. intros s0.
      apply refines_bind; [apply refines_refl|]. intros c'.
      apply refines_bind; [apply deref_loop_refines|]. intros s1.
      apply refines_bind; [apply refines_refl|]. intros cls.
      apply refines_bind; [|intros w; now apply initialise_refines].
      destruct (instantiate_refines _ _ IHc cls n s1 c' p) as [-> | ->];
        [now left|now right].
    + intros w d. rewrite !load_json_object_S.
      now apply load_json_object_body_refines.
Qed.

(** An answer (a widget or an exception) does not change when the budget
    grows. *)
Lemma fuel_monotone (fuel fuel' : nat) :
  (fuel <= fuel')%nat ->
  (forall n s (c : C) p,
     refines (_create_widget fuel n s c p) (_create_widget fuel' n s c p)) /\
  (forall (w : widget (C := C)) d,
     refines (load_json_object fuel w d) (load_json_object fuel' w d)).
Proof.
  induction 1 as [|fuel' L [IHc IHl]].
  - split; intros; apply refines_refl.
  - destruct (fuel_step fuel') as [Sc Sl]. split.
    + intros n s c p. destruct (IHc n s c p) as [-> | ->]; [now left|apply Sc].
    + intros w d. destruct (IHl w d) as [-> | ->]; [now left|apply Sl].
Qed.

(** ** Further properties of the widget tree *)

(** *** Removing and adding array items *)

Lemma dump_stack_length (stack : list (widget (C := C))) l :
  dump_stack stack = Ok l -> List.length l = List.length stack.
Proof.
  revert l. induction stack as [|c stack IH]; simpl; intros l E.
  - now injection E as <-.
  - bind_inv E as d Ed. bind_inv E as l' El. injection E as <-.
    simpl. f_equal. now apply IH.
Qed.

Lemma dump_stack_removelast (stack : list (widget (C := C))) l :
  dump_stack stack = Ok l ->
  dump_stack (removelast stack) = Ok (removelast l).
Proof.
  revert l. induction stack as [|c stack IH]; intros l E.
  - simpl in E. now injection E as <-.
  - cbn [dump_stack] in E. bind_inv E as d Ed. bind_inv E as l' El.
    injection E as <-.
    destruct stack as [|c' stack].
    + simpl in El. injection El as <-. reflexivity.
    + specialize (IH _ El).
      assert (N : l' <> []).
      { apply dump_stack_length in El. destruct l'; [discriminate|].
        discriminate. }
      change (removelast (c :: c' :: stack)) with (c :: removelast (c' :: stack)).
      cbn [dump_stack]. rewrite Ed. cbn [bind].
      change (dump_stack (removelast (c' :: stack)))
        with (dump_stack (removelast (c' :: stack))).
      rewrite IH. cbn [bind].
      destruct l' as [|x l']; [contradiction|]. reflexivity.
Qed.

(** X1.  [remove_item] takes the last child off an array and nothing else:
    whatever the array dumped before, it dumps the same list without its
    last element afterwards (the empty list stays empty); the invariant of
    the tree is kept. *)
Theorem remove_item_drops_last_dumped_value
    (b : base (C := C)) (its add : json) (stack : list widget) (d : json) :
  dump_json_object (JSONArrayWidget b its add stack) = Ok d ->
  exists l,
    d = JArr l /\
    List.length l = List.length stack /\
    dump_json_object (remove_item (JSONArrayWidget b its add stack))
    = Ok (JArr (removelast l)) /\
    (tree_ok (JSONArrayWidget b its add stack) ->
     tree_ok (remove_item (JSONArrayWidget b its add stack))).
Proof.
  intros E. rewrite dump_array_eq in E. bind_inv E as l El.
  injection E as <-. exists l. split; [reflexivity|].
  split; [now apply dump_stack_length|]. split.
  - cbn [remove_item]. rewrite dump_array_eq.
    now rewrite (dump_stack_removelast _ _ El).
  - intros T. apply tree_ok_inv in T. destruct T as [N F].
    cbn [remove_item]. constructor; [exact N|].
    cbn [children widget_base] in *.
    rewrite Forall_forall in *. intros c Ic. apply F.
    clear -Ic. induction stack as [|x [|y stack] IH]; simpl in *;
      [contradiction|contradiction|].
    destruct Ic as [<-|Ic]; [now left|right; now apply IH].
Qed.

(** X2.  [click_add] appends to an array the widget the factory builds for
    the next position, named after it, with the array as parent and nothing
    loaded into it; [remove_item] right after gives the array back as it
    was. *)
Theorem click_add_appends_and_remove_undoes
    (fuel : nat) (w w' : widget (C := C)) :
  click_add fuel w = Ok w' ->
  exists b its add stack s obj,
    w = JSONArrayWidget b its add stack /\
    _get_item_schema its add (List.length stack) = Ok s /\
    _create_widget fuel ("Item #" ++ format_d (List.length stack))%string s
      (ctx b) (Some b) = Ok obj /\
    w' = JSONArrayWidget b its add (stack ++ [obj]) /\
    remove_item w' = w.
Proof.
  intros E. destruct w; try discriminate. cbn [click_add] in E.
  bind_inv E as stack' Es. injection E as <-.
  unfold add_item in Es. bind_inv Es as s Hs. bind_inv Es as obj Ho.
  injection Es as <-.
  exists b, items_schema, additional_item_schema, widget_stack, s, obj.
  repeat split; try assumption.
  cbn [remove_item]. now rewrite removelast_last.
Qed.

Lemma load_items_app create load (b : base (C := C)) its add i pre post stack :
  load_items create load b its add i (pre ++ post) stack
  = (stack1 <- load_items create load b its add i pre stack ;;
     load_items create load b its add (i + List.length pre) post stack1).
Proof.
  revert i stack. induction pre as [|x pre IH]; intros i stack.
  - simpl. now rewrite Nat.add_0_r.
  - cbn [app load_items List.length].
    destruct (match nth_error stack i with
              | Some child => _
              | None => _
              end) as [stack1| |]; cbn [bind]; try reflexivity.
    rewrite IH. now replace (S i + List.length pre)%nat
                  with (i + S (List.length pre))%nat by lia.
Qed.

(** X3.  An array whose [items] is a list of schemas and that has no
    [additionalItems] cannot hold more children than the list has schemas:
    once it holds that many, [click_add] raises [AssertionError], and so
    does a load at the first element past the children, after the children
    have taken theirs. *)
Theorem tuple_array_cannot_outgrow_its_items
    (fuel : nat) (b : base (C := C)) (schemas : list json)
    (stack : list widget) :
  (List.length schemas <= List.length stack)%nat ->
  click_add fuel (JSONArrayWidget b (JArr schemas) JNull stack)
  = Raise AssertionError /\
  (forall pre datum rest stack1,
     List.length pre = List.length stack ->
     load_items (_create_widget fuel) (load_json_object fuel) b (JArr schemas)
       JNull 0 pre stack = Ok stack1 ->
     load_json_object (S fuel) (JSONArrayWidget b (JArr schemas) JNull stack)
       (JArr (pre ++ datum :: rest))
     = Raise AssertionError).
Proof.
  intros L.
  assert (G : forall st : list (widget (C := C)),
            List.length st = List.length stack ->
            _get_item_schema (JArr schemas) JNull (List.length st)
            = Raise AssertionError).
  { intros st Hst. unfold _get_item_schema.
    destruct (nth_error schemas (List.length st)) eqn:N; [|reflexivity].
    assert (List.length st < List.length schemas)%nat
      by (apply nth_error_Some; congruence). lia. }
  split.
  - cbn [click_add]. unfold add_item. now rewrite (G stack eq_refl).
  - intros pre datum rest stack1 Lp E1.
    rewrite load_json_object_S. cbn -[load_json_object load_items].
    rewrite load_items_app, E1. cbn [bind Nat.add].
    destruct (load_items_shape _ _ _ _ _ _ _ _ _ E1 (Nat.le_0_l _))
      as (Hlen & _).
    simpl in Hlen. rewrite Lp, Nat.max_id in Hlen.
    cbn [load_items].
    assert (N : nth_error stack1 (List.length pre) = None)
      by (apply nth_error_None; lia).
    rewrite N. unfold add_item. rewrite (G stack1 Hlen). reflexivity.
Qed.

(** X4.  An object schema without [properties] still builds an Object node,
    one without children: it dumps the empty mapping, takes the empty
    mapping, and raises [KeyError] on any key at all. *)
Theorem object_without_properties_is_empty
    (fuel : nat) (name : string) (s : dict) (ctx : C) (p : option base) :
  dict_get "id" s = None ->
  dict_get "$ref" s = None ->
  dict_has "enum" s = false ->
  dict_get "type" s = Some (JStr "object") ->
  dict_get "properties" s = None ->
  dict_get "default" s = None ->
  set_tooltip s = Ok tt ->
  let w := JSONObjectWidget (JSONBaseWidget__init__ name s ctx p) [] in
  _create_widget (S fuel) name (JObj s) ctx p = Ok w /\
  dump_json_object w = Ok (JObj []) /\
  load_json_object (S fuel) w (JObj []) = Ok w /\
  (forall k v rest,
     load_json_object (S fuel) w (JObj ((k, v) :: rest)) = Raise KeyError).
Proof.
  intros Hid Href Henum Htype Hprops Hdef Htip w. repeat split.
  rewrite _create_widget_S. unfold _create_widget_body.
  cbn [as_schema bind]. rewrite Hid. cbn [bind].
  assert (D : deref_loop fuel ctx s = Ok s).
  { destruct fuel; cbn [deref_loop]; now rewrite Href. }
  rewrite D. cbn [bind]. unfold select_widget_class.
  rewrite Henum, Htype. cbn [lookup_widget_class bind].
  cbn [dict_get schema_type_to_widget_class String.eqb Ascii.eqb Bool.eqb].
  cbn [instantiate]. unfold JSONObjectWidget__init__.
  rewrite Htip. cbn [bind]. rewrite Hprops. cbn [bind].
  unfold initialise. cbn [widget_base]. unfold JSONBaseWidget__init__ at 1.
  cbn [schema]. now rewrite Hdef.
Qed.

(** *** References *)

Lemma deref_loop_resolved fuel (ctx : C) (s0 s : dict) :
  deref_loop fuel ctx s0 = Ok s -> dict_get "$ref" s = None.
Proof.
  revert s0. induction fuel as [|fuel IH]; intros s0; cbn [deref_loop];
    destruct (dict_get "$ref" s0) eqn:R; try discriminate.
  - now intros [= <-].
  - intros E. bind_inv E as target Et. bind_inv E as s' Es'. eauto.
  - now intros [= <-].
Qed.

Lemma deref_loop_S fuel (ctx : C) (s : dict) :
  deref_loop (S fuel) ctx s
  = match dict_get "$ref" s with
    | None => Ok s
    | Some ref =>
        target <- dereference ctx ref ;;
        schema' <- as_target_schema target ;;
        deref_loop fuel ctx schema'
    end.
Proof. reflexivity. Qed.

(** X5.  The loop that follows [$ref] has no bound: on schemas whose
    references lead back to one another (each one of a set refers to
    another one of the set) it never ends, so the factory gives no answer
    within any budget. *)
Theorem cyclic_ref_exhausts_every_budget
    (Loop : dict -> Prop) (ctx : C) :
  (forall s, Loop s ->
     exists ref s', dict_get "$ref" s = Some ref /\
                    dereference ctx ref = Ok (JObj s') /\ Loop s') ->
  forall s, Loop s ->
    (forall fuel, deref_loop fuel ctx s = OutOfFuel) /\
    (dict_get "id" s = None ->
     forall fuel name p, _create_widget fuel name (JObj s) ctx p = OutOfFuel).
Proof.
  intros Hloop.
  assert (D : forall fuel s, Loop s -> deref_loop fuel ctx s = OutOfFuel).
  { induction fuel as [|fuel IH]; intros s Ls;
      destruct (Hloop s Ls) as (ref & s' & Hr & Hd & Ls').
    - cbn [deref_loop]. now rewrite Hr.
    - rewrite deref_loop_S, Hr, Hd. cbn [bind as_target_schema]. now apply IH. }
  intros s Ls. split; [intros fuel; now apply D|].
  intros Hid [|fuel] name p; [reflexivity|].
  rewrite _create_widget_S. unfold _create_widget_body.
  cbn [as_schema bind]. rewrite Hid. cbn [bind].
  now rewrite (D fuel s Ls).
Qed.

(** *** Failures while building *)

Lemma create_properties_app create (ctx : C) self pre post acc :
  create_properties create ctx self (pre ++ post) acc
  = (acc1 <- create_properties create ctx self pre acc ;;
     create_properties create ctx self post acc1).
Proof.
  revert acc. induction pre as [|[k v] pre IH]; intros acc; [reflexivity|].
  cbn [app create_properties].
  destruct (create k v ctx (Some self)); cbn [bind]; [apply IH| |]; reflexivity.
Qed.

(** X7.  The factory recovers from [UnsupportedSchemaError] only.  When one
    property of an object fails to build with any other exception, the
    properties before it having been built, the object is not built and the
    factory raises that exception. *)
Theorem failing_property_aborts_the_object
    (fuel : nat) (name : string) (root : json) (ctx ctx' : C)
    (p : option base) (s0 s : dict) (pre rest : dict) (k : string)
    (v : json) (built_pre : list (string * widget)) (e : exn) :
  as_schema root = Ok s0 ->
  match dict_get "id" s0 with
  | Some i => follow_uri ctx i
  | None => Ok ctx
  end = Ok ctx' ->
  deref_loop fuel ctx' s0 = Ok s ->
  select_widget_class s = Ok ClsObject ->
  set_tooltip s = Ok tt ->
  dict_get "properties" s = Some (JObj (pre ++ (k, v) :: rest)) ->
  create_properties (_create_widget fuel) ctx'
    (JSONBaseWidget__init__ name s ctx' p) pre [] = Ok built_pre ->
  _create_widget fuel k v ctx' (Some (JSONBaseWidget__init__ name s ctx' p))
  = Raise e ->
  e <> UnsupportedSchemaError ->
  _create_widget (S fuel) name root ctx p = Raise e.
Proof.
  intros Hs Hid Hderef Hsel Htip Hprops Hpre Hk Hne.
  rewrite _create_widget_S. unfold _create_widget_body.
  rewrite Hs. cbn [bind]. rewrite Hid. cbn [bind].
  rewrite Hderef. cbn [bind]. rewrite Hsel. cbn [bind instantiate].
  unfold JSONObjectWidget__init__. rewrite Htip. cbn [bind].
  rewrite Hprops. cbn [py_items bind].
  rewrite create_properties_app, Hpre. cbn [bind create_properties].
  rewrite Hk. cbn [bind]. destruct e; try reflexivity. contradiction.
Qed.

(** *** Loading: order of the keys, and loading twice *)

Lemma dict_ext {A} (l1 l2 : list (string * A)) :
  dict_keys l1 = dict_keys l2 -> NoDup (dict_keys l1) ->
  (forall k, dict_get k l1 = dict_get k l2) -> l1 = l2.
Proof.
  revert l2. induction l1 as [|[k v1] l1 IH]; intros [|[k2 v2] l2] K ND G;
    simpl in K; try discriminate; [reflexivity|].
  injection K as <- K. inversion ND as [|? ? NI ND']; subst.
  pose proof (G k) as Gk. simpl in Gk. rewrite String.eqb_refl in Gk.
  injection Gk as <-. f_equal. apply IH; [exact K|exact ND'|].
  intros k'. destruct (String.eqb_spec k' k) as [->|N].
  - pose proof (proj2 (dict_get_None k l1) NI) as N1.
    rewrite K in NI. pose proof (proj2 (dict_get_None k l2) NI) as N2.
    congruence.
  - specialize (G k'). simpl in G.
    destruct (String.eqb_spec k' k); [contradiction|exact G].
Qed.

Lemma load_properties_complete
    (load : widget (C := C) -> json -> outcome widget) items props :
  NoDup (dict_keys items) ->
  (forall k v, In (k, v) items ->
     exists c c', dict_get k props = Some c /\ load c v = Ok c') ->
  exists props', load_properties load items props = Ok props'.
Proof.
  revert props. induction items as [|[k v] items IH]; intros props ND Hall.
  - now eexists.
  - inversion ND as [|? ? NI ND']; subst.
    destruct (Hall k v (or_introl eq_refl)) as (c & c' & Hc & Hl).
    cbn [load_properties]. rewrite Hc, Hl. cbn [bind].
    apply IH; [exact ND'|].
    intros k2 v2 I2. destruct (Hall k2 v2 (or_intror I2)) as (c2 & c2' & G & L).
    exists c2, c2'. split; [|exact L].
    rewrite dict_get_set_other; [exact G|].
    intros ->. apply NI. apply (in_map fst) in I2. exact I2.
Qed.

(** X8.  An Object load does not depend on the order in which the data
    lists its keys: a mapping with the same members in another order loads
    as well, and leaves the same tree. *)
Theorem object_load_ignores_key_order
    (fuel : nat) (b : base (C := C)) (properties : list (string * widget))
    (items items' : dict) (w' : widget) :
  NoDup (dict_keys properties) ->
  NoDup (dict_keys items) ->
  Permutation items items' ->
  load_json_object (S fuel) (JSONObjectWidget b properties) (JObj items) = Ok w' ->
  load_json_object (S fuel) (JSONObjectWidget b properties) (JObj items') = Ok w'.
Proof.
  intros NDp NDi P E. rewrite load_json_object_S in *.
  cbn -[load_json_object] in *. bind_inv E as props1 E1. injection E as <-.
  assert (NDi' : NoDup (dict_keys items')).
  { eapply Permutation_NoDup; [|exact NDi]. now apply Permutation_map. }
  destruct (load_properties_spec _ _ _ _ NDi E1) as (K1 & Hin1 & Hout1).
  destruct (load_properties_complete (load_json_object fuel) items' properties
              NDi') as [props2 E2].
  { intros k v I. apply (Permutation_in _ (Permutation_sym P)) in I.
    destruct (Hin1 _ _ I) as (c & c' & G & L & _). now exists c, c'. }
  destruct (load_properties_spec _ _ _ _ NDi' E2) as (K2 & Hin2 & Hout2).
  rewrite E2. cbn [bind]. do 2 f_equal. apply dict_ext.
  - congruence.
  - now rewrite K2.
  - intros k. destruct (in_dec string_dec k (dict_keys items)) as [Ik|Nk].
    + apply in_map_iff in Ik. destruct Ik as ([k0 v] & <- & I). simpl.
      destruct (Hin1 _ _ I) as (c1 & c1' & G1 & L1 & R1).
      destruct (Hin2 _ _ (Permutation_in _ P I)) as (c2 & c2' & G2 & L2 & R2).
      congruence.
    + rewrite (Hout1 k Nk). apply Hout2. intros Ik. apply Nk.
      eapply Permutation_in; [|exact Ik].
      apply Permutation_map, Permutation_sym, P.
Qed.

(** X9.  On a node that holds one value (every class but Object and Array)
    a load overwrites what an earlier load left: loading one value and then
    another gives what loading the second alone gives. *)
Theorem scalar_load_overwrites
    (fuel fuel' : nat) (w w1 : widget (C := C)) (v1 v2 : json) :
  is_scalar w = true ->
  load_json_object fuel w v1 = Ok w1 ->
  load_json_object fuel' w1 v2 = load_json_object fuel' w v2.
Proof.
  intros Sc E. destruct fuel as [|fuel]; [discriminate|].
  destruct fuel' as [|fuel']; [reflexivity|].
  rewrite load_json_object_S in E. rewrite !load_json_object_S.
  destruct w; try discriminate; cbn -[load_json_object] in E.
  - now injection E as <-.
  - destruct (list_index enum_values v1); [|discriminate].
    now injection E as <-.
  - bind_inv E as pw1 Ep. injection E as <-.
    unfold QLineEdit_setText in Ep. bind_inv Ep as s Es. now injection Ep as <-.
  - bind_inv E as pw1 Ep. injection E as <-.
    cbn in Ep. unfold QSpinBox_setValue in Ep. bind_inv Ep as n En.
    now injection Ep as <-.
  - bind_inv E as pw1 Ep. injection E as <-.
    cbn in Ep. unfold QDoubleSpinBox_setValue in Ep. bind_inv Ep as x Ex.
    now injection Ep as <-.
  - bind_inv E as pw1 Ep. injection E as <-. reflexivity.
Qed.

(** *** Invariants that hold node by node *)

Lemma every_node_iff (Q : widget (C := C) -> Prop) (w : widget) :
  every_node Q w <-> Q w /\ Forall (every_node Q) (children w).
Proof.
  split.
  - intros E. split; [apply E, in_tree_self|].
    apply Forall_forall. intros c Ic n In. apply E.
    eapply in_tree_child; eassumption.
  - intros [Qw F] n I. destruct I as [|c w Ic I]; [exact Qw|].
    rewrite Forall_forall in F. exact (F c Ic n I).
Qed.

Lemma instantiate_base create cls name (s : dict) (ctx : C) p w :
  instantiate create cls name s ctx p = Ok w ->
  widget_base w = JSONBaseWidget__init__ name s ctx p.
Proof.
  intros E. destruct cls; cbn [instantiate] in E.
  - now injection E as <-.
  - unfold JSONObjectWidget__init__ in E. bind_inv E as u Eu.
    destruct (dict_get "properties" s).
    + bind_inv E as items Ei. bind_inv E as res Er. now injection E as <-.
    + now injection E as <-.
  - unfold JSONStringWidget__init__ in E. bind_inv E as b Eb.
    bind_inv E as pw Epw. injection E as <-.
    now apply JSONPrimitiveBaseWidget__init__Ok in Eb.
  - unfold SpinBoxWidgetBase__init__ in E. bind_inv E as b Eb.
    bind_inv E as pw Epw. injection E as <-.
    now apply JSONPrimitiveBaseWidget__init__Ok in Eb.
  - unfold JSONArrayWidget__init__ in E. bind_inv E as u Eu.
    destruct (dict_get "items" s); [|discriminate]. now injection E as <-.
  - unfold SpinBoxWidgetBase__init__ in E. bind_inv E as b Eb.
    bind_inv E as pw Epw. injection E as <-.
    now apply JSONPrimitiveBaseWidget__init__Ok in Eb.
  - unfold JSONBooleanWidget__init__ in E. bind_inv E as b Eb.
    injection E as <-. now apply JSONPrimitiveBaseWidget__init__Ok in Eb.
  - unfold JSONEnumWidget__init__ in E. bind_inv E as b Eb.
    destruct (dict_get "enum" s) as [[| | | | |l|]|]; try discriminate.
    injection E as <-. now apply JSONPrimitiveBaseWidget__init__Ok in Eb.
Qed.

Lemma load_json_object_body_base create load (w w' : widget (C := C)) data :
  load_json_object_body create load w data = Ok w' ->
  widget_base w' = widget_base w.
Proof.
  intros E. destruct w; cbn [load_json_object_body] in E.
  - now injection E as <-.
  - bind_inv E as items Ei. bind_inv E as props' Ep. now injection E as <-.
  - destruct (list_index enum_values data); [|discriminate].
    now injection E as <-.
  - bind_inv E as pw' Ep. now injection E as <-.
  - bind_inv E as pw' Ep. now injection E as <-.
  - bind_inv E as pw' Ep. now injection E as <-.
  - bind_inv E as pw' Ep. now injection E as <-.
  - bind_inv E as l El. bind_inv E as stack' Es. now injection E as <-.
Qed.

Section NodeInvariant.
Variable Q : widget (C := C) -> Prop.

(** [Q] holds of what a constructor (or the placeholder in its stead)
    returns for a schema without [$ref], and a load keeps it. *)
Hypothesis Hbuild :
  forall create cls name (s : dict) (ctx : C) p w,
    dict_get "$ref" s = None ->
    match instantiate create cls name s ctx p with
    | Raise UnsupportedSchemaError =>
        UnsupportedSchemaWidget__init__ name s ctx p
    | r => r
    end = Ok w ->
    Q w.
Hypothesis Hload :
  forall create load (w w' : widget (C := C)) data,
    Q w -> load_json_object_body create load w data = Ok w' -> Q w'.

Section Step.
Variable create : string -> json -> C -> option (base (C := C)) ->
                  outcome (widget (C := C)).
Variable load : widget (C := C) -> json -> outcome (widget (C := C)).
Hypothesis Hc : forall n s c p w, create n s c p = Ok w -> every_node Q w.
Hypothesis Hl :
  forall w d w', every_node Q w -> load w d = Ok w' -> every_node Q w'.

Lemma create_properties_every (ctx : C) self props acc res :
  create_properties create ctx self props acc = Ok res ->
  Forall (fun kv => every_node Q (snd kv)) acc ->
  Forall (fun kv => every_node Q (snd kv)) res.
Proof.
  revert acc. induction props as [|[k v] props IH]; simpl; intros acc E F.
  - now injection E as <-.
  - bind_inv E as w Ew. apply (IH _ E).
    apply dict_set_Forall; [exact F|]. simpl. eapply Hc; eassumption.
Qed.

Lemma instantiate_children_every cls name (s : dict) (ctx : C) p w :
  instantiate create cls name s ctx p = Ok w ->
  Forall (every_node Q) (children w).
Proof.
  intros E. destruct cls; cbn [instantiate] in E.
  - injection E as <-. constructor.
  - unfold JSONObjectWidget__init__ in E. bind_inv E as u Eu.
    destruct (dict_get "properties" s).
    + bind_inv E as items Ei. bind_inv E as res Er. injection E as <-.
      cbn [children]. apply Forall_map.
      eapply create_properties_every; [eassumption|constructor].
    + injection E as <-. constructor.
  - unfold JSONStringWidget__init__ in E. bind_inv E as b Eb.
    bind_inv E as pw Epw. injection E as <-. constructor.
  - unfold SpinBoxWidgetBase__init__ in E. bind_inv E as b Eb.
    bind_inv E as pw Epw. injection E as <-. constructor.
  - unfold JSONArrayWidget__init__ in E. bind_inv E as u Eu.
    destruct (dict_get "items" s); [|discriminate]. injection E as <-.
    constructor.
  - unfold SpinBoxWidgetBase__init__ in E. bind_inv E as b Eb.
    bind_inv E as pw Epw. injection E as <-. constructor.
  - unfold JSONBooleanWidget__init__ in E. bind_inv E as b Eb.
    injection E as <-. constructor.
  - unfold JSONEnumWidget__init__ in E. bind_inv E as b Eb.
    destruct (dict_get "enum" s) as [[| | | | |l|]|]; try discriminate.
    injection E as <-. constructor.
Qed.

Lemma _create_widget_body_every fuel name root (ctx : C) p w :
  _create_widget_body create load fuel name root ctx p = Ok w ->
  every_node Q w.
Proof.
  intros E. unfold _create_widget_body in E.
  bind_inv E as s0 Es0. bind_inv E as ctx' Ectx. bind_inv E as s Es.
  bind_inv E as cls Ecls. bind_inv E as w0 Ew0.
  assert (E0 : every_node Q w0).
  { apply every_node_iff. split.
    - eapply Hbuild; [|exact Ew0]. eapply deref_loop_resolved; eassumption.
    - destruct (instantiate create cls name s ctx' p) as [w1|e|] eqn:Ei.
      + injection Ew0 as <-. eapply instantiate_children_every; eassumption.
      + destruct e; try discriminate. injection Ew0 as <-. constructor.
      + discriminate. }
  unfold initialise in E. destruct (dict_get "default" _).
  - eapply Hl; eassumption.
  - now injection E as <-.
Qed.

Lemma load_properties_every items props props' :
  load_properties load items props = Ok props' ->
  Forall (fun kv => every_node Q (snd kv)) props ->
  Forall (fun kv => every_node Q (snd kv)) props'.
Proof.
  revert props. induction items as [|[k v] items IH]; simpl; intros props E F.
  - now injection E as <-.
  - destruct (dict_get k props) as [child|] eqn:Ek; [|discriminate].
    bind_inv E as child' Ec. apply (IH _ E).
    apply dict_set_Forall; [exact F|]. simpl.
    eapply Hl; [|exact Ec]. apply dict_get_In in Ek.
    rewrite Forall_forall in F. exact (F _ Ek).
Qed.

Lemma load_items_every (b : base (C := C)) its add i data stack stack' :
  load_items create load b its add i data stack = Ok stack' ->
  Forall (every_node Q) stack -> Forall (every_node Q) stack'.
Proof.
  revert i stack. induction data as [|datum data IH]; simpl; intros i stack E F.
  - now injection E as <-.
  - bind_inv E as stack1 E1. apply (IH _ _ E). clear E IH.
    destruct (nth_error stack i) as [child|] eqn:En.
    + bind_inv E1 as child' Ec. injection E1 as <-.
      apply list_set_Forall; [exact F|]. eapply Hl; [|exact Ec].
      rewrite Forall_forall in F. apply F. eapply nth_error_In; eassumption.
    + unfold add_item in E1. bind_inv E1 as s Es. bind_inv E1 as obj Eo.
      apply Hc in Eo.
      assert (G : forall obj', every_node Q obj' ->
                    Forall (every_node Q) (stack ++ [obj'])).
      { intros obj' Ho. apply Forall_app. split; [exact F|].
        constructor; [exact Ho|constructor]. }
      destruct datum; try (bind_inv E1 as obj' El; injection E1 as <-;
                           apply G; eapply Hl; eassumption).
      injection E1 as <-. now apply G.
Qed.

Lemma load_json_object_body_every (w w' : widget (C := C)) data :
  every_node Q w -> load_json_object_body create load w data = Ok w' ->
  every_node Q w'.
Proof.
  intros Ew E. apply every_node_iff in Ew. destruct Ew as [Qw F].
  apply every_node_iff. split; [eapply Hload; eassumption|].
  destruct w; cbn [load_json_object_body] in E.
  - now injection E as <-.
  - bind_inv E as items Ei. bind_inv E as props' Ep. injection E as <-.
    cbn [children] in *. rewrite Forall_map in *.
    eapply load_properties_every; eassumption.
  - destruct (list_index enum_values data); [|discriminate].
    injection E as <-. constructor.
  - bind_inv E as pw' Ep. injection E as <-. constructor.
  - bind_inv E as pw' Ep. injection E as <-. constructor.
  - bind_inv E as pw' Ep. injection E as <-. constructor.
  - bind_inv E as pw' Ep. injection E as <-. constructor.
  - bind_inv E as l El. bind_inv E as stack' Es. injection E as <-.
    cbn [children] in *. eapply load_items_every; eassumption.
Qed.
End Step.

Lemma factory_and_load_every (fuel : nat) :
  (forall n s (c : C) p w,
     _create_widget fuel n s c p = Ok w -> every_node Q w) /\
  (forall (w : widget (C := C)) d w',
     every_node Q w -> load_json_object fuel w d = Ok w' -> every_node Q w').
Proof.
  induction fuel as [|fuel [IHc IHl]].
  - split; intros; discriminate.
  - split.
    + intros n s c p w E. rewrite _create_widget_S in E.
      eapply _create_widget_body_every; eassumption.
    + intros w d w' Ew E. rewrite load_json_object_S in E.
      eapply load_json_object_body_every; eassumption.
Qed.

(** A node-wise invariant holds of every node of a tree the factory built,
    also after later loads. *)
Lemma built_tree_every (fuel : nat) name root (ctx : C) p w w' n :
  _create_widget fuel name root ctx p = Ok w ->
  evolves w w' -> in_tree n w' -> Q n.
Proof.
  intros Hc He. assert (E : every_node Q w').
  { induction He as [|w1 w2 f d He IH L].
    - exact (proj1 (factory_and_load_every fuel) _ _ _ _ _ Hc).
    - exact (proj2 (factory_and_load_every f) _ _ _ IH L). }
  apply E.
Qed.
End NodeInvariant.



(** X10.  The schema a node keeps is the one its widget was built from,
    every reference followed: in a tree built by the factory, also after
    later loads, no node's schema has a [$ref] key. *)
Theorem node_schema_has_no_ref
    (fuel : nat) (name : string) (root : json) (ctx : C) (p : option base)
    (w w' n : widget) :
  _create_widget fuel name root ctx p = Ok w ->
  evolves w w' ->
  in_tree n w' ->
  dict_get "$ref" (schema (widget_base n)) = None.
Proof.
  apply (built_tree_every schema_resolved).
  - intros create cls nm s c q w0 Hs E. unfold schema_resolved.
    destruct (instantiate create cls nm s c q) as [w1|e|] eqn:Ei.
    + injection E as <-. now rewrite (instantiate_base _ _ _ _ _ _ _ Ei).
    + destruct e; try discriminate. now injection E as <-.
    + discriminate.
  - intros create load w0 w1 d Q0 E. unfold schema_resolved in *.
    now rewrite (load_json_object_body_base _ _ _ _ _ E).
Qed.

(** *** The range of an Integer node *)

Lemma QSpinBox_setRange_ok lo hi pw :
  let pw' := QSpinBox_setRange lo hi pw in
  (sb_minimum pw' <= sb_value pw' <= sb_maximum pw')%Z.
Proof.
  unfold QSpinBox_setRange, clampZ. cbn.
  destruct (Z.ltb_spec lo hi); destruct (Z.ltb_spec (sb_value pw) lo);
    try lia;
    match goal with |- context [(?a <? ?b)%Z] => destruct (Z.ltb_spec a b) end;
    lia.
Qed.

Lemma set_limits_value_in_range (s : dict) (pw : QSpinBox) :
  _set_limits s QSpinBox_new = Ok pw ->
  (sb_minimum pw <= sb_value pw <= sb_maximum pw)%Z.
Proof.
  unfold _set_limits. cbn [step IntegerSpinBox setMinimum setMaximum].
  intros E. bind_inv E as lo Elo. bind_inv E as pw1 E1. bind_inv E as hi Ehi.
  assert (R1 : (sb_minimum pw1 <= sb_value pw1 <= sb_maximum pw1)%Z).
  { destruct lo as [m|].
    - unfold QSpinBox_setMinimum in E1. bind_inv E1 as a Ea.
      injection E1 as <-. apply QSpinBox_setRange_ok.
    - injection E1 as <-. cbn. lia. }
  destruct hi as [m|].
  - unfold QSpinBox_setMaximum in E. bind_inv E as a Ea.
    injection E as <-. apply QSpinBox_setRange_ok.
  - now injection E as <-.
Qed.

Lemma instantiate_integer create cls name (s : dict) (ctx : C) p b pw :
  instantiate create cls name s ctx p = Ok (JSONIntegerWidget b pw) ->
  _set_limits s QSpinBox_new = Ok pw /\
  b = JSONBaseWidget__init__ name s ctx p.
Proof.
  intros E. pose proof (instantiate_base _ _ _ _ _ _ _ E) as B.
  cbn [widget_base] in B. split; [|exact B].
  destruct cls; cbn [instantiate] in E.
  - discriminate.
  - unfold JSONObjectWidget__init__ in E. bind_inv E as u Eu.
    destruct (dict_get "properties" s); [|discriminate].
    bind_inv E as items Ei. bind_inv E as res Er. discriminate.
  - unfold JSONStringWidget__init__ in E. bind_inv E as b0 Eb.
    bind_inv E as pw0 Epw. discriminate.
  - unfold SpinBoxWidgetBase__init__ in E. bind_inv E as b0 Eb.
    bind_inv E as pw0 Epw. now injection E as _ <-.
  - unfold JSONArrayWidget__init__ in E. bind_inv E as u Eu.
    destruct (dict_get "items" s); discriminate.
  - unfold SpinBoxWidgetBase__init__ in E. bind_inv E as b0 Eb.
    bind_inv E as pw0 Epw. discriminate.
  - unfold JSONBooleanWidget__init__ in E. bind_inv E as b0 Eb. discriminate.
  - unfold JSONEnumWidget__init__ in E. bind_inv E as b0 Eb.
    destruct (dict_get "enum" s) as [[| | | | |l|]|]; discriminate.
Qed.

Lemma spin_in_range_every
    (fuel : nat) name root (ctx : C) p (w w' n : widget) :
  _create_widget fuel name root ctx p = Ok w ->
  evolves w w' -> in_tree n w' -> spin_in_range n.
Proof.
  apply (built_tree_every spin_in_range).
  - intros create cls nm s c q w0 Hs E.
    destruct w0; try exact I.
    destruct (instantiate create cls nm s c q) as [w1|e|] eqn:Ei.
    + injection E as ->.
      destruct (instantiate_integer _ _ _ _ _ _ _ _ Ei) as [L ->].
      cbn [spin_in_range]. exists primitive_widget.
      cbn [schema JSONBaseWidget__init__].
      repeat split; try assumption; apply (set_limits_value_in_range _ _ L).
    + destruct e; discriminate.
    + discriminate.
  - intros create load w0 w1 d Q0 E.
    destruct w0; cbn [load_json_object_body] in E.
    + now injection E as <-.
    + bind_inv E as items Ei. bind_inv E as props' Ep. now injection E as <-.
    + destruct (list_index enum_values d); [|discriminate].
      now injection E as <-.
    + bind_inv E as pw' Ep. now injection E as <-.
    + bind_inv E as pw' Ep. injection E as <-.
      cbn in Ep. unfold QSpinBox_setValue in Ep. bind_inv Ep as v Ev.
      injection Ep as <-. cbn [spin_in_range] in *.
      destruct Q0 as (pw0 & H0 & Hmin & Hmax & Hr). exists pw0.
      cbn. repeat split; try assumption; unfold clampZ;
        destruct (Z.ltb_spec v (sb_minimum primitive_widget));
        try lia;
        destruct (Z.ltb_spec (sb_maximum primitive_widget) v); lia.
    + bind_inv E as pw' Ep. now injection E as <-.
    + bind_inv E as pw' Ep. now injection E as <-.
    + bind_inv E as l El. bind_inv E as stack' Es. now injection E as <-.
Qed.

(** X11.  An Integer node never holds a value outside its range, whatever
    is loaded: in a tree built by the factory, also after later loads, the
    value it dumps is at most the schema's [maximum] (one less when
    [exclusiveMaximum] is set), and at least the schema's [minimum] (one more
    when [exclusiveMinimum] is set) when the schema has no [maximum] or one
    that is not below it.  A value loaded from outside is moved to the
    nearest end of the range. *)
Theorem integer_value_stays_in_range
    (fuel : nat) (name : string) (root : json) (ctx : C) (p : option base)
    (w w' : widget) (b : base) (pw : QSpinBox) :
  _create_widget fuel name root ctx p = Ok w ->
  evolves w w' ->
  in_tree (JSONIntegerWidget b pw) w' ->
  dump_json_object (JSONIntegerWidget b pw) = Ok (JInt (sb_value pw)) /\
  (sb_minimum pw <= sb_value pw <= sb_maximum pw)%Z /\
  (forall M, dict_get "maximum" (schema b) = Some (JInt M) ->
     (sb_value pw <=
      if truthy (dict_get_default "exclusiveMaximum" (JBool false) (schema b))
      then M - 1 else M)%Z) /\
  (forall m, dict_get "minimum" (schema b) = Some (JInt m) ->
     let lo := (if truthy (dict_get_default "exclusiveMinimum" (JBool false)
                             (schema b))
                then m + 1 else m)%Z in
     (dict_get "maximum" (schema b) = None \/
      exists M, dict_get "maximum" (schema b) = Some (JInt M) /\
        (lo <= if truthy (dict_get_default "exclusiveMaximum" (JBool false)
                            (schema b))
               then M - 1 else M)%Z) ->
     (lo <= sb_value pw)%Z) /\
  (forall fuel' v n w1,
     as_int v = Some n ->
     load_json_object (S fuel') (JSONIntegerWidget b pw) v = Ok w1 ->
     dump_json_object w1
     = Ok (JInt (if (n <? sb_minimum pw)%Z then sb_minimum pw
                 else if (sb_maximum pw <? n)%Z then sb_maximum pw else n))).
Proof.
  intros Hc He Hn.
  pose proof (spin_in_range_every _ _ _ _ _ _ _ _ Hc He Hn) as Q0.
  cbn [spin_in_range] in Q0. destruct Q0 as (pw0 & L & Hmin & Hmax & Hr).
  destruct (QSpinBox_set_limits_range _ _ L) as [Hhi Hlo].
  split; [reflexivity|]. split; [exact Hr|].
  split; [|split].
  - intros M HM. rewrite <- (Hhi _ (limit_maximum_int _ _ HM)). lia.
  - intros m Hm lo Hcases.
    rewrite <- (Hlo lo (limit_minimum_int _ _ Hm)); [lia|].
    destruct Hcases as [Hnone|(M & HM & Hle)].
    + left. unfold limit_maximum. now rewrite Hnone.
    + right. eexists. split; [exact (limit_maximum_int _ _ HM)|exact Hle].
  - intros fuel' v n w1 Hv E. rewrite load_json_object_S in E.
    cbn -[load_json_object] in E. bind_inv E as pw1 Ep. injection E as <-.
    unfold QSpinBox_setValue in Ep. bind_inv Ep as a Ea.
    apply as_cint_Ok in Ea. destruct Ea as [Ea _].
    assert (a = n) by congruence. subst a. injection Ep as <-. reflexivity.
Qed.

(** *** The text of a String node *)

Lemma str_left_length (s : string) (n : Z) :
  (0 <= n)%Z -> (Z.of_nat (String.length (str_left s n)) <= n)%Z.
Proof.
  revert n. induction s as [|c s IH]; intros n Hn; simpl; [lia|].
  destruct (Z.leb_spec n 0); simpl; [lia|].
  specialize (IH (n - 1)%Z). lia.
Qed.

Lemma truncate_length (s : string) (n : Z) :
  (0 <= n)%Z -> (Z.of_nat (String.length (truncate n s)) <= n)%Z.
Proof.
  intros Hn. unfold truncate.
  destruct (Z.ltb_spec n 0); [lia|]. now apply str_left_length.
Qed.

Lemma instantiate_string create cls name (s : dict) (ctx : C) p b vs pw :
  instantiate create cls name s ctx p = Ok (JSONStringWidget b vs pw) ->
  match dict_get "maxLength" s with
  | None | Some JNull => Ok QLineEdit_new
  | Some max_length => QLineEdit_setMaxLength max_length QLineEdit_new
  end = Ok pw /\
  b = JSONBaseWidget__init__ name s ctx p.
Proof.
  intros E. pose proof (instantiate_base _ _ _ _ _ _ _ E) as B.
  cbn [widget_base] in B. split; [|exact B].
  destruct cls; cbn [instantiate] in E.
  - discriminate.
  - unfold JSONObjectWidget__init__ in E. bind_inv E as u Eu.
    destruct (dict_get "properties" s); [|discriminate].
    bind_inv E as items Ei. bind_inv E as res Er. discriminate.
  - unfold JSONStringWidget__init__ in E. bind_inv E as b0 Eb.
    bind_inv E as pw0 Epw. now injection E as _ _ <-.
  - unfold SpinBoxWidgetBase__init__ in E. bind_inv E as b0 Eb.
    bind_inv E as pw0 Epw. discriminate.
  - unfold JSONArrayWidget__init__ in E. bind_inv E as u Eu.
    destruct (dict_get "items" s); discriminate.
  - unfold SpinBoxWidgetBase__init__ in E. bind_inv E as b0 Eb.
    bind_inv E as pw0 Epw. discriminate.
  - unfold JSONBooleanWidget__init__ in E. bind_inv E as b0 Eb. discriminate.
  - unfold JSONEnumWidget__init__ in E. bind_inv E as b0 Eb.
    destruct (dict_get "enum" s) as [[| | | | |l|]|]; discriminate.
Qed.

Lemma text_within_limit_every
    (fuel : nat) name root (ctx : C) p (w w' n : widget) :
  _create_widget fuel name root ctx p = Ok w ->
  evolves w w' -> in_tree n w' -> text_within_limit n.
Proof.
  apply (built_tree_every text_within_limit).
  - intros create cls nm s c q w0 Hs E.
    destruct w0; try exact I.
    destruct (instantiate create cls nm s c q) as [w1|e|] eqn:Ei.
    + injection E as ->.
      destruct (instantiate_string _ _ _ _ _ _ _ _ _ Ei) as [L ->].
      cbn [text_within_limit schema JSONBaseWidget__init__].
      unfold schema_max_length.
      destruct (dict_get "maxLength" s) as [v|].
      * destruct v; try (injection L as <-; split; [reflexivity|cbn; lia]);
          unfold QLineEdit_setMaxLength in L; bind_inv L as a Ea;
          injection L as <-; cbn [maxLength text];
          (split; [exact Ea|]); intros Ha; now apply truncate_length.
      * injection L as <-. split; [reflexivity|cbn; lia].
    + destruct e; discriminate.
    + discriminate.
  - intros create load w0 w1 d Q0 E.
    destruct w0; cbn [load_json_object_body] in E.
    + now injection E as <-.
    + bind_inv E as items Ei. bind_inv E as props' Ep. now injection E as <-.
    + destruct (list_index enum_values d); [|discriminate].
      now injection E as <-.
    + bind_inv E as pw' Ep. injection E as <-.
      unfold QLineEdit_setText in Ep. bind_inv Ep as t Et.
      injection Ep as <-. cbn [text_within_limit maxLength text] in *.
      destruct Q0 as [HM _]. split; [exact HM|].
      intros Ha. now apply truncate_length.
    + bind_inv E as pw' Ep. now injection E as <-.
    + bind_inv E as pw' Ep. now injection E as <-.
    + bind_inv E as pw' Ep. now injection E as <-.
    + bind_inv E as l El. bind_inv E as stack' Es. now injection E as <-.
Qed.

(** X12.  A String node never holds more characters than the schema's
    [maxLength] (32767 without one): in a tree built by the factory, also
    after later loads, the text it dumps is within that length, and a
    string loaded into it is kept up to that length and cut there. *)
Theorem string_text_stays_within_max_length
    (fuel : nat) (name : string) (root : json) (ctx : C) (p : option base)
    (w w' : widget) (b : base) (vs : list validator) (pw : QLineEdit) :
  _create_widget fuel name root ctx p = Ok w ->
  evolves w w' ->
  in_tree (JSONStringWidget b vs pw) w' ->
  dump_json_object (JSONStringWidget b vs pw) = Ok (JStr (text pw)) /\
  (forall n, dict_get "maxLength" (schema b) = Some (JInt n) ->
     maxLength pw = n /\
     ((0 <= n)%Z -> (Z.of_nat (String.length (text pw)) <= n)%Z)) /\
  (dict_get "maxLength" (schema b) = None ->
   (Z.of_nat (String.length (text pw)) <= 32767)%Z) /\
  (forall fuel' s w1,
     load_json_object (S fuel') (JSONStringWidget b vs pw) (JStr s) = Ok w1 ->
     dump_json_object w1 = Ok (JStr (truncate (maxLength pw) s))).
Proof.
  intros Hc He Hn.
  pose proof (text_within_limit_every _ _ _ _ _ _ _ _ Hc He Hn) as Q0.
  cbn [text_within_limit] in Q0. destruct Q0 as [HM HL].
  split; [reflexivity|]. split; [|split].
  - intros n Hk. unfold schema_max_length in HM. rewrite Hk in HM.
    apply as_cint_Ok in HM. destruct HM as [[= HM] _]. subst n.
    split; [reflexivity|exact HL].
  - intros Hk. unfold schema_max_length in HM. rewrite Hk in HM.
    injection HM as HM. rewrite <- HM in HL. apply HL. lia.
  - intros fuel' s w1 E. rewrite load_json_object_S in E.
    cbn -[load_json_object] in E. now injection E as <-.
Qed.

(** *** Where [UnsupportedSchemaError] comes from *)

Lemma never_unsupported_bind {A B} (m : outcome A) (k : A -> outcome B) :
  never_unsupported m -> (forall a, never_unsupported (k a)) ->
  never_unsupported (bind m k).
Proof.
  unfold never_unsupported. intros Hm Hk.
  destruct m as [a|e|]; simpl; [apply Hk| |discriminate].
  intros [= ->]. now apply Hm.
Qed.

Create HintDb never_db.

(** Splits a goal [never_unsupported] along the binds and the case
    distinctions of the term, and closes what ends in a value, in another
    exception or in a call already known not to raise it. *)
Ltac never_unsupported_tac :=
  repeat first
    [ assumption
    | solve [auto 2 with never_db]
    | apply never_unsupported_bind; [|intros ?]
    | match goal with
      | |- forall _, _ => intro
      | |- never_unsupported (Ok _) => unfold never_unsupported; discriminate
      | |- never_unsupported (Raise _) => unfold never_unsupported; discriminate
      | |- never_unsupported (match ?x with _ => _ end) => destruct x
      | |- never_unsupported (if ?x then _ else _) => destruct x
      end ].

Lemma as_qstring_never (v : json) : never_unsupported (as_qstring v).
Proof. unfold as_qstring. never_unsupported_tac. Qed.

Lemma as_cint_never (v : json) : never_unsupported (as_cint v).
Proof. unfold as_cint. never_unsupported_tac. Qed.

Lemma as_cdouble_never (v : json) : never_unsupported (as_cdouble v).
Proof. unfold as_cdouble. never_unsupported_tac. Qed.

Lemma as_float_never (v : json) : never_unsupported (as_float v).
Proof. unfold as_float. never_unsupported_tac. Qed.

#[local] Hint Resolve as_float_never : never_db.

Lemma py_arith_never fz fq (a b : json) :
  never_unsupported (py_arith fz fq a b).
Proof. unfold py_arith. never_unsupported_tac. Qed.

Lemma as_schema_never (v : json) : never_unsupported (as_schema v).
Proof.
  unfold as_schema, non_dict_schema_error, never_unsupported.
  destruct v; try discriminate;
    match goal with |- context [if ?c then _ else _] => destruct c end;
    discriminate.
Qed.

Lemma as_target_schema_never (v : json) :
  never_unsupported (as_target_schema v).
Proof.
  unfold as_target_schema, non_dict_schema_error, never_unsupported.
  destruct v; try discriminate;
    match goal with |- context [if ?c then _ else _] => destruct c end;
    discriminate.
Qed.

#[local] Hint Resolve as_qstring_never as_cint_never as_cdouble_never
  py_arith_never as_schema_never as_target_schema_never : never_db.

Lemma set_tooltip_never (s : dict) : never_unsupported (set_tooltip s).
Proof. unfold set_tooltip. never_unsupported_tac. Qed.

Lemma make_label_never name (s : dict) : never_unsupported (make_label name s).
Proof. unfold make_label. never_unsupported_tac. Qed.

#[local] Hint Resolve set_tooltip_never make_label_never : never_db.

Lemma JSONPrimitiveBaseWidget__init__never name (s : dict) (ctx : C) p :
  never_unsupported (JSONPrimitiveBaseWidget__init__ name s ctx p).
Proof. unfold JSONPrimitiveBaseWidget__init__. never_unsupported_tac. Qed.

Lemma limit_minimum_never (st : json) (s : dict) :
  never_unsupported (limit_minimum st s).
Proof. unfold limit_minimum, py_add. never_unsupported_tac. Qed.

Lemma limit_maximum_never (st : json) (s : dict) :
  never_unsupported (limit_maximum st s).
Proof. unfold limit_maximum, py_sub. never_unsupported_tac. Qed.

#[local] Hint Resolve JSONPrimitiveBaseWidget__init__never limit_minimum_never
  limit_maximum_never : never_db.

Lemma set_limits_integer_never (s : dict) (pw : QSpinBox) :
  never_unsupported (_set_limits s pw).
Proof.
  unfold _set_limits. cbn [step setMinimum setMaximum IntegerSpinBox].
  unfold QSpinBox_setMinimum, QSpinBox_setMaximum.
  never_unsupported_tac.
Qed.

Lemma set_limits_number_never (s : dict) (pw : QDoubleSpinBox) :
  never_unsupported (_set_limits s pw).
Proof.
  unfold _set_limits. cbn [step setMinimum setMaximum NumberSpinBox].
  unfold QDoubleSpinBox_setMinimum, QDoubleSpinBox_setMaximum.
  never_unsupported_tac.
Qed.

#[local] Hint Resolve set_limits_integer_never set_limits_number_never
  : never_db.

(** Of the constructors only the Array's raises [UnsupportedSchemaError],
    for a schema without [items]; the Object's passes on what the factory
    raises for a property. *)
Lemma instantiate_never create cls name (s : dict) (ctx : C) p :
  (cls = ClsObject -> forall n v c q, never_unsupported (create n v c q)) ->
  (cls = ClsArray -> dict_get "items" s <> None) ->
  never_unsupported (instantiate create cls name s ctx p).
Proof.
  intros Hc Harr. destruct cls; cbn [instantiate].
  - unfold UnsupportedSchemaWidget__init__. never_unsupported_tac.
  - unfold JSONObjectWidget__init__, py_items.
    apply never_unsupported_bind; [apply set_tooltip_never|]. intros _.
    destruct (dict_get "properties" s) as [props|]; [|never_unsupported_tac].
    apply never_unsupported_bind; [never_unsupported_tac|]. intros items.
    apply never_unsupported_bind; [|intros ?; never_unsupported_tac].
    generalize (@nil (string * widget (C := C))).
    induction items as [|[k v] items IH]; intros acc; cbn [create_properties].
    + never_unsupported_tac.
    + apply never_unsupported_bind; [now apply Hc|]. intros w. apply IH.
  - unfold JSONStringWidget__init__, QLineEdit_setMaxLength.
    never_unsupported_tac.
  - unfold SpinBoxWidgetBase__init__. never_unsupported_tac.
  - unfold JSONArrayWidget__init__.
    apply never_unsupported_bind; [apply set_tooltip_never|]. intros _.
    destruct (dict_get "items" s); [never_unsupported_tac|].
    now contradiction (Harr eq_refl).
  - unfold SpinBoxWidgetBase__init__. never_unsupported_tac.
  - unfold JSONBooleanWidget__init__. never_unsupported_tac.
  - unfold JSONEnumWidget__init__. never_unsupported_tac.
Qed.

Lemma load_json_object_body_never create load (w : widget (C := C)) data :
  (forall n v c q, never_unsupported (create n v c q)) ->
  (forall w d, never_unsupported (load w d)) ->
  never_unsupported (load_json_object_body create load w data).
Proof.
  intros Hc Hl. destruct w; cbn [load_json_object_body].
  - never_unsupported_tac.
  - unfold py_items. apply never_unsupported_bind; [never_unsupported_tac|].
    intros items.
    apply never_unsupported_bind; [|intros ?; never_unsupported_tac].
    revert properties.
    induction items as [|[k v] items IH]; intros props; cbn [load_properties].
    + never_unsupported_tac.
    + destruct (dict_get k props); [|never_unsupported_tac].
      apply never_unsupported_bind; [apply Hl|]. intros c. apply IH.
  - never_unsupported_tac.
  - unfold QLineEdit_setText. never_unsupported_tac.
  - cbn [setValue IntegerSpinBox]. unfold QSpinBox_setValue.
    never_unsupported_tac.
  - cbn [setValue NumberSpinBox]. unfold QDoubleSpinBox_setValue.
    never_unsupported_tac.
  - unfold QCheckBox_setChecked. never_unsupported_tac.
  - unfold py_iter. apply never_unsupported_bind; [never_unsupported_tac|].
    intros l.
    apply never_unsupported_bind; [|intros ?; never_unsupported_tac].
    generalize 0%nat. revert widget_stack.
    induction l as [|datum l IH]; intros stack i; cbn [load_items].
    + never_unsupported_tac.
    + apply never_unsupported_bind; [|intros st; apply IH].
      destruct (nth_error stack i).
      * apply never_unsupported_bind; [apply Hl|]. never_unsupported_tac.
      * unfold add_item, _get_item_schema.
        apply never_unsupported_bind; [never_unsupported_tac|]. intros sch.
        apply never_unsupported_bind; [apply Hc|]. intros obj.
        destruct datum; never_unsupported_tac; apply Hl.
Qed.

(** X13.  [UnsupportedSchemaError] never leaves the factory, nor a load:
    provided the resolution context does not raise it, whatever
    [_create_widget] and [load_json_object] raise is another exception.  The
    one place that raises it, the constructor of an array without [items],
    is inside the factory's [try]. *)
Theorem unsupported_schema_error_never_escapes (fuel : nat) :
  (forall (c : C) i, follow_uri c i <> Raise UnsupportedSchemaError) ->
  (forall (c : C) r, dereference c r <> Raise UnsupportedSchemaError) ->
  (forall name root (ctx : C) p,
     _create_widget fuel name root ctx p <> Raise UnsupportedSchemaError) /\
  (forall (w : widget (C := C)) data,
     load_json_object fuel w data <> Raise UnsupportedSchemaError).
Proof.
  intros Hf Hd. induction fuel as [|fuel [IHc IHl]].
  - split; intros; discriminate.
  - split.
    + intros name root ctx p. rewrite _create_widget_S.
      unfold _create_widget_body.
      change (never_unsupported
        (schema <- as_schema root ;;
         ctx0 <- match dict_get "id" schema with
                 | Some i => follow_uri ctx i
                 | None => Ok ctx
                 end ;;
         schema0 <- deref_loop fuel ctx0 schema ;;
         widget_class <- select_widget_class schema0 ;;
         widget <-
           match instantiate (_create_widget fuel) widget_class name schema0
                   ctx0 p with
           | Raise UnsupportedSchemaError =>
               UnsupportedSchemaWidget__init__ name schema0 ctx0 p
           | r => r
           end ;;
         initialise (load_json_object fuel) widget)).
      apply never_unsupported_bind;
        [apply as_schema_never|]. intros s0.
      apply never_unsupported_bind.
      { destruct (dict_get "id" s0); [apply Hf|never_unsupported_tac]. }
      intros ctx0. apply never_unsupported_bind.
      { clear -Hd. revert s0. induction fuel as [|fuel IH]; intros s0;
          cbn [deref_loop]; destruct (dict_get "$ref" s0);
          try (unfold never_unsupported; discriminate).
        apply never_unsupported_bind; [apply Hd|]. intros t.
        apply never_unsupported_bind; [apply as_target_schema_never|].
        intros s1. apply IH. }
      intros s1. apply never_unsupported_bind.
      { unfold select_widget_class, lookup_widget_class.
        never_unsupported_tac. }
      intros cls. apply never_unsupported_bind.
      { destruct (instantiate _ cls name s1 ctx0 p) as [w|e|];
          [|destruct e|]; unfold never_unsupported; discriminate. }
      intros w. unfold initialise.
      destruct (dict_get "default" _); [apply IHl|never_unsupported_tac].
    + intros w data. rewrite load_json_object_S.
      apply load_json_object_body_never; assumption.
Qed.

(** *** What an untouched node dumps *)

Lemma set_limits_initial_value (s : dict) (pw : QSpinBox) :
  _set_limits s QSpinBox_new = Ok pw ->
  sb_value pw = clampZ (sb_minimum pw) (sb_maximum pw) 0.
Proof.
  unfold _set_limits. cbn [step IntegerSpinBox setMinimum setMaximum].
  intros E. bind_inv E as lo Elo. bind_inv E as pw1 E1. bind_inv E as hi Ehi.
  assert (R1 : sb_value pw1 = clampZ (sb_minimum pw1) (sb_maximum pw1) 0 /\
               (sb_minimum pw1 <= sb_maximum pw1)%Z /\
               (99 <= sb_maximum pw1)%Z).
  { destruct lo as [m|].
    - unfold QSpinBox_setMinimum in E1. bind_inv E1 as a Ea.
      injection E1 as <-. unfold QSpinBox_setRange, clampZ. cbn.
      destruct (Z.ltb_spec a 99);
        repeat match goal with
               | |- context [(?x <? ?y)%Z] => destruct (Z.ltb_spec x y)
               end; lia.
    - injection E1 as <-. cbn. split; [reflexivity|lia]. }
  destruct R1 as (V1 & L1 & U1). destruct hi as [m|].
  - unfold QSpinBox_setMaximum in E. bind_inv E as a Ea.
    injection E as <-. unfold QSpinBox_setRange. cbn. rewrite V1.
    unfold clampZ.
    repeat match goal with
           | |- context [(?x <? ?y)%Z] => destruct (Z.ltb_spec x y)
           | Hx : context [(?x <? ?y)%Z] |- _ => destruct (Z.ltb_spec x y)
           end; lia.
  - injection E as <-. exact V1.
Qed.

(** X14.  What a node dumps before anything is loaded into it, when its
    schema has no [default]: a String node the empty string, a Boolean node
    [false], an Array node the empty list (the placeholder's sentinel if the
    schema lacks [items]), an Integer node 0 moved into its range, an Enum
    node over a list of values the first of them -- and over the empty list
    it builds all the same, but its dump raises [IndexError]. *)
Theorem untouched_node_dumps_initial_value
    (fuel : nat) (name : string) (root : json) (ctx ctx' : C)
    (p : option base) (s0 s : dict) (cls : widget_class) (w : widget) :
  as_schema root = Ok s0 ->
  match dict_get "id" s0 with
  | Some i => follow_uri ctx i
  | None => Ok ctx
  end = Ok ctx' ->
  deref_loop fuel ctx' s0 = Ok s ->
  select_widget_class s = Ok cls ->
  dict_get "default" s = None ->
  _create_widget (S fuel) name root ctx p = Ok w ->
  match cls with
  | ClsUnsupported => dump_json_object w = Ok (JStr "(unsupported)")
  | ClsString => dump_json_object w = Ok (JStr "")
  | ClsBoolean => dump_json_object w = Ok (JBool false)
  | ClsArray =>
      match dict_get "items" s with
      | Some _ => dump_json_object w = Ok (JArr [])
      | None => dump_json_object w = Ok (JStr "(unsupported)")
      end
  | ClsEnum =>
      forall vals,
        dict_get "enum" s = Some (JArr vals) ->
        dump_json_object w
        = match vals with e :: _ => Ok e | [] => Raise IndexError end
  | ClsInteger =>
      exists b pw,
        w = JSONIntegerWidget b pw /\
        dump_json_object w
        = Ok (JInt (clampZ (sb_minimum pw) (sb_maximum pw) 0))
  | ClsNumber | ClsObject => True
  end.
Proof.
  intros Hs Hid Hderef Hsel Hdef E.
  rewrite _create_widget_S in E. unfold _create_widget_body in E.
  rewrite Hs in E. cbn [bind] in E. rewrite Hid in E. cbn [bind] in E.
  rewrite Hderef in E. cbn [bind] in E. rewrite Hsel in E. cbn [bind] in E.
  bind_inv E as w0 E0.
  assert (B : widget_base w0 = JSONBaseWidget__init__ name s ctx' p).
  { destruct (instantiate (_create_widget fuel) cls name s ctx' p)
      as [w1|e|] eqn:Ei.
    - injection E0 as <-. eapply instantiate_base; eassumption.
    - destruct e; try discriminate. now injection E0 as <-.
    - discriminate. }
  unfold initialise in E. rewrite B in E. cbn [schema JSONBaseWidget__init__] in E.
  rewrite Hdef in E. injection E as <-. clear B.
  destruct (instantiate (_create_widget fuel) cls name s ctx' p)
    as [w1|e|] eqn:Ei; [injection E0 as <-| |discriminate].
  - (* the constructor returned *)
    destruct cls; cbn [instantiate] in Ei; try exact I.
    + now injection Ei as <-.
    + unfold JSONStringWidget__init__ in Ei. bind_inv Ei as b Eb.
      assert (T : forall pw, match dict_get "maxLength" s with
                             | None | Some JNull => Ok QLineEdit_new
                             | Some max_length =>
                                 QLineEdit_setMaxLength max_length QLineEdit_new
                             end = Ok pw -> text pw = "").
      { intros pw Epw. destruct (dict_get "maxLength" s) as [v|];
          [|now injection Epw as <-].
        destruct v; try (now injection Epw as <-);
          unfold QLineEdit_setMaxLength in Epw; bind_inv Epw as a Ea;
          injection Epw as <-; cbn; unfold truncate;
          destruct (a <? 0)%Z; reflexivity. }
      bind_inv Ei as pw Epw. injection Ei as <-. cbn. now rewrite (T _ Epw).
    + unfold SpinBoxWidgetBase__init__ in Ei. bind_inv Ei as b Eb.
      bind_inv Ei as pw L. injection Ei as <-.
      exists b, pw. split; [reflexivity|].
      cbn. now rewrite <- (set_limits_initial_value _ _ L).
    + unfold JSONArrayWidget__init__ in Ei. bind_inv Ei as u Eu.
      destruct (dict_get "items" s); [|discriminate]. now injection Ei as <-.
    + unfold JSONBooleanWidget__init__ in Ei. bind_inv Ei as b Eb.
      now injection Ei as <-.
    + unfold JSONEnumWidget__init__ in Ei. bind_inv Ei as b Eb.
      intros vals Hv. rewrite Hv in Ei. injection Ei as <-.
      destruct vals as [|e vals]; reflexivity.
  - (* the constructor raised: only [UnsupportedSchemaError] is caught *)
    assert (e = UnsupportedSchemaError) as -> by (destruct e; congruence).
    injection E0 as <-.
    assert (N : cls <> ClsObject ->
                (cls = ClsArray -> dict_get "items" s <> None) -> False).
    { intros NO NA.
      apply (instantiate_never (_create_widget fuel) cls name s ctx' p);
        [intros ->; now contradiction NO|exact NA|exact Ei]. }
    destruct cls; try exact I; try reflexivity;
      try (exfalso; apply N; [discriminate|discriminate]).
    destruct (dict_get "items" s) eqn:Hitems; [|reflexivity].
    exfalso. apply N; [discriminate|]. intros _. discriminate.
Qed.

(** *** The validation report *)

Lemma str_join_strings (sep : string) (keys : list string) :
  str_join sep (map JStr keys) = Ok (String.concat sep keys).
Proof.
  induction keys as [|k keys IH]; [reflexivity|].
  cbn [map str_join]. destruct keys as [|k' keys]; [reflexivity|].
  cbn [map] in *. rewrite IH. reflexivity.
Qed.

Lemma str_join_not_string (sep : string) (parts : list json) (x : json) :
  In x parts -> (forall s, x <> JStr s) ->
  str_join sep parts = Raise TypeError.
Proof.
  intros I N. induction parts as [|y parts IH]; [contradiction|].
  destruct I as [->|I].
  - destruct x; try reflexivity. now contradiction (N s).
  - specialize (IH I). cbn [str_join].
    destruct y; try reflexivity.
    destruct parts; [contradiction|]. now rewrite IH.
Qed.

(** X15.  The validation report.  With no error the label says the object
    validates.  Otherwise it shows the number of errors ("1 error", "2
    errors", ...) and the path and message of the first error alone, the
    path being the steps of [schema_path] joined by "/" -- and when one of
    those steps is not a string (the position in a list of schemas is an
    [int]) the join raises [TypeError] and there is no report. *)
Theorem validation_report_shows_first_error
    (iter_errors : json -> list ValidationError) (w : widget (C := C))
    (d : json) :
  dump_json_object w = Ok d ->
  (iter_errors d = [] ->
   _do_validation iter_errors w
   = Ok {| label_text := "Object validates";
           label_style := "QLabel { color: green; }" |}) /\
  (forall e rest keys,
     iter_errors d = e :: rest ->
     schema_path e = map JStr keys ->
     _do_validation iter_errors w
     = Ok {| label_text :=
               ((format_d (S (List.length rest))
                 ++ match rest with [] => " error" | _ => " errors" end)
                ++ "." ++ newline ++ "First error in #/"
                ++ String.concat "/" keys ++ ":" ++ newline ++ message e)%string;
             label_style := "QLabel { color: red; }" |}) /\
  (forall e rest x,
     iter_errors d = e :: rest ->
     In x (schema_path e) -> (forall s, x <> JStr s) ->
     _do_validation iter_errors w = Raise TypeError).
Proof.
  intros Hd. unfold _do_validation. rewrite Hd. cbn [bind].
  split; [|split].
  - intros ->. reflexivity.
  - intros e rest keys -> Hp. rewrite Hp, str_join_strings. cbn [bind].
    destruct rest; reflexivity.
  - intros e rest x -> I N.
    now rewrite (str_join_not_string _ _ _ I N).
Qed.

End Properties.

(** ** The properties on the example schemas *)

(** C1 fails as stated: the person object accepts a document that names one
    of its two properties, and dumps both. *)
Lemma partial_object_does_not_round_trip :
  exists w' d,
    load_json_object 2 person_widget (JObj [("name", JStr "Ann")]) = Ok w' /\
    dump_json_object w' = Ok d /\
    d = JObj [("name", JStr "Ann"); ("age", JInt 0)] /\
    py_eqb d (JObj [("name", JStr "Ann")]) = false.
Proof.
  eexists. eexists. split; [vm_compute; reflexivity|].
  split; [vm_compute; reflexivity|]. split; reflexivity.
Qed.

(** The input widgets change what does not fit them: a string longer than
    [maxLength] is cut, an integer outside the range is moved to its end. *)
Lemma out_of_range_values_do_not_round_trip :
  (w' <- load_json_object 2 person_widget
           (JObj [("name", JStr "Bartholomew Cubbins"); ("age", JInt 200)]) ;;
   dump_json_object w')
  = Ok (JObj [("name", JStr "Bartholome"); ("age", JInt 150)]).
Proof. vm_compute. reflexivity. Qed.

(** A shorter list leaves the children past its end as they were. *)
Lemma shorter_array_does_not_round_trip :
  (w <- create_widget 4 "scores" scores_schema tt ;;
   w' <- load_json_object 2 w (JArr [JInt 3]) ;;
   dump_json_object w')
  = Ok (JArr [JInt 3; JInt 2]).
Proof. vm_compute. reflexivity. Qed.

(** A Number node keeps a float with two decimals.  An [int] above [2^53]
    that no float holds comes back as the float nearest to it, which is not
    equal to it; 0.145, whose float lies below it, is shown as 0.14; -0.125,
    a float, is an exact tie and goes away from zero. *)
Lemma numbers_the_spin_box_changes_do_not_round_trip :
  (w <- create_widget 2 "x" (JObj wide_schema) tt ;;
   w' <- load_json_object 1 w (JInt 9007199254740993) ;;
   dump_json_object w')
  = Ok (JFloat (900719925474099200 # 100)) /\
  py_eqb (JFloat (900719925474099200 # 100)) (JInt 9007199254740993) = false /\
  (w <- create_widget 2 "x" (JObj wide_schema) tt ;;
   w' <- load_json_object 1 w (JFloat (145 # 1000)) ;;
   dump_json_object w')
  = Ok (JFloat (14 # 100)) /\
  (w <- create_widget 2 "x" (JObj wide_schema) tt ;;
   w' <- load_json_object 1 w (JFloat (-125 # 1000)) ;;
   dump_json_object w')
  = Ok (JFloat (-13 # 100)).
Proof. repeat split; vm_compute; reflexivity. Qed.

(** A [null] default of a String node is loaded as the empty text. *)
Lemma null_default_is_the_empty_text :
  (w <- create_widget 2 "s"
          (JObj [("type", JStr "string"); ("default", JNull)]) tt ;;
   dump_json_object w)
  = Ok (JStr "").
Proof. vm_compute. reflexivity. Qed.

(** The person document fits the person widget. *)
Lemma person_doc_fits : fits person_widget person_doc.
Proof.
  vm_compute. apply fits_object.
  - repeat constructor; simpl; intuition discriminate.
  - repeat constructor; simpl; intuition discriminate.
  - reflexivity.
  - intros k v [[= <- <-]|[[= <- <-]|[]]].
    + eexists. split; [reflexivity|].
      apply (fits_integer _ _ _ 30%Z); [reflexivity|lia|simpl; lia].
    + eexists. split; [reflexivity|].
      apply fits_string. right. simpl. lia.
Defined.

(** 1.5 fits the ratio widget, whose range is 1.01 .. 2.5. *)
Lemma ratio_fits : fits ratio_widget (JFloat (3 # 2)).
Proof.
  vm_compute. apply (fits_number _ _ _ (3 # 2)).
  - reflexivity.
  - vm_compute. discriminate.
  - vm_compute. discriminate.
Defined.

(** The round trip on the person document, and on 1.5 in the ratio
    widget. *)
Lemma load_then_dump_witness :
  (exists w',
     load_json_object 2 person_widget person_doc = Ok w' /\
     exists d, dump_json_object w' = Ok d /\ py_eqb d person_doc = true) /\
  (exists w',
     load_json_object 1 ratio_widget (JFloat (3 # 2)) = Ok w' /\
     exists d, dump_json_object w' = Ok d /\
               py_eqb d (JFloat (3 # 2)) = true).
Proof.
  split.
  - eexists. split; [vm_compute; reflexivity|].
    apply (load_then_dump_returns_fitting_value 2 person_widget _ person_doc
             person_doc_fits).
    vm_compute. reflexivity.
  - eexists. split; [vm_compute; reflexivity|].
    apply (load_then_dump_returns_fitting_value 1 ratio_widget _
             (JFloat (3 # 2)) ratio_fits).
    vm_compute. reflexivity.
Defined.

(** C2 fails as stated: a key that names no property stops the load with
    [KeyError]. *)
Lemma undeclared_key_raises_KeyError :
  load_json_object 2 person_widget
    (JObj [("name", JStr "Ann"); ("nickname", JStr "A")])
  = Raise KeyError /\
  is_ok (load_json_object 2 person_widget
           (JObj [("name", JStr "Ann"); ("nickname", JStr "A")])) = false.
Proof. split; vm_compute; reflexivity. Qed.

(** An object load on the person widget, first key undeclared. *)
Lemma object_load_witness :
  load_json_object 2 person_widget (JObj [("nickname", JStr "A")])
  = Raise KeyError.
Proof.
  refine (proj1 (proj2
    (object_load_delegates_or_raises_KeyError 1 (widget_base person_widget)
       (match person_widget with
        | JSONObjectWidget _ properties => properties
        | _ => []
        end))) "nickname" (JStr "A") [] _).
  vm_compute. reflexivity.
Defined.


(** C4 on a document with a [null]: the first load of [[null]] into the
    empty array appends a page that is not loaded (it shows ["a"], the first
    enum entry); the same load again goes through the existing page, which
    selects [null]. *)
Theorem appended_null_item_is_not_loaded :
  exists w w1 w2,
    create_widget 3 "list" nullable_enum_array_schema tt = Ok w /\
    dump_json_object w = Ok (JArr []) /\
    load_json_object 3 w (JArr [JNull]) = Ok w1 /\
    dump_json_object w1 = Ok (JArr [JStr "a"]) /\
    load_json_object 3 w1 (JArr [JNull]) = Ok w2 /\
    dump_json_object w2 = Ok (JArr [JNull]).
Proof.
  eexists. eexists. eexists.
  split; [vm_compute; reflexivity|].
  split; [vm_compute; reflexivity|].
  split; [vm_compute; reflexivity|].
  split; [vm_compute; reflexivity|].
  split; vm_compute; reflexivity.
Qed.

(** The dump of the person widget, nothing loaded: both properties, each
    with what its child dumps. *)
Lemma object_dump_witness :
  exists members,
    dump_json_object person_widget = Ok (JObj members) /\
    dict_keys members = ["name"; "age"] /\
    dict_get "name" members = Some (JStr "") /\
    dict_get "age" members = Some (JInt 0).
Proof.
  destruct (object_dump_has_every_declared_property 3 "person" person_schema
              tt None person_widget person_widget
              (widget_base person_widget)
              (match person_widget with
               | JSONObjectWidget _ properties => properties
               | _ => []
               end))
    as (_ & _ & _ & Hd & _).
  - vm_compute. reflexivity.
  - apply evolves_refl.
  - apply in_tree_self.
  - destruct (Hd eq_refl) as (members & Hm & Hk & Hv).
    exists members. split; [exact Hm|]. split; [exact Hk|]. split.
    + destruct (Hv "name" (first_child person_widget) eq_refl)
        as (dc & Hdc & G).
      vm_compute in Hdc. injection Hdc as <-. exact G.
    + destruct (Hv "age" (second_child person_widget) eq_refl)
        as (dc & Hdc & G).
      vm_compute in Hdc. injection Hdc as <-. exact G.
Defined.

(** C6 fails as stated: the default of the person object is loaded, and the
    first dump has the property the default does not name as well. *)
Lemma partial_default_is_not_the_first_dump :
  exists w d,
    create_widget 3 "person" person_with_default_schema tt = Ok w /\
    dump_json_object w = Ok d /\
    d = JObj [("name", JStr "Ann"); ("age", JInt 0)] /\
    py_eqb d (JObj [("name", JStr "Ann")]) = false.
Proof.
  eexists. eexists. split; [vm_compute; reflexivity|].
  split; [vm_compute; reflexivity|]. split; reflexivity.
Qed.

(** A boolean with the default [true]. *)
Lemma default_loaded_witness :
  exists w,
    create_widget 2 "done" (JObj [("type", JStr "boolean"); ("default", JBool true)])
      tt = Ok w /\
    exists v, dump_json_object w = Ok v /\ py_eqb v (JBool true) = true.
Proof.
  destruct (default_loaded_through_own_load 1 "done"
              (JObj [("type", JStr "boolean"); ("default", JBool true)])
              tt tt None
              [("type", JStr "boolean"); ("default", JBool true)]
              [("type", JStr "boolean"); ("default", JBool true)]
              ClsBoolean
              (JSONBooleanWidget
                 (JSONBaseWidget__init__ "done"
                    [("type", JStr "boolean"); ("default", JBool true)] tt None)
                 QCheckBox_new)
              eq_refl eq_refl eq_refl eq_refl eq_refl) as [Hc Hd].
  eexists. split; [exact Hc|].
  exact (Hd (JBool true) _ eq_refl eq_refl (fits_boolean _ _ true)).
Defined.



(** An array schema without [items], alone and as a property. *)
Lemma factory_degrades_witness :
  _create_widget 2 "tags" (JObj [("type", JStr "array")]) tt None
  = Ok (UnsupportedSchemaWidget
          (JSONBaseWidget__init__ "tags" [("type", JStr "array")] tt None)) /\
  exists w done,
    create_widget 3 "task" tagged_schema tt = Ok w /\
    children w
    = [UnsupportedSchemaWidget
         (JSONBaseWidget__init__ "tags" [("type", JStr "array")] tt
            (Some (widget_base w)));
       done] /\
    dump_json_object done = Ok (JBool true).
Proof.
  split.
  - refine (proj1 (factory_degrades_to_unsupported 0 "tags"
             (JObj [("type", JStr "array")]) tt tt
             [("type", JStr "array")] [("type", JStr "array")] ClsArray
             _ _ _ _) None _); reflexivity.
  - eexists. eexists. split; [vm_compute; reflexivity|].
    split; vm_compute; reflexivity.
Defined.

(** The shelf: the object declares [definitions], its first property
    takes them over, its second declares others, and the item created in
    the second takes over those. *)
Lemma definitions_inherited_witness :
  definitions (widget_base shelf_widget)
  = JObj [("isbn", JObj [("type", JStr "string")])] /\
  definitions (widget_base (first_child shelf_widget))
  = definitions (widget_base shelf_widget) /\
  definitions (widget_base (second_child shelf_widget))
  = JObj [("note", JObj [("type", JStr "boolean")])] /\
  definitions (widget_base (first_child (second_child shelf_widget)))
  = definitions (widget_base (second_child shelf_widget)).
Proof.
  assert (B : _create_widget 5 "shelf" shelf_schema tt None = Ok shelf_widget)
    by (vm_compute; reflexivity).
  assert (I2 : in_tree (second_child shelf_widget) shelf_widget).
  { eapply in_tree_child; [|apply in_tree_self]. vm_compute. right. now left. }
  destruct (definitions_inherited_down_the_tree 5 "shelf" shelf_schema tt
              None shelf_widget shelf_widget shelf_widget B
              (evolves_refl _) (in_tree_self _))
    as (_ & R & Hch).
  destruct (definitions_inherited_down_the_tree 5 "shelf" shelf_schema tt
              None shelf_widget shelf_widget (second_child shelf_widget) B
              (evolves_refl _) I2)
    as (_ & R2 & Hch2).
  split; [|split; [|split]].
  - rewrite R. reflexivity.
  - apply (Hch (first_child shelf_widget)); [vm_compute; now left|].
    reflexivity.
  - rewrite R2. reflexivity.
  - apply (Hch2 (first_child (second_child shelf_widget)));
      [vm_compute; now left|].
    reflexivity.
Defined.

(** ** The further properties on the example schemas *)

(** Removing the last of the two scores. *)
Lemma remove_item_witness :
  dump_json_object (remove_item scores_widget) = Ok (JArr [JInt 1]).
Proof.
  destruct (remove_item_drops_last_dumped_value (widget_base scores_widget)
              (JObj [("type", JStr "integer")]) JNull (children scores_widget)
              (JArr [JInt 1; JInt 2]))
    as (l & Hl & _ & Hd & _).
  - vm_compute. reflexivity.
  - injection Hl as <-. exact Hd.
Defined.

(** A third score added by the button, and removed again. *)
Lemma click_add_witness :
  exists w', click_add 3 scores_widget = Ok w' /\ remove_item w' = scores_widget.
Proof.
  eexists. split; [vm_compute; reflexivity|].
  edestruct (click_add_appends_and_remove_undoes 3 scores_widget)
    as (b & its & add & stack & s & obj & _ & _ & _ & _ & R);
    [vm_compute; reflexivity|].
  exact R.
Defined.

(** The pair holds its two children: the button adds no third, and a load
    stops at a third element. *)
Lemma tuple_array_witness :
  click_add 3 pair_widget = Raise AssertionError /\
  load_json_object 4 pair_widget (JArr [JInt 5; JStr "b"; JBool true])
  = Raise AssertionError.
Proof.
  destruct (tuple_array_cannot_outgrow_its_items 3 (widget_base pair_widget)
              [JObj [("type", JStr "integer")]; JObj [("type", JStr "string")]]
              (children pair_widget)) as [Hadd Hload].
  - vm_compute. lia.
  - split; [exact Hadd|].
    eapply (Hload [JInt 5; JStr "b"] (JBool true) []); [reflexivity|].
    vm_compute. reflexivity.
Defined.

(** The schema [{"type": "object"}]. *)
Lemma object_without_properties_witness :
  exists w,
    _create_widget 1 "empty" (JObj [("type", JStr "object")]) tt None = Ok w /\
    dump_json_object w = Ok (JObj []) /\
    load_json_object 1 w (JObj [("a", JInt 1)]) = Raise KeyError.
Proof.
  destruct (object_without_properties_is_empty 0 "empty"
              [("type", JStr "object")] tt None
              eq_refl eq_refl eq_refl eq_refl eq_refl eq_refl eq_refl)
    as (Hc & Hd & _ & Hk).
  eexists. split; [exact Hc|]. split; [exact Hd|].
  exact (Hk "a" (JInt 1) []).
Defined.

(** Two definitions that refer to one another. *)
Lemma cyclic_ref_witness :
  _create_widget (H := TableDocuments) 1000 "a"
    (JObj [("$ref", JStr "#/definitions/b")]) cyclic_table None
  = OutOfFuel.
Proof.
  destruct (cyclic_ref_exhausts_every_budget (H := TableDocuments)
              (fun s => s = [("$ref", JStr "#/definitions/b")] \/
                        s = [("$ref", JStr "#/definitions/a")])
              cyclic_table) with (s := [("$ref", JStr "#/definitions/b")])
    as [_ Hc].
  - intros s [-> | ->].
    + exists (JStr "#/definitions/b"), [("$ref", JStr "#/definitions/a")].
      split; [reflexivity|]. split; [reflexivity|]. now right.
    + exists (JStr "#/definitions/a"), [("$ref", JStr "#/definitions/b")].
      split; [reflexivity|]. split; [reflexivity|]. now left.
  - now left.
  - apply Hc. reflexivity.
Defined.


(** The union type of the second property stops the whole object. *)
Lemma failing_property_witness :
  _create_widget 3 "person" nick_schema tt None = Raise TypeError.
Proof.
  eapply (failing_property_aborts_the_object 2 "person" nick_schema tt tt None
            _ _ [("name", JObj [("type", JStr "string")])] [] "nick"
            (JObj [("type", JArr [JStr "string"; JStr "null"])]));
    try (vm_compute; reflexivity).
  discriminate.
Defined.

(** The person document with its keys in either order. *)
Lemma object_load_order_witness :
  exists w',
    load_json_object 2 person_widget
      (JObj [("name", JStr "Ann"); ("age", JInt 30)]) = Ok w' /\
    load_json_object 2 person_widget person_doc = Ok w'.
Proof.
  eexists. split; [vm_compute; reflexivity|].
  apply (object_load_ignores_key_order 1 (widget_base person_widget)
           (match person_widget with
            | JSONObjectWidget _ properties => properties
            | _ => []
            end)
           [("name", JStr "Ann"); ("age", JInt 30)]
           [("age", JInt 30); ("name", JStr "Ann")]).
  - vm_compute. repeat constructor; simpl; intuition discriminate.
  - vm_compute. repeat constructor; simpl; intuition discriminate.
  - apply perm_swap.
  - vm_compute. reflexivity.
Defined.

(** Loading ["b"] and then ["c"] into the colour node. *)
Lemma scalar_load_witness :
  exists w1,
    load_json_object 1 colour_widget (JStr "b") = Ok w1 /\
    load_json_object 1 w1 (JStr "c")
    = load_json_object 1 colour_widget (JStr "c").
Proof.
  eexists. split; [vm_compute; reflexivity|].
  apply (scalar_load_overwrites 1 1 colour_widget _ (JStr "b") (JStr "c"));
    vm_compute; reflexivity.
Defined.

(** The property of the task object that is a reference. *)
Lemma node_schema_witness :
  schema (widget_base (hd task_widget (children task_widget)))
  = [("type", JStr "boolean")] /\
  dict_get "$ref" (schema (widget_base (hd task_widget (children task_widget)))) = None.
Proof.
  split; [vm_compute; reflexivity|].
  apply (node_schema_has_no_ref (H := TableDocuments) 4 "task" task_schema
           flag_table None task_widget task_widget).
  - vm_compute. reflexivity.
  - apply evolves_refl.
  - eapply in_tree_child; [|apply in_tree_self]. vm_compute. now left.
Defined.

(** The level, between 2 and 10, takes 50 as 10. *)
Lemma integer_range_witness :
  (2 <= sb_value (spin_box level_widget) <= 10)%Z /\
  exists w1,
    load_json_object 1 level_widget (JInt 50) = Ok w1 /\
    dump_json_object w1 = Ok (JInt 10).
Proof.
  destruct (integer_value_stays_in_range 2 "level" (JObj level_schema) tt None
              level_widget level_widget (widget_base level_widget)
              (spin_box level_widget))
    as (_ & _ & Hmax & Hmin & Hload).
  - vm_compute. reflexivity.
  - apply evolves_refl.
  - apply in_tree_self.
  - split.
    + split.
      * apply (Hmin 1%Z eq_refl). right. exists 10%Z.
        split; [reflexivity|]. vm_compute. discriminate.
      * apply (Hmax 10%Z eq_refl).
    + eexists. split; [vm_compute; reflexivity|].
      refine (Hload 0%nat (JInt 50) 50%Z _ eq_refl _).
      vm_compute. reflexivity.
Defined.

(** The name, of at most 10 characters, cuts a longer one. *)
Lemma string_length_witness :
  maxLength (line_edit name_widget) = 10%Z /\
  exists w1,
    load_json_object 1 name_widget (JStr "Bartholomew Cubbins") = Ok w1 /\
    dump_json_object w1 = Ok (JStr "Bartholome").
Proof.
  destruct (string_text_stays_within_max_length 2 "name" (JObj name_schema) tt
              None name_widget name_widget (widget_base name_widget) []
              (line_edit name_widget))
    as (_ & Hmax & _ & Hload).
  - vm_compute. reflexivity.
  - apply evolves_refl.
  - apply in_tree_self.
  - split.
    + exact (proj1 (Hmax 10%Z eq_refl)).
    + eexists. split; [vm_compute; reflexivity|].
      refine (Hload 0%nat "Bartholomew Cubbins"%string _ _).
      vm_compute. reflexivity.
Defined.

(** The context without documents raises [ResolutionError] alone. *)
Lemma unsupported_never_escapes_witness :
  _create_widget 3 "task" tagged_schema tt None
  <> Raise UnsupportedSchemaError /\
  load_json_object 4 scores_widget (JArr [JInt 1; JInt 2; JInt 3])
  <> Raise UnsupportedSchemaError.
Proof.
  destruct (unsupported_schema_error_never_escapes (C := unit) 3)
    as [Hc _]; [intros c i; simpl; discriminate
               |intros c r; simpl; discriminate|].
  destruct (unsupported_schema_error_never_escapes (C := unit) 4)
    as [_ Hl]; [intros c i; simpl; discriminate
               |intros c r; simpl; discriminate|].
  split; [apply Hc|apply Hl].
Defined.

(** The colour node shows its first entry, nothing loaded. *)
Lemma untouched_node_witness :
  dump_json_object colour_widget = Ok (JStr "a").
Proof.
  refine (untouched_node_dumps_initial_value 1 "colour"
            (JObj [("enum", JArr [JStr "a"; JStr "b"; JStr "c"])]) tt tt None
            [("enum", JArr [JStr "a"; JStr "b"; JStr "c"])]
            [("enum", JArr [JStr "a"; JStr "b"; JStr "c"])] ClsEnum
            colour_widget _ _ _ _ _ _ [JStr "a"; JStr "b"; JStr "c"] _);
    vm_compute; reflexivity.
Defined.

(** The report on two errors, and on an error whose path has a position. *)
Lemma validation_report_witness :
  _do_validation (fun _ => two_errors) colour_widget
  = Ok {| label_text :=
            ("2 errors." ++ newline
             ++ "First error in #/properties/name/maxLength:" ++ newline
             ++ "'Bartholomew' is too long")%string;
          label_style := "QLabel { color: red; }" |} /\
  _do_validation (fun _ => [tuple_error]) colour_widget = Raise TypeError.
Proof.
  split.
  - destruct (validation_report_shows_first_error (fun _ => two_errors)
                colour_widget (JStr "a")) as (_ & Hr & _);
      [vm_compute; reflexivity|].
    exact (Hr _ _ ["properties"; "name"; "maxLength"]%string eq_refl eq_refl).
  - destruct (validation_report_shows_first_error (fun _ => [tuple_error])
                colour_widget (JStr "a")) as (_ & _ & Hr);
      [vm_compute; reflexivity|].
    apply (Hr tuple_error [] (JInt 1) eq_refl).
    + simpl. right. now left.
    + intros s. discriminate.
Defined.
